(** * ecoTracker backend: footprint calculator, goal progress, trends and tips

    A shallow embedding of the calculation and insight core of the
    ecoTracker backend ([models/Activity.js], [models/user.js],
    [routes/activities.js], [routes/insights.js],
    [routes/dashboard.js], [middleware/validation.js]), followed by the
    properties its specification states about it and by further
    properties of the same code.

    Modelling conventions.

    - Numbers.  The source computes in binary64, and the code is
      embedded twice.  In the first embedding a number is an exact
      rational ([Qc], canonical fractions with Leibniz equality), a
      decimal literal such as [0.21] is the rational it denotes, and a
      division whose divisor is a variable yields a [jsnum], which has
      the non-finite values of JavaScript, so that a division by zero
      shows in the result.  It carries the statements about the routes,
      the documents, the tables and the notifications, which the
      rounding of binary64 does not change.  The second embedding,
      module [B64], has the arithmetic of the language: a number is a
      primitive binary64 [float], the operations are those of IEEE 754,
      and [Math.round] and [toFixed] work on the exact value of the
      double.  Every statement whose answer depends on how a product, a
      sum or a quotient is rounded is made about [B64].
    - A string is a string of bytes; for a string of ASCII characters
      these are its characters, and its length is the [length] of the
      source.
    - An object literal used as a lookup table is a [gmap] on its own
      keys; a missing key is [None] ([undefined]).  Properties inherited
      from [Object.prototype] are not modelled: the validators of the
      routes and of the schema keep such keys away from the tables.
    - An optional field of a document or of a request is an [option].
    - A [Date] is its number of milliseconds since the epoch ([Z]); a
      handler reads the clock once ([now]).
    - The activity collection is the list of its documents in insertion
      order; a handler that writes takes the collection and returns the
      new one with its answer.  Generated identifiers are inputs. *)

From Stdlib Require Import ZArith QArith Qcanon Qround Lia Lqa.
From Stdlib Require Import PrimFloat SpecFloat FloatOps.
From stdpp Require Import base decidable option list strings gmap fin_maps pretty sorting.

Local Open Scope Z_scope.
Local Open Scope string_scope.
Local Open Scope Qc_scope.

(** ** JavaScript numbers and the operators the source uses *)

Module JS.

(** A decimal literal. *)
Definition num (q : Q) : Qc := Q2Qc q.

(** [x || d] on a table lookup: [undefined] and [0] are falsy. *)
Definition or_num (o : option Qc) (d : Qc) : Qc :=
  match o with
  | Some v => if decide (v = 0) then d else v
  | None => d
  end.

(** [s || d] on an optional string: [undefined] and [""] are falsy. *)
Definition or_str (o : option string) (d : string) : string :=
  match o with
  | Some s => if decide (s = "") then d else s
  | None => d
  end.

(** [obj[key]] where [key] may be [undefined]: the key ["undefined"] is
    in none of the tables. *)
Definition get (tbl : gmap string Qc) (key : option string) : option Qc :=
  key ≫= (tbl !!.).

(** [Math.round]: the nearest integer, a tie going to the larger one. *)
Definition Math_round (x : Qc) : Qc := Qc_of_Z (Qfloor (x + num 0.5)).

(** [Math.abs]. *)
Definition Math_abs (x : Qc) : Qc := if decide (x < 0) then - x else x.

(** [10^d] as a number. *)
Definition pow10 (d : nat) : Z := 10 ^ Z.of_nat d.

(** The integer [n] that [x.toFixed(d)] prints for [x >= 0]:
    [n / 10^d] is nearest to [x], the larger [n] on a tie. *)
Definition fixed_digits (d : nat) (x : Qc) : Z :=
  Qfloor (x * Qc_of_Z (pow10 d) + num 0.5).

(** [parseFloat(x.toFixed(d))]: [toFixed] prints the sign apart and
    rounds the magnitude. *)
Definition toFixed_num (d : nat) (x : Qc) : Qc :=
  if decide (x < 0)
  then - (Qc_of_Z (fixed_digits d (- x)) / Qc_of_Z (pow10 d))
  else Qc_of_Z (fixed_digits d x) / Qc_of_Z (pow10 d).

(** [Math.ceil] of the quotient of two integers, the divisor positive
    (used on differences of dates, which are integers). *)
Definition ceil_div (a b : Z) : Z := (- ((- a) / b))%Z.

(** *** Numbers that may not be finite

    The result of a division by a variable.  Zero has no sign in this
    model, so a non-zero number divided by zero takes the sign of the
    dividend. *)
Inductive jsnum := Fin (q : Qc) | PosInf | NegInf | NaN.

Definition div (x y : Qc) : jsnum :=
  if decide (y = 0)
  then (if decide (x = 0) then NaN
        else if decide (0 < x) then PosInf else NegInf)
  else Fin (x / y).

(** [x * c] for a finite [c]. *)
Definition mul (x : jsnum) (c : Qc) : jsnum :=
  match x with
  | Fin q => Fin (q * c)
  | NaN => NaN
  | PosInf => if decide (c = 0) then NaN
              else if decide (0 < c) then PosInf else NegInf
  | NegInf => if decide (c = 0) then NaN
              else if decide (0 < c) then NegInf else PosInf
  end.

(** [c - x] for a finite [c]. *)
Definition rsub (c : Qc) (x : jsnum) : jsnum :=
  match x with
  | Fin q => Fin (c - q)
  | NaN => NaN
  | PosInf => NegInf
  | NegInf => PosInf
  end.

(** [parseFloat(x.toFixed(d))] on a possibly non-finite number:
    [toFixed] prints ["Infinity"], ["-Infinity"] and ["NaN"], which
    [parseFloat] reads back. *)
Definition toFixed_jsnum (d : nat) (x : jsnum) : jsnum :=
  match x with
  | Fin q => Fin (toFixed_num d q)
  | other => other
  end.

(** *** Printing

    [x.toFixed(d)] as a string, for magnitudes below [10^21] (above, the
    source language switches to exponent notation, which is not
    modelled). *)
Fixpoint zeros (n : nat) : string :=
  match n with
  | O => ""
  | S n => "0" ++ zeros n
  end.

Definition pad_left (d : nat) (s : string) : string :=
  zeros (d - String.length s) ++ s.

Definition toFixed (d : nat) (x : Qc) : string :=
  let n := fixed_digits d (Math_abs x) in
  (if decide (x < 0) then "-" else "")
  ++ pretty (n / pow10 d)%Z
  ++ match d with
     | O => ""
     | S _ => "." ++ pad_left d (pretty (n mod pow10 d)%Z)
     end.

Definition toFixed_str (d : nat) (x : jsnum) : string :=
  match x with
  | Fin q => toFixed d q
  | PosInf => "Infinity"
  | NegInf => "-Infinity"
  | NaN => "NaN"
  end.

End JS.

(** ** models/Activity.js *)

Module Result.
(** The object [{ carbonFootprint, emissionFactor }] the calculators
    return. *)
Record t := mk { carbonFootprint : Qc; emissionFactor : Qc }.
End Result.

Record Quantity := { value : Qc; unit : string }.

Record ActivityDetails := {
  transportMode : option string;
  fuelEfficiency : option Qc;
  energySource : option string;
  foodType : option string;
  wasteType : option string;
  disposalMethod : option string
}.

Record Activity := {
  _id : nat;
  userId : nat;
  activityName : string;
  activityType : string;
  description : string;
  quantity : Quantity;
  activityDetails : ActivityDetails;
  date : Z;
  carbonFootprint : Qc;
  calculationMethod : string;
  emissionFactor : Qc
}.

Definition set_emissionFactor (f : Qc) (a : Activity) : Activity :=
  {| _id := _id a; userId := userId a; activityName := activityName a;
     activityType := activityType a; description := description a;
     quantity := quantity a; activityDetails := activityDetails a;
     date := date a; carbonFootprint := carbonFootprint a;
     calculationMethod := calculationMethod a; emissionFactor := f |}.

Definition set_carbonFootprint (c : Qc) (a : Activity) : Activity :=
  {| _id := _id a; userId := userId a; activityName := activityName a;
     activityType := activityType a; description := description a;
     quantity := quantity a; activityDetails := activityDetails a;
     date := date a; carbonFootprint := c;
     calculationMethod := calculationMethod a;
     emissionFactor := emissionFactor a |}.

Import JS.

(** *** Unit conversions (the first block of each calculator) *)

Definition distanceKm (q : Quantity) : Qc :=
  if decide (unit q = "miles") then value q * num 1.60934
  else if decide (unit q = "m") then value q / num 1000
  else value q.

Definition energykWh (q : Quantity) : Qc :=
  if decide (unit q = "MWh") then value q * num 1000
  else if decide (unit q = "BTU") then value q * num 0.000293071
  else value q.

Definition foodWeightKg (q : Quantity) : Qc :=
  if decide (unit q = "lbs") then value q * num 0.453592
  else if decide (unit q = "g") then value q / num 1000
  else if decide (unit q = "servings") then value q * num 0.25
  else value q.

Definition wasteWeightKg (q : Quantity) : Qc :=
  if decide (unit q = "lbs") then value q * num 0.453592
  else if decide (unit q = "g") then value q / num 1000
  else value q.

(** *** Emission factor tables *)

Definition transportEmissions : gmap string Qc :=
  list_to_map
    [ ("car_gasoline", num 0.21); ("car_diesel", num 0.17);
      ("car_electric", num 0.05); ("car_hybrid", num 0.12);
      ("bus", num 0.08); ("train", num 0.04);
      ("plane_domestic", num 0.25); ("plane_international", num 0.30);
      ("motorcycle", num 0.15); ("bicycle", num 0); ("walking", num 0) ].

Definition energyEmissions : gmap string Qc :=
  list_to_map
    [ ("coal", num 0.82); ("natural_gas", num 0.49); ("solar", num 0.05);
      ("wind", num 0.02); ("hydro", num 0.03); ("nuclear", num 0.06);
      ("grid_average", num 0.45) ].

Definition foodEmissions : gmap string Qc :=
  list_to_map
    [ ("beef", num 27.0); ("pork", num 12.1); ("chicken", num 6.9);
      ("fish", num 6.1); ("dairy_milk", num 3.2);
      ("dairy_cheese", num 13.5); ("vegetables", num 2.0);
      ("fruits", num 1.1); ("grains", num 1.4);
      ("processed_food", num 3.5) ].

(** [wasteEmissions.general_waste], the nested table. *)
Definition wasteEmissions_general_waste : gmap string Qc :=
  list_to_map [ ("landfill", num 0.5); ("incineration", num 0.3) ].

(** The numeric entries of [wasteEmissions]; its [general_waste] entry
    is the nested table above and is never read through this one. *)
Definition wasteEmissions : gmap string Qc :=
  list_to_map
    [ ("recycling", num (-0.1)); ("compost", num 0.1);
      ("hazardous", num 2.0) ].

(** *** The four calculators: (raw footprint, factor) *)

Definition calculateTransportEmissions (this : Activity) : Qc * Qc :=
  let emissionFactor :=
    or_num (get transportEmissions (transportMode (activityDetails this)))
           (num 0.21) in
  (distanceKm (quantity this) * emissionFactor, emissionFactor).

Definition calculateEnergyEmissions (this : Activity) : Qc * Qc :=
  let emissionFactor :=
    or_num (get energyEmissions (energySource (activityDetails this)))
           (num 0.45) in
  (energykWh (quantity this) * emissionFactor, emissionFactor).

Definition calculateFoodEmissions (this : Activity) : Qc * Qc :=
  let emissionFactor :=
    or_num (get foodEmissions (foodType (activityDetails this)))
           (num 2.0) in
  (foodWeightKg (quantity this) * emissionFactor, emissionFactor).

Definition calculateWasteEmissions (this : Activity) : Qc * Qc :=
  let wasteType := or_str (wasteType (activityDetails this)) "general_waste" in
  let disposalMethod := or_str (disposalMethod (activityDetails this)) "landfill" in
  let emissionFactor :=
    if decide (wasteType = "general_waste")
    then or_num (wasteEmissions_general_waste !! disposalMethod) (num 0.5)
    else or_num (wasteEmissions !! wasteType) (num 0.5) in
  (wasteWeightKg (quantity this) * emissionFactor, emissionFactor).

(** *** [calculateCarbonFootprint]

    [rawFootprint] is the [switch] on the activity type, which yields the
    unrounded footprint and the factor.  The method stores the factor on
    the document ([this.emissionFactor = emissionFactor]) and returns the
    rounded footprint with the factor; [footprint] is the returned object
    alone. *)

Definition rawFootprint (this : Activity) : Qc * Qc :=
  if decide (activityType this = "transport") then calculateTransportEmissions this
  else if decide (activityType this = "energy") then calculateEnergyEmissions this
  else if decide (activityType this = "food") then calculateFoodEmissions this
  else if decide (activityType this = "waste") then calculateWasteEmissions this
  else (0, 0).

Definition calculateCarbonFootprint (this : Activity) : Activity * Result.t :=
  let '(carbonFootprint, emissionFactor) := rawFootprint this in
  (set_emissionFactor emissionFactor this,
   Result.mk (Math_round (carbonFootprint * num 100) / num 100) emissionFactor).

Definition footprint (this : Activity) : Result.t :=
  (calculateCarbonFootprint this).2.

(** ** models/user.js: the two goal schemas *)

Module WeeklyGoal.
Record t := mk {
  userId : nat;
  startDate : Z;
  endDate : Z;
  category : string;
  goalType : string;
  targetReduction : Qc;
  baselineEmissions : Qc;
  targetEmissions : Qc;
  currentProgress : Qc;
  status : string;
  createdAt : Z
}.
End WeeklyGoal.

Module EmissionGoal.
Record t := mk {
  userId : nat;
  targetEmissions : Qc;
  category : string;
  timeframe : string;
  baselineEmissions : Qc;
  startDate : Z;
  endDate : Z;
  status : string;
  createdAt : Z
}.
End EmissionGoal.

(** The part of a user document the insight code reads. *)
Record User := {
  user_id : nat;
  currentWeeklyGoal : option WeeklyGoal.t;
  currentEmissionGoal : option EmissionGoal.t
}.

(** ** routes/insights.js *)

Definition msPerDay : Z := 24 * 60 * 60 * 1000.

(** [Activity.find({ userId, date: { $gte: since }, ...(category !== 'all'
    && { activityType: category }) })]. *)
Definition findSince (uid : nat) (since : Z) (category : string)
    (coll : list Activity) : list Activity :=
  filter (λ a, userId a = uid ∧ (since ≤ date a)%Z
               ∧ (category = "all" ∨ activityType a = category)) coll.

(** [activities.reduce((sum, activity) => sum + activity.carbonFootprint, 0)]. *)
Definition sumFootprints (activities : list Activity) : Qc :=
  foldl (λ sum activity, sum + carbonFootprint activity) 0 activities.

Module WeeklyProgress.
Record t := mk {
  currentEmissions : Qc;
  targetEmissions : Qc;
  baselineEmissions : Qc;
  reductionAchieved : Qc;
  progressPercentage : jsnum;
  isOnTrack : bool;
  daysRemaining : Z;
  activitiesLogged : nat
}.
End WeeklyProgress.

Module EmissionProgress.
Record t := mk {
  currentEmissions : Qc;
  targetEmissions : Qc;
  baselineEmissions : Qc;
  progressPercentage : jsnum;
  isOnTrack : bool;
  daysRemaining : Z;
  activitiesLogged : nat;
  remainingBudget : Qc
}.
End EmissionProgress.

(** The JSON answer of a goal-progress route. *)
Inductive GoalResponse (G P : Type) :=
  | NoActiveGoal
  | ActiveGoal (goal : G) (progress : P)
  | ServerError.
Arguments NoActiveGoal {G P}.
Arguments ActiveGoal {G P}.
Arguments ServerError {G P}.

(** The progress percentage of a weekly reduction goal. *)
Definition weeklyProgressPercentage (baselineEmissions currentEmissions : Qc) : jsnum :=
  if decide (0 < baselineEmissions)
  then toFixed_jsnum 1
         (mul (div (baselineEmissions - currentEmissions) baselineEmissions)
              (num 100))
  else Fin 0.

(** The body of [router.get('/weekly-goal-progress')] once the goal is
    known to be current. *)
Definition weeklyProgress (now : Z) (uid : nat) (currentGoal : WeeklyGoal.t)
    (coll : list Activity) : WeeklyProgress.t :=
  let currentActivities :=
    findSince uid (WeeklyGoal.startDate currentGoal)
              (WeeklyGoal.category currentGoal) coll in
  let currentEmissions := sumFootprints currentActivities in
  let progressPercentage :=
    weeklyProgressPercentage (WeeklyGoal.baselineEmissions currentGoal)
                             currentEmissions in
  let daysRemaining := ceil_div (WeeklyGoal.endDate currentGoal - now) msPerDay in
  let isOnTrack :=
    bool_decide (currentEmissions ≤ WeeklyGoal.targetEmissions currentGoal) in
  WeeklyProgress.mk
    (toFixed_num 2 currentEmissions)
    (WeeklyGoal.targetEmissions currentGoal)
    (WeeklyGoal.baselineEmissions currentGoal)
    (toFixed_num 2 (WeeklyGoal.baselineEmissions currentGoal - currentEmissions))
    progressPercentage isOnTrack daysRemaining (length currentActivities).

(** [router.get('/weekly-goal-progress')]; [user] is the result of
    [User.findById].  Reading [user.currentWeeklyGoal] of a missing user
    throws, which the handler answers with status 500. *)
Definition weekly_goal_progress (now : Z) (uid : nat) (user : option User)
    (coll : list Activity) : GoalResponse WeeklyGoal.t WeeklyProgress.t :=
  match user with
  | None => ServerError
  | Some user =>
      match currentWeeklyGoal user with
      | None => NoActiveGoal
      | Some currentGoal =>
          if decide (WeeklyGoal.endDate currentGoal < now)%Z then NoActiveGoal
          else ActiveGoal currentGoal (weeklyProgress now uid currentGoal coll)
      end
  end.

(** The progress percentage of a fixed emission goal. *)
Definition emissionProgressPercentage (targetEmissions currentEmissions : Qc) : jsnum :=
  if decide (0 < targetEmissions)
  then toFixed_jsnum 1 (mul (div currentEmissions targetEmissions) (num 100))
  else Fin 0.

(** The body of [router.get('/emission-goal-progress')] once the goal is
    known to be current. *)
Definition emissionProgress (now : Z) (uid : nat) (currentGoal : EmissionGoal.t)
    (coll : list Activity) : EmissionProgress.t :=
  let currentActivities :=
    findSince uid (EmissionGoal.startDate currentGoal)
              (EmissionGoal.category currentGoal) coll in
  let currentEmissions := sumFootprints currentActivities in
  let progressPercentage :=
    emissionProgressPercentage (EmissionGoal.targetEmissions currentGoal)
                               currentEmissions in
  let daysRemaining := ceil_div (EmissionGoal.endDate currentGoal - now) msPerDay in
  let isOnTrack :=
    bool_decide (currentEmissions ≤ EmissionGoal.targetEmissions currentGoal) in
  EmissionProgress.mk
    (toFixed_num 2 currentEmissions)
    (EmissionGoal.targetEmissions currentGoal)
    (EmissionGoal.baselineEmissions currentGoal)
    progressPercentage isOnTrack daysRemaining (length currentActivities)
    (toFixed_num 2 (EmissionGoal.targetEmissions currentGoal - currentEmissions)).

(** [router.get('/emission-goal-progress')]: [user?.currentEmissionGoal]
    of a missing user is [undefined], hence no active goal. *)
Definition emission_goal_progress (now : Z) (uid : nat) (user : option User)
    (coll : list Activity) : GoalResponse EmissionGoal.t EmissionProgress.t :=
  match user ≫= currentEmissionGoal with
  | None => NoActiveGoal
  | Some currentGoal =>
      if decide (EmissionGoal.endDate currentGoal < now)%Z then NoActiveGoal
      else ActiveGoal currentGoal (emissionProgress now uid currentGoal coll)
  end.

(** *** Trend direction *)

Inductive Direction := increasing | decreasing | stable.

(** ** routes/activities.js: real-time tips *)

Inductive TipType := info | success | warning | alert.
Inductive Priority := low | medium | high.

Module Tip.
Record t := mk {
  type : TipType;
  title : string;
  message : string;
  priority : Priority;
  category : string;
  actionable : bool;
  suggestions : list string
}.
End Tip.

Definition getAlternativeSuggestions (activity : Activity) : list string :=
  let suggestions : gmap string (list string) :=
    list_to_map
      [ ("transport",
         [ "Try walking or cycling for short trips";
           "Use public transport instead of driving";
           "Combine multiple errands into one trip";
           "Consider carpooling or ride-sharing" ]);
        ("food",
         [ "Choose more plant-based meals";
           "Buy local, seasonal produce";
           "Reduce portion sizes to minimize waste";
           "Try one meat-free day per week" ]);
        ("energy",
         [ "Use energy-efficient LED lighting";
           "Unplug devices when not in use";
           "Adjust thermostat by 2°C";
           "Switch to renewable energy if available" ]);
        ("waste",
         [ "Recycle whenever possible";
           "Compost organic waste";
           "Buy products with minimal packaging";
           "Repair items instead of replacing them" ]) ] in
  default
    [ "Look for lower-emission alternatives";
      "Consider reducing frequency of this activity";
      "Research eco-friendly options for this activity" ]
    (suggestions !! activityType activity).

Definition getLowEmissionSuggestions (activityType : string) : list string :=
  let suggestions : gmap string (list string) :=
    list_to_map
      [ ("transport", ["Walk"; "Bicycle"; "Public transport"; "Electric vehicle"]);
        ("food", ["Vegetables"; "Fruits"; "Local produce"; "Plant-based proteins"]);
        ("energy", ["LED lighting"; "Natural light"; "Energy-efficient appliances"]);
        ("waste", ["Recycling"; "Composting"; "Reusable items"; "Minimal packaging"]) ] in
  default ["Eco-friendly alternatives"] (suggestions !! activityType).

Definition getOptimizationSuggestions (activity : Activity) : list string :=
  let mode := transportMode (activityDetails activity) in
  let suggestions :=
    if decide (activityType activity = "transport") then
      ((if decide (mode = Some "car_gasoline")
        then [ "Consider hybrid or electric vehicle";
               "Carpool when possible";
               "Plan efficient routes" ]
        else [])
       ++ (if decide (mode = Some "plane_international")
           then [ "Consider direct flights (more efficient)";
                  "Offset your flight emissions" ]
           else []))%list
    else if decide (activityType activity = "food") then
      (if decide (foodType (activityDetails activity) = Some "beef")
       then [ "Try chicken or fish alternatives";
              "Consider plant-based proteins";
              "Reduce portion size" ]
       else [])
    else if decide (activityType activity = "energy") then
      [ "Switch to renewable energy sources";
        "Improve home insulation";
        "Use smart thermostats" ]
    else [] in
  if decide (0 < length suggestions)%nat then suggestions
  else ["Look for more efficient options"].

Definition getGlobalActivityTypeAverage (activityType : string) : Qc :=
  let averages : gmap string Qc :=
    list_to_map
      [ ("transport", num 5.0); ("food", num 3.0); ("energy", num 2.5);
        ("waste", num 1.0); ("other", num 2.0) ] in
  or_num (averages !! activityType) (num 2.0).

(** The aggregation [$match] (user, type, last 30 days) and [$group] with
    [$avg]; no matching document gives an empty answer, and an average of
    0 is falsy, so both fall back to the global average. *)
Definition getActivityTypeAverage (now : Z) (uid : nat) (type : string)
    (coll : list Activity) : Qc :=
  let matched :=
    filter (λ a, userId a = uid ∧ activityType a = type
                 ∧ (now - 30 * msPerDay ≤ date a)%Z) coll in
  let avgEmissions :=
    match matched with
    | [] => None
    | _ => Some (sumFootprints matched / Qc_of_Z (Z.of_nat (length matched)))
    end in
  or_num avgEmissions (getGlobalActivityTypeAverage type).

Definition generateGeneralTip (activity : Activity) : option Tip.t :=
  let highEmissionThresholds : gmap string Qc :=
    list_to_map
      [ ("transport", num 10); ("food", num 5); ("energy", num 8);
        ("waste", num 2) ] in
  let threshold :=
    or_num (highEmissionThresholds !! activityType activity) (num 3) in
  if decide (threshold < carbonFootprint activity) then
    Some (Tip.mk info "High Carbon Activity"
            ("This " ++ activityType activity ++ " activity produced "
             ++ toFixed 1 (carbonFootprint activity)
             ++ " kg CO₂. Consider setting an emission goal to track your progress!")
            low (activityType activity) true
            (getAlternativeSuggestions activity))
  else if decide (carbonFootprint activity < num 1) then
    Some (Tip.mk success "Low Carbon Choice!"
            ("This " ++ activityType activity ++ " activity only produced "
             ++ toFixed 2 (carbonFootprint activity) ++ " kg CO₂.")
            low (activityType activity) false [])
  else None.

(** [generateRealTimeTip]: [user] is the result of [User.findById], [coll]
    the activity collection (the new activity is already saved in it) and
    [now] the current time. *)
Definition generateRealTimeTip (now : Z) (user : option User)
    (coll : list Activity) (uid : nat) (newActivity : Activity) : option Tip.t :=
  match user ≫= currentEmissionGoal with
  | None => generateGeneralTip newActivity
  | Some currentGoal =>
      if decide (EmissionGoal.endDate currentGoal < now)%Z
      then generateGeneralTip newActivity
      else
        let targetEmissions := EmissionGoal.targetEmissions currentGoal in
        let timeframe := EmissionGoal.timeframe currentGoal in
        let currentActivities :=
          findSince uid (EmissionGoal.startDate currentGoal)
                    (EmissionGoal.category currentGoal) coll in
        let currentEmissions := sumFootprints currentActivities in
        let remainingBudget := targetEmissions - currentEmissions in
        let daysRemaining :=
          ceil_div (EmissionGoal.endDate currentGoal - now) msPerDay in
        if decide (remainingBudget ≤ 0) then
          Some (Tip.mk warning "Goal Budget Exceeded!"
                  ("You've exceeded your " ++ timeframe ++ " emission goal by "
                   ++ toFixed 1 (Math_abs remainingBudget)
                   ++ " kg CO₂. Consider lower-emission alternatives.")
                  high (EmissionGoal.category currentGoal) true
                  (getAlternativeSuggestions newActivity))
        else if decide (remainingBudget < targetEmissions * num 0.1) then
          Some (Tip.mk alert "Approaching Goal Limit"
                  ("Only " ++ toFixed 1 remainingBudget
                   ++ " kg CO₂ remaining in your " ++ timeframe
                   ++ " budget with " ++ pretty daysRemaining ++ " days left.")
                  medium (EmissionGoal.category currentGoal) true
                  (getLowEmissionSuggestions (activityType newActivity)))
        else if decide (getActivityTypeAverage now uid (activityType newActivity) coll
                        < carbonFootprint newActivity) then
          Some (Tip.mk info "Optimization Opportunity"
                  ("This " ++ activityType newActivity ++ " activity produced "
                   ++ toFixed 1 (carbonFootprint newActivity)
                   ++ " kg CO₂. You have " ++ toFixed 1 remainingBudget
                   ++ " kg remaining in your goal.")
                  low (activityType newActivity) true
                  (getOptimizationSuggestions newActivity))
        else if decide (currentEmissions ≤ targetEmissions * num 0.5
                        ∧ (1 < daysRemaining)%Z) then
          Some (Tip.mk success "Great Progress!"
                  ("You're "
                   ++ toFixed_str 0
                        (mul (rsub 1 (div currentEmissions targetEmissions))
                             (num 100))
                   ++ "% under your " ++ timeframe ++ " goal. Keep it up!")
                  low (EmissionGoal.category currentGoal) false [])
        else None
  end.

(** ** middleware/validation.js

    A request body after JSON parsing.  A required string that is missing
    is the empty string (both are falsy), a missing object is [None];
    bodies whose fields have another JSON type are not part of the
    model. *)
Record ActivityBody := {
  body_activityName : string;
  body_activityType : string;
  body_description : string;
  body_quantity : option Quantity;
  body_activityDetails : option ActivityDetails;
  body_date : option Z
}.

(** [s.trim()] on a string of ASCII characters: the white space and the
    line terminators of the language below 128 are the characters 9 to
    13 and the space. *)
Fixpoint trimStart (s : string) : string :=
  match s with
  | EmptyString => EmptyString
  | String c rest => if Ascii.is_space c then trimStart rest else s
  end.

Definition trim (s : string) : string :=
  String.rev (trimStart (String.rev (trimStart s))).

Definition join (sep : string) (l : list string) : string :=
  String.concat sep l.

(** [field && !valid.includes(field)] *)
Definition present_not_in (field : option string) (valid : list string) : bool :=
  match field with
  | Some s => bool_decide (s ≠ "" ∧ s ∉ valid)
  | None => false
  end.

Definition validTransportModes : list string :=
  [ "car_gasoline"; "car_diesel"; "car_electric"; "car_hybrid"; "bus";
    "train"; "plane_domestic"; "plane_international"; "motorcycle";
    "bicycle"; "walking" ].

Definition validEnergySources : list string :=
  [ "coal"; "natural_gas"; "solar"; "wind"; "hydro"; "nuclear";
    "grid_average" ].

Definition validFoodTypes : list string :=
  [ "beef"; "pork"; "chicken"; "fish"; "dairy_milk"; "dairy_cheese";
    "vegetables"; "fruits"; "grains"; "processed_food" ].

Definition validWasteTypes : list string :=
  [ "general_waste"; "recycling"; "compost"; "hazardous" ].

Definition validDisposalMethods : list string :=
  [ "landfill"; "incineration"; "recycling"; "composting" ].

(** The validators answer [None] for [{ isValid: true }] and the error
    message otherwise. *)
Definition validateTransportDetails (details : ActivityDetails) : option string :=
  if present_not_in (transportMode details) validTransportModes then
    Some ("Transport mode must be one of: " ++ join ", " validTransportModes)
  else
    match fuelEfficiency details with
    | Some f =>
        if bool_decide (f ≠ 0 ∧ f ≤ 0)
        then Some "Fuel efficiency must be a positive number"
        else None
    | None => None
    end.

Definition validateEnergyDetails (details : ActivityDetails) : option string :=
  if present_not_in (energySource details) validEnergySources
  then Some ("Energy source must be one of: " ++ join ", " validEnergySources)
  else None.

Definition validateFoodDetails (details : ActivityDetails) : option string :=
  if present_not_in (foodType details) validFoodTypes
  then Some ("Food type must be one of: " ++ join ", " validFoodTypes)
  else None.

Definition validateWasteDetails (details : ActivityDetails) : option string :=
  if present_not_in (wasteType details) validWasteTypes
  then Some ("Waste type must be one of: " ++ join ", " validWasteTypes)
  else if present_not_in (disposalMethod details) validDisposalMethods
  then Some ("Disposal method must be one of: " ++ join ", " validDisposalMethods)
  else None.

Definition validateActivityDetails (activityType : string)
    (activityDetails : ActivityDetails) : option string :=
  if decide (activityType = "transport") then validateTransportDetails activityDetails
  else if decide (activityType = "energy") then validateEnergyDetails activityDetails
  else if decide (activityType = "food") then validateFoodDetails activityDetails
  else if decide (activityType = "waste") then validateWasteDetails activityDetails
  else None.

Definition validTypes : list string :=
  [ "transport"; "energy"; "food"; "waste"; "other" ].

Definition validUnits : list string :=
  [ "km"; "miles"; "m"; "L"; "gallons"; "ml"; "hours"; "minutes"; "days";
    "kg"; "lbs"; "g"; "kWh"; "MWh"; "BTU"; "items"; "pieces"; "servings" ].

(** [validateActivity]: [None] stands for [next()], [Some error] for the
    answer with status 400.  The date of a body of this model is always a
    valid date. *)
Definition validateActivity (body : ActivityBody) : option string :=
  match body_quantity body with
  | None =>
      Some "Activity name, activity type, description, and quantity are required"
  | Some quantity =>
      if bool_decide (body_activityName body = "" ∨ body_activityType body = ""
                      ∨ body_description body = "")
      then Some "Activity name, activity type, description, and quantity are required"
      else if bool_decide (String.length (trim (body_activityName body)) = 0%nat)
      then Some "Activity name cannot be empty"
      else if bool_decide (100 < String.length (body_activityName body))%nat
      then Some "Activity name cannot exceed 100 characters"
      else if bool_decide (body_activityType body ∉ validTypes)
      then Some ("Activity type must be one of: " ++ join ", " validTypes)
      else if bool_decide (String.length (trim (body_description body)) = 0%nat)
      then Some "Description cannot be empty"
      else if bool_decide (500 < String.length (body_description body))%nat
      then Some "Description cannot exceed 500 characters"
      else if bool_decide (value quantity = 0 ∨ unit quantity = "")
      then Some "Quantity must include both value and unit"
      else if bool_decide (value quantity ≤ 0)
      then Some "Quantity value must be greater than 0"
      else if bool_decide (unit quantity ∉ validUnits)
      then Some ("Quantity unit must be one of: " ++ join ", " validUnits)
      else
        match body_activityDetails body with
        | Some details => validateActivityDetails (body_activityType body) details
        | None => None
        end
  end.

(** The empty details object [{}]. *)
Definition noDetails : ActivityDetails :=
  {| transportMode := None; fuelEfficiency := None; energySource := None;
     foodType := None; wasteType := None; disposalMethod := None |}.

(** ** The Activity model: construction, validation, hooks

    What the schema of [models/Activity.js] asks of the document layer:
    defaults and the [trim] setters at construction, the validators of
    the schema, and the [pre('save')] hook, which runs after validation
    and before the document is written. *)

(** [new Activity({ userId, activityName, activityType, description,
    quantity, activityDetails, date })]; [freshId] is the generated
    [_id], and [date] defaults to the current time. *)
Definition newActivity (now : Z) (freshId uid : nat) (name type descr : string)
    (q : Quantity) (details : ActivityDetails) (when : option Z) : Activity :=
  {| _id := freshId; userId := uid; activityName := trim name;
     activityType := type; description := trim descr; quantity := q;
     activityDetails := details; date := default now when;
     carbonFootprint := 0; calculationMethod := "system_calculated";
     emissionFactor := 0 |}.

(** An [enum] validator is skipped on a missing value. *)
Definition enumError (path : string) (field : option string)
    (values : list string) : list string :=
  match field with
  | Some s =>
      if bool_decide (s ∈ values) then []
      else ["`" ++ s ++ "` is not a valid enum value for path `" ++ path ++ "`."]
  | None => []
  end.

(** The validators of the paths a request can set; the messages are
    those of the schema, or the default message of the validator. *)
Definition fieldErrors (name type descr : string) (q : Quantity)
    (details : ActivityDetails) : list string :=
  ((if decide (name = "") then ["Activity name is required"]
    else if decide (100 < String.length name)%nat
    then ["Activity name cannot exceed 100 characters"] else [])
   ++ (if decide (type = "") then ["Activity type is required"]
       else if decide (type ∈ validTypes) then []
       else ["Activity type must be one of: transport, energy, food, waste, other"])
   ++ (if decide (descr = "") then ["Description is required"]
       else if decide (500 < String.length descr)%nat
       then ["Description cannot exceed 500 characters"] else [])
   ++ (if decide (value q < 0) then ["Quantity value cannot be negative"] else [])
   ++ (if decide (unit q = "") then ["Quantity unit is required"]
       else if decide (unit q ∈ validUnits) then []
       else ["Invalid quantity unit"])
   ++ enumError "activityDetails.transportMode" (transportMode details)
                validTransportModes
   ++ enumError "activityDetails.energySource" (energySource details)
                validEnergySources
   ++ enumError "activityDetails.foodType" (foodType details) validFoodTypes
   ++ enumError "activityDetails.wasteType" (wasteType details) validWasteTypes
   ++ enumError "activityDetails.disposalMethod" (disposalMethod details)
                validDisposalMethods)%list.

(** Validation of a whole document before it is saved. *)
Definition validationErrors (a : Activity) : list string :=
  (fieldErrors (activityName a) (activityType a) (description a)
               (quantity a) (activityDetails a)
   ++ (if decide (carbonFootprint a < 0)
       then ["Carbon footprint cannot be negative"] else []))%list.

(** The value of [result.carbonFootprint || result]: the number when it
    is truthy, the whole result object when it is 0. *)
Inductive NumberOrResult :=
  | IsNumber (q : Qc)
  | IsResult (r : Result.t).

Definition carbonFootprint_or_result (result : Result.t) : NumberOrResult :=
  if decide (Result.carbonFootprint result = 0) then IsResult result
  else IsNumber (Result.carbonFootprint result).

(** Assignment to the Number path [carbonFootprint]: a number is stored;
    an object does not cast to a number, so the assignment is refused and
    the path keeps its value. *)
Definition assign_carbonFootprint (v : NumberOrResult) (a : Activity) : Activity :=
  match v with
  | IsNumber q => set_carbonFootprint q a
  | IsResult _ => a
  end.

(** [activitySchema.pre('save', ...)]; [modified] is
    [this.isModified(['quantity', 'activityType', 'activityDetails'])]. *)
Definition preSave (isNew modified : bool) (this : Activity) : Activity :=
  if isNew || modified then
    let '(this, result) := calculateCarbonFootprint this in
    let this := assign_carbonFootprint (carbonFootprint_or_result result) this in
    set_emissionFactor (or_num (Some (Result.emissionFactor result)) 0) this
  else this.

(** [activity.save()] of a new document: the validation errors, or the
    collection with the document the hook produced. *)
Definition saveNew (a : Activity) (coll : list Activity)
    : list string + (list Activity * Activity) :=
  match validationErrors a with
  | [] => let a := preSave true false a in inr ((coll ++ [a])%list, a)
  | errors => inl errors
  end.

(** ** routes/activities.js: the handlers *)

Inductive Response :=
  | Created (activity : Activity) (realTimeTip : option Tip.t)
  | Updated (activity : Activity)
  | Preview (calculatedCarbonFootprint emissionFactor : Qc)
            (quantity : Quantity) (activityType : string)
            (activityDetails : ActivityDetails)
  | BadRequest (error : string) (details : list string)
  | NotFound.

(** [router.post('/')].  [user] is the result of [User.findById] for the
    authenticated user [uid].  The notification sent over the socket and
    the update of the user's statistics do not touch the activity
    collection nor the answer and are not modelled.  (In the three
    handlers the branch of a body without quantity that passed
    [validateActivity] is never taken: the middleware refuses such a
    body.) *)
Definition post_activity (now : Z) (freshId : nat) (user : option User)
    (uid : nat) (body : ActivityBody) (coll : list Activity)
    : list Activity * Response :=
  match validateActivity body, body_quantity body with
  | Some error, _ => (coll, BadRequest error [])
  | None, None => (coll, BadRequest "" [])
  | None, Some quantity =>
      let activity :=
        newActivity now freshId uid (body_activityName body)
                    (body_activityType body) (body_description body)
                    {| value := value quantity; unit := unit quantity |}
                    (default noDetails (body_activityDetails body))
                    (body_date body) in
      match saveNew activity coll with
      | inl errors => (coll, BadRequest "Validation error" errors)
      | inr (coll, activity) =>
          let tip := generateRealTimeTip now user coll uid activity in
          (coll, Created activity tip)
      end
  end.

(** The [$set] of [updateData] on a stored document; the computed fields
    are not in [updateData].  A body without date leaves the date as it
    is. *)
Definition applyUpdate (name type descr : string) (q : Quantity)
    (details : ActivityDetails) (when : option Z) (a : Activity) : Activity :=
  {| _id := _id a; userId := userId a; activityName := trim name;
     activityType := type; description := trim descr; quantity := q;
     activityDetails := details; date := default (date a) when;
     carbonFootprint := carbonFootprint a;
     calculationMethod := calculationMethod a;
     emissionFactor := emissionFactor a |}.

(** [Activity.findOneAndUpdate(filter, update, { new: true })]: the first
    document that matches is replaced by its update, which is returned.
    A query update is not a [save]: no document hook runs. *)
Fixpoint findOneAndUpdate (matches : Activity → bool) (update : Activity → Activity)
    (coll : list Activity) : list Activity * option Activity :=
  match coll with
  | [] => ([], None)
  | a :: rest =>
      if matches a then (update a :: rest, Some (update a))
      else let '(rest, found) := findOneAndUpdate matches update rest in
           (a :: rest, found)
  end.

(** [router.put('/:id')], with [runValidators: true]: the validators of
    the updated paths run before the query. *)
Definition put_activity (id uid : nat) (body : ActivityBody)
    (coll : list Activity) : list Activity * Response :=
  match validateActivity body, body_quantity body with
  | Some error, _ => (coll, BadRequest error [])
  | None, None => (coll, BadRequest "" [])
  | None, Some quantity =>
      let q := {| value := value quantity; unit := unit quantity |} in
      let details := default noDetails (body_activityDetails body) in
      match fieldErrors (trim (body_activityName body)) (body_activityType body)
                        (trim (body_description body)) q details with
      | [] =>
          match findOneAndUpdate
                  (λ a, bool_decide (_id a = id ∧ userId a = uid))
                  (applyUpdate (body_activityName body) (body_activityType body)
                               (body_description body) q details (body_date body))
                  coll with
          | (coll, Some activity) => (coll, Updated activity)
          | (coll, None) => (coll, NotFound)
          end
      | errors => (coll, BadRequest "Validation error" errors)
      end
  end.

(** [router.post('/calculate-preview')]: a temporary document that is
    never saved.  The answer repeats the quantity, the type and the
    details of the request. *)
Definition post_calculate_preview (now : Z) (freshId uid : nat)
    (body : ActivityBody) : Response :=
  match validateActivity body, body_quantity body with
  | Some error, _ => BadRequest error []
  | None, None => BadRequest "" []
  | None, Some q =>
      let tempActivity :=
        newActivity now freshId uid "temp" (body_activityType body) "temp"
                    q (default noDetails (body_activityDetails body))
                    None in
      let '(tempActivity, result) := calculateCarbonFootprint tempActivity in
      Preview (Result.carbonFootprint result) (Result.emissionFactor result)
              (quantity tempActivity) (body_activityType body)
              (default noDetails (body_activityDetails body))
  end.

(** * Vocabulary of the statements

    Sample inputs, the quantities the properties speak of, and the
    wording of the specification where a property is compared with it. *)

(** An activity as the routes build it; only the fields the calculators
    read matter in the examples. *)
Definition sample (type : string) (v : Q) (u : string) (d : ActivityDetails) : Activity :=
  {| _id := 0; userId := 0; activityName := "temp"; activityType := type;
     description := "temp"; quantity := {| value := num v; unit := u |};
     activityDetails := d; date := 0; carbonFootprint := 0;
     calculationMethod := "system_calculated"; emissionFactor := 0 |}.

Definition withTransportMode (m : string) : ActivityDetails :=
  {| transportMode := Some m; fuelEfficiency := None; energySource := None;
     foodType := None; wasteType := None; disposalMethod := None |}.

Definition withEnergySource (s : string) : ActivityDetails :=
  {| transportMode := None; fuelEfficiency := None; energySource := Some s;
     foodType := None; wasteType := None; disposalMethod := None |}.

Definition withFoodType (f : string) : ActivityDetails :=
  {| transportMode := None; fuelEfficiency := None; energySource := None;
     foodType := Some f; wasteType := None; disposalMethod := None |}.

Definition withWaste (w d : option string) : ActivityDetails :=
  {| transportMode := None; fuelEfficiency := None; energySource := None;
     foodType := None; wasteType := w; disposalMethod := d |}.

(** The quantity in the unit of the category (km, kWh, kg), as the
    calculator of that category converts it; a category without a
    calculator has no conversion. *)
Definition canonicalQuantity (a : Activity) : Qc :=
  if decide (activityType a = "transport") then distanceKm (quantity a)
  else if decide (activityType a = "energy") then energykWh (quantity a)
  else if decide (activityType a = "food") then foodWeightKg (quantity a)
  else if decide (activityType a = "waste") then wasteWeightKg (quantity a)
  else value (quantity a).


(** The factor the direct lookup of a waste type yields. *)
Definition wasteTypeFactor (w : string) : Qc :=
  if decide (w = "recycling") then num (-0.1)
  else if decide (w = "compost") then num 0.1
  else if decide (w = "hazardous") then num 2.0
  else num 0.5.

(** The units a category's calculator converts. *)
Definition convertedUnits (type : string) : list string :=
  if decide (type = "transport") then ["miles"; "m"]
  else if decide (type = "energy") then ["MWh"; "BTU"]
  else if decide (type = "food") then ["lbs"; "g"; "servings"]
  else if decide (type = "waste") then ["lbs"; "g"]
  else [].

(** The percentage change and the direction as the specification words
    them: the quotient unless the previous total is exactly zero, and
    stable within five percent. *)
Definition spec_percentageChange (prev curr : Qc) : Qc :=
  if decide (prev = 0) then 0 else (curr - prev) / prev * num 100.

Definition spec_direction (prev curr : Qc) : Direction :=
  if decide (Math_abs (spec_percentageChange prev curr) ≤ num 5) then stable
  else if decide (0 < curr - prev) then increasing
  else decreasing.

(** A stored activity of user 1 with the given footprint and date. *)
Definition logged (type : string) (footprint : Q) (when : Z) : Activity :=
  {| _id := 0; userId := 1; activityName := "logged"; activityType := type;
     description := "logged"; quantity := {| value := 1; unit := "km" |};
     activityDetails := noDetails; date := when;
     carbonFootprint := num footprint;
     calculationMethod := "system_calculated"; emissionFactor := 0 |}.


(** A fixed emission goal of user 1 over days 0 to 7. *)
Definition emissionGoal (baseline target : Q) : EmissionGoal.t :=
  EmissionGoal.mk 1 (num target) "all" "weekly" (num baseline)
                  0 (7 * msPerDay) "active" 0.

(** User 1 with a current fixed emission goal. *)
Definition userWithEmissionGoal (goal : EmissionGoal.t) : User :=
  {| user_id := 1; currentWeeklyGoal := None;
     currentEmissionGoal := Some goal |}.

(** A request body for an activity named ["trip"]. *)
Definition request (type : string) (v : Q) (u : string)
    (details : option ActivityDetails) : ActivityBody :=
  {| body_activityName := "trip"; body_activityType := type;
     body_description := "a trip";
     body_quantity := Some {| value := num v; unit := u |};
     body_activityDetails := details; body_date := None |}.

(** The stored footprint and factor of a document agree with its stored
    type, quantity and details. *)
Definition consistent (a : Activity) : Prop :=
  carbonFootprint a = Result.carbonFootprint (footprint a)
  ∧ emissionFactor a = Result.emissionFactor (footprint a).


(** * The same code in binary64

    The numbers of the source language are binary64 floating-point
    numbers.  Where an answer depends on how a product, a sum or a
    quotient is rounded, the functions are embedded once more with the
    arithmetic of the language: [float] is the primitive binary64 type,
    whose operations are those of IEEE 754, and a decimal literal is the
    double nearest to it.  [Math.round] and [toFixed] are defined by the
    language on the exact value of the double, and so they are here. *)

Module B64.

Local Open Scope float_scope.
#[local] Set Warnings "-inexact-float".

(** *** Numbers *)

Definition is_nan (x : float) : bool := negb (x =? x).

(** The truth value of a number: [0], [-0] and [NaN] are falsy. *)
Definition truthy (x : float) : bool := negb ((x =? 0) || is_nan x).

(** [x || d] on a table lookup or on the answer of a query. *)
Definition or_num (o : option float) (d : float) : float :=
  match o with
  | Some v => if truthy v then v else d
  | None => d
  end.

(** [obj[key]] where [key] may be [undefined]. *)
Definition get (tbl : gmap string float) (key : option string) : option float :=
  key ≫= (tbl !!.).

(** An integer as a number (exact below [2^53]). *)
Definition of_Z (n : Z) : float :=
  match n with
  | Z0 => 0
  | Zpos p => SF2Prim (S754_finite false p 0)
  | Zneg p => SF2Prim (S754_finite true p 0)
  end.

(** The double nearest to [n / d], a tie going to the even one: what
    [parseFloat] reads from the decimal numeral of [n / d]. *)
Definition nearest (n d : positive) : float :=
  SF2Prim (SFdiv prec emax (S754_finite false n 0) (S754_finite false d 0)).

(** The exact value of a finite double: [num / den], [den] a power of 2. *)
Definition exact_num (x : float) : Z :=
  match Prim2SF x with
  | S754_finite s m e =>
      let a := if (0 <=? e)%Z then (Z.pos m * 2 ^ e)%Z else Z.pos m in
      if s then (- a)%Z else a
  | _ => 0%Z
  end.

Definition exact_den (x : float) : Z :=
  match Prim2SF x with
  | S754_finite s m e => if (0 <=? e)%Z then 1%Z else (2 ^ (- e))%Z
  | _ => 1%Z
  end.

Definition exact (x : float) : Qc := Qc_of_Z (exact_num x) / Qc_of_Z (exact_den x).

(** [Math.round]: the integer nearest to the exact value of [x], a tie
    going to the larger one ([nearest_integer]); an integer, an infinity
    and [NaN] are returned as they are, and a negative [x] that rounds to
    zero gives [-0]. *)
Definition nearest_integer (x : float) : Z :=
  ((2 * exact_num x + exact_den x) / (2 * exact_den x))%Z.

Definition Math_round (x : float) : float :=
  match Prim2SF x with
  | S754_finite s m e =>
      if (0 <=? e)%Z then x
      else
        let n := nearest_integer x in
        if (n =? 0)%Z then (if s then neg_zero else zero) else of_Z n
  | _ => x
  end.

Definition Math_abs (x : float) : float := abs x.


(** The integer [n] that [x.toFixed(d)] prints after the sign:
    [n / 10^d] is nearest to the exact magnitude of [x], the larger [n]
    on a tie. *)
Definition fixed_integer (d : nat) (x : float) : Z :=
  ((2 * Z.abs (exact_num x) * pow10 d + exact_den x) / (2 * exact_den x))%Z.

(** What [parseFloat] reads from the digits of [fixed_integer]: the
    double nearest to [n / 10^d]. *)
Definition fixed_value (d : nat) (x : float) : float :=
  match fixed_integer d x with
  | Zpos p => nearest p (Z.to_pos (pow10 d))
  | _ => 0
  end.

(** [parseFloat(x.toFixed(d))].  [toFixed] prints the sign and the
    digits of [fixed_integer]; from [10^21] on it prints [x] itself. *)
Definition toFixed_num (d : nat) (x : float) : float :=
  match Prim2SF x with
  | S754_finite s m e =>
      if 1e21 <=? abs x then x
      else if s then - fixed_value d x else fixed_value d x
  | S754_zero _ => 0
  | _ => x
  end.

(** [x.toFixed(d)] as a string, for magnitudes below [10^21]. *)
Definition toFixed (d : nat) (x : float) : string :=
  match Prim2SF x with
  | S754_nan => "NaN"
  | S754_infinity s => if s then "-Infinity" else "Infinity"
  | _ => JS.toFixed d (exact x)
  end.

(** *** models/Activity.js *)

Module Result.
Record t := mk { carbonFootprint : float; emissionFactor : float }.
End Result.

Record Quantity := { value : float; unit : string }.

(** A document; its details are those of the exact embedding (the
    calculators read the strings of the details only). *)
Record Activity := {
  _id : nat;
  userId : nat;
  activityName : string;
  activityType : string;
  description : string;
  quantity : Quantity;
  activityDetails : ActivityDetails;
  date : Z;
  carbonFootprint : float;
  calculationMethod : string;
  emissionFactor : float
}.

Definition set_emissionFactor (f : float) (a : Activity) : Activity :=
  {| _id := _id a; userId := userId a; activityName := activityName a;
     activityType := activityType a; description := description a;
     quantity := quantity a; activityDetails := activityDetails a;
     date := date a; carbonFootprint := carbonFootprint a;
     calculationMethod := calculationMethod a; emissionFactor := f |}.

Definition distanceKm (q : Quantity) : float :=
  if decide (unit q = "miles") then value q * 1.60934
  else if decide (unit q = "m") then value q / 1000
  else value q.

Definition energykWh (q : Quantity) : float :=
  if decide (unit q = "MWh") then value q * 1000
  else if decide (unit q = "BTU") then value q * 0.000293071
  else value q.

Definition foodWeightKg (q : Quantity) : float :=
  if decide (unit q = "lbs") then value q * 0.453592
  else if decide (unit q = "g") then value q / 1000
  else if decide (unit q = "servings") then value q * 0.25
  else value q.

Definition wasteWeightKg (q : Quantity) : float :=
  if decide (unit q = "lbs") then value q * 0.453592
  else if decide (unit q = "g") then value q / 1000
  else value q.

Definition transportEmissions : gmap string float :=
  list_to_map
    [ ("car_gasoline", 0.21); ("car_diesel", 0.17);
      ("car_electric", 0.05); ("car_hybrid", 0.12);
      ("bus", 0.08); ("train", 0.04);
      ("plane_domestic", 0.25); ("plane_international", 0.30);
      ("motorcycle", 0.15); ("bicycle", 0); ("walking", 0) ].

Definition energyEmissions : gmap string float :=
  list_to_map
    [ ("coal", 0.82); ("natural_gas", 0.49); ("solar", 0.05);
      ("wind", 0.02); ("hydro", 0.03); ("nuclear", 0.06);
      ("grid_average", 0.45) ].

Definition foodEmissions : gmap string float :=
  list_to_map
    [ ("beef", 27.0); ("pork", 12.1); ("chicken", 6.9);
      ("fish", 6.1); ("dairy_milk", 3.2);
      ("dairy_cheese", 13.5); ("vegetables", 2.0);
      ("fruits", 1.1); ("grains", 1.4);
      ("processed_food", 3.5) ].

Definition wasteEmissions_general_waste : gmap string float :=
  list_to_map [ ("landfill", 0.5); ("incineration", 0.3) ].

Definition wasteEmissions : gmap string float :=
  list_to_map
    [ ("recycling", - 0.1); ("compost", 0.1); ("hazardous", 2.0) ].

Definition calculateTransportEmissions (this : Activity) : float * float :=
  let emissionFactor :=
    or_num (get transportEmissions (transportMode (activityDetails this))) 0.21 in
  (distanceKm (quantity this) * emissionFactor, emissionFactor).

Definition calculateEnergyEmissions (this : Activity) : float * float :=
  let emissionFactor :=
    or_num (get energyEmissions (energySource (activityDetails this))) 0.45 in
  (energykWh (quantity this) * emissionFactor, emissionFactor).

Definition calculateFoodEmissions (this : Activity) : float * float :=
  let emissionFactor :=
    or_num (get foodEmissions (foodType (activityDetails this))) 2.0 in
  (foodWeightKg (quantity this) * emissionFactor, emissionFactor).

Definition calculateWasteEmissions (this : Activity) : float * float :=
  let wasteType := or_str (wasteType (activityDetails this)) "general_waste" in
  let disposalMethod := or_str (disposalMethod (activityDetails this)) "landfill" in
  let emissionFactor :=
    if decide (wasteType = "general_waste")
    then or_num (wasteEmissions_general_waste !! disposalMethod) 0.5
    else or_num (wasteEmissions !! wasteType) 0.5 in
  (wasteWeightKg (quantity this) * emissionFactor, emissionFactor).

Definition rawFootprint (this : Activity) : float * float :=
  if decide (activityType this = "transport") then calculateTransportEmissions this
  else if decide (activityType this = "energy") then calculateEnergyEmissions this
  else if decide (activityType this = "food") then calculateFoodEmissions this
  else if decide (activityType this = "waste") then calculateWasteEmissions this
  else (0, 0).

Definition calculateCarbonFootprint (this : Activity) : Activity * Result.t :=
  let '(carbonFootprint, emissionFactor) := rawFootprint this in
  (set_emissionFactor emissionFactor this,
   Result.mk (Math_round (carbonFootprint * 100) / 100) emissionFactor).

Definition footprint (this : Activity) : Result.t :=
  (calculateCarbonFootprint this).2.

(** *** routes/insights.js: the fixed emission goal *)

Module EmissionGoal.
Record t := mk {
  userId : nat;
  targetEmissions : float;
  category : string;
  timeframe : string;
  baselineEmissions : float;
  startDate : Z;
  endDate : Z;
  status : string;
  createdAt : Z
}.
End EmissionGoal.

(** The part of a user document the emission goal code reads. *)
Record User := { currentEmissionGoal : option EmissionGoal.t }.

(** [Activity.find({ userId, date: { $gte: since }, ...(category !== 'all'
    && { activityType: category }) })], in the order of the collection. *)
Definition findSince (uid : nat) (since : Z) (category : string)
    (coll : list Activity) : list Activity :=
  filter (λ a, userId a = uid ∧ (since ≤ date a)%Z
               ∧ (category = "all" ∨ activityType a = category)) coll.

(** [activities.reduce((sum, activity) => sum + activity.carbonFootprint, 0)]:
    the footprints are added one after the other, each sum rounded to a
    double. *)
Definition sumFootprints (activities : list Activity) : float :=
  foldl (λ sum activity, sum + carbonFootprint activity) 0 activities.

Module EmissionProgress.
Record t := mk {
  currentEmissions : float;
  targetEmissions : float;
  baselineEmissions : float;
  progressPercentage : float;
  isOnTrack : bool;
  daysRemaining : Z;
  activitiesLogged : nat;
  remainingBudget : float
}.
End EmissionProgress.

Definition emissionProgressPercentage (targetEmissions currentEmissions : float)
    : float :=
  if 0 <? targetEmissions
  then toFixed_num 1 ((currentEmissions / targetEmissions) * 100)
  else 0.

(** The body of [router.get('/emission-goal-progress')] once the goal is
    known to be current. *)
Definition emissionProgress (now : Z) (uid : nat) (currentGoal : EmissionGoal.t)
    (coll : list Activity) : EmissionProgress.t :=
  let currentActivities :=
    findSince uid (EmissionGoal.startDate currentGoal)
              (EmissionGoal.category currentGoal) coll in
  let currentEmissions := sumFootprints currentActivities in
  let progressPercentage :=
    emissionProgressPercentage (EmissionGoal.targetEmissions currentGoal)
                               currentEmissions in
  let daysRemaining := ceil_div (EmissionGoal.endDate currentGoal - now) msPerDay in
  let isOnTrack := currentEmissions <=? EmissionGoal.targetEmissions currentGoal in
  EmissionProgress.mk
    (toFixed_num 2 currentEmissions)
    (EmissionGoal.targetEmissions currentGoal)
    (EmissionGoal.baselineEmissions currentGoal)
    progressPercentage isOnTrack daysRemaining (length currentActivities)
    (toFixed_num 2 (EmissionGoal.targetEmissions currentGoal - currentEmissions)).

(** [router.get('/emission-goal-progress')]; [user] is the result of
    [User.findById]. *)
Definition emission_goal_progress (now : Z) (uid : nat) (user : option User)
    (coll : list Activity) : GoalResponse EmissionGoal.t EmissionProgress.t :=
  match user ≫= currentEmissionGoal with
  | None => NoActiveGoal
  | Some currentGoal =>
      if decide (EmissionGoal.endDate currentGoal < now)%Z then NoActiveGoal
      else ActiveGoal currentGoal (emissionProgress now uid currentGoal coll)
  end.

(** *** Trend direction *)

Record Bucket := {
  weekStart : string;
  totalEmissions : float;
  activityCount : nat;
  byCategory : gmap string float
}.

(** The returned object; [percentageChange] is absent when there are
    fewer than two weeks. *)
Record Trend := {
  direction : Direction;
  change : float;
  percentageChange : option float
}.

Definition calculateTrendDirection (trendsArray : list Bucket) : Trend :=
  if decide (length trendsArray < 2)%nat
  then {| direction := stable; change := 0; percentageChange := None |}
  else
    (* trendsArray.slice(-2) *)
    match drop (length trendsArray - 2) trendsArray with
    | [recent0; recent1] =>
        let change := totalEmissions recent1 - totalEmissions recent0 in
        let percentageChange :=
          if 0 <? totalEmissions recent0
          then (change / totalEmissions recent0) * 100
          else 0 in
        let direction :=
          if 5 <? Math_abs percentageChange
          then (if 0 <? change then increasing else decreasing)
          else stable in
        {| direction := direction;
           change := toFixed_num 2 change;
           percentageChange := Some (toFixed_num 1 percentageChange) |}
    | _ => {| direction := stable; change := 0; percentageChange := None |}
    end.

(** [shouldSendTrendAlert]; the missing [percentageChange] of the short
    answer is [undefined], whose absolute value is [NaN]. *)
Definition shouldSendTrendAlert (trendDirection : Trend) : bool :=
  match direction trendDirection, percentageChange trendDirection with
  | increasing, Some p => 15 <? Math_abs p
  | _, _ => false
  end.

(** *** routes/activities.js: real-time tips *)

(** The strings of a document as a document of the exact embedding: the
    suggestion lists are chosen by the type and the details alone. *)
Definition strings (a : Activity) :=
  sample (activityType a) 0 (unit (quantity a)) (activityDetails a).

Definition getGlobalActivityTypeAverage (activityType : string) : float :=
  let averages : gmap string float :=
    list_to_map
      [ ("transport", 5.0); ("food", 3.0); ("energy", 2.5);
        ("waste", 1.0); ("other", 2.0) ] in
  or_num (averages !! activityType) 2.0.

(** [getActivityTypeAverage]: [avgEmissions] is [stats[0]?.avgEmissions],
    the average that the aggregation of the database answers for the
    user's activities of the type in the last 30 days, if any. *)
Definition getActivityTypeAverage (avgEmissions : option float)
    (activityType : string) : float :=
  or_num avgEmissions (getGlobalActivityTypeAverage activityType).

Definition generateGeneralTip (activity : Activity) : option Tip.t :=
  let highEmissionThresholds : gmap string float :=
    list_to_map
      [ ("transport", 10); ("food", 5); ("energy", 8); ("waste", 2) ] in
  let threshold :=
    or_num (highEmissionThresholds !! activityType activity) 3 in
  if threshold <? carbonFootprint activity then
    Some (Tip.mk info "High Carbon Activity"
            ("This " ++ activityType activity ++ " activity produced "
             ++ toFixed 1 (carbonFootprint activity)
             ++ " kg CO₂. Consider setting an emission goal to track your progress!")
            low (activityType activity) true
            (getAlternativeSuggestions (strings activity)))
  else if carbonFootprint activity <? 1 then
    Some (Tip.mk success "Low Carbon Choice!"
            ("This " ++ activityType activity ++ " activity only produced "
             ++ toFixed 2 (carbonFootprint activity) ++ " kg CO₂.")
            low (activityType activity) false [])
  else None.

(** [generateRealTimeTip]: [user] is the result of [User.findById], [coll]
    the activity collection (the new activity is already saved in it),
    [now] the current time and [avgEmissions] the answer of the
    aggregation of [getActivityTypeAverage]. *)
Definition generateRealTimeTip (now : Z) (user : option User)
    (coll : list Activity) (uid : nat) (newActivity : Activity)
    (avgEmissions : option float) : option Tip.t :=
  match user ≫= currentEmissionGoal with
  | None => generateGeneralTip newActivity
  | Some currentGoal =>
      if decide (EmissionGoal.endDate currentGoal < now)%Z
      then generateGeneralTip newActivity
      else
        let targetEmissions := EmissionGoal.targetEmissions currentGoal in
        let timeframe := EmissionGoal.timeframe currentGoal in
        let currentActivities :=
          findSince uid (EmissionGoal.startDate currentGoal)
                    (EmissionGoal.category currentGoal) coll in
        let currentEmissions := sumFootprints currentActivities in
        let remainingBudget := targetEmissions - currentEmissions in
        let daysRemaining :=
          ceil_div (EmissionGoal.endDate currentGoal - now) msPerDay in
        if remainingBudget <=? 0 then
          Some (Tip.mk warning "Goal Budget Exceeded!"
                  ("You've exceeded your " ++ timeframe ++ " emission goal by "
                   ++ toFixed 1 (Math_abs remainingBudget)
                   ++ " kg CO₂. Consider lower-emission alternatives.")
                  high (EmissionGoal.category currentGoal) true
                  (getAlternativeSuggestions (strings newActivity)))
        else if remainingBudget <? targetEmissions * 0.1 then
          Some (Tip.mk alert "Approaching Goal Limit"
                  ("Only " ++ toFixed 1 remainingBudget
                   ++ " kg CO₂ remaining in your " ++ timeframe
                   ++ " budget with " ++ pretty daysRemaining ++ " days left.")
                  medium (EmissionGoal.category currentGoal) true
                  (getLowEmissionSuggestions (activityType newActivity)))
        else if getActivityTypeAverage avgEmissions (activityType newActivity)
                <? carbonFootprint newActivity then
          Some (Tip.mk info "Optimization Opportunity"
                  ("This " ++ activityType newActivity ++ " activity produced "
                   ++ toFixed 1 (carbonFootprint newActivity)
                   ++ " kg CO₂. You have " ++ toFixed 1 remainingBudget
                   ++ " kg remaining in your goal.")
                  low (activityType newActivity) true
                  (getOptimizationSuggestions (strings newActivity)))
        else if (currentEmissions <=? targetEmissions * 0.5)
                && bool_decide (1 < daysRemaining)%Z then
          Some (Tip.mk success "Great Progress!"
                  ("You're "
                   ++ toFixed 0 ((1 - currentEmissions / targetEmissions) * 100)
                   ++ "% under your " ++ timeframe ++ " goal. Keep it up!")
                  low (EmissionGoal.category currentGoal) false [])
        else None
  end.

(** *** The vocabulary of the statements *)

(** A document of user 0 with the given type, quantity and details. *)
Definition sample (type : string) (v : float) (u : string)
    (d : ActivityDetails) : Activity :=
  {| _id := 0; userId := 0; activityName := "temp"; activityType := type;
     description := "temp"; quantity := {| value := v; unit := u |};
     activityDetails := d; date := 0; carbonFootprint := 0;
     calculationMethod := "system_calculated"; emissionFactor := 0 |}.

(** A stored activity of user 1 with the given footprint and date. *)
Definition logged (type : string) (footprint : float) (when : Z) : Activity :=
  {| _id := 0; userId := 1; activityName := "logged"; activityType := type;
     description := "logged"; quantity := {| value := 1; unit := "km" |};
     activityDetails := noDetails; date := when;
     carbonFootprint := footprint;
     calculationMethod := "system_calculated"; emissionFactor := 0 |}.

(** A fixed emission goal of user 1 over days 0 to 7. *)
Definition emissionGoal (baseline target : float) : EmissionGoal.t :=
  EmissionGoal.mk 1 target "all" "weekly" baseline 0 (7 * msPerDay) "active" 0.

Definition userWithEmissionGoal (goal : EmissionGoal.t) : User :=
  {| currentEmissionGoal := Some goal |}.

(** A week of the trend series with the given total. *)
Definition week (total : float) : Bucket :=
  {| weekStart := ""; totalEmissions := total; activityCount := 0;
     byCategory := ∅ |}.

(** The quantity in the unit of the category, as the calculator of that
    category converts it. *)
Definition canonicalQuantity (a : Activity) : float :=
  if decide (activityType a = "transport") then distanceKm (quantity a)
  else if decide (activityType a = "energy") then energykWh (quantity a)
  else if decide (activityType a = "food") then foodWeightKg (quantity a)
  else if decide (activityType a = "waste") then wasteWeightKg (quantity a)
  else value (quantity a).

(** The factor of a listed key of a table, or the default of the
    category; a listed factor of 0 counts as not listed. *)
Definition listedOr (d : float) (tbl : gmap string float) (key : option string)
    : float :=
  match key ≫= (tbl !!.) with
  | Some f => if truthy f then f else d
  | None => d
  end.

(** The factor the direct lookup of a waste type yields. *)
Definition wasteTypeFactor (w : string) : float :=
  if decide (w = "recycling") then - 0.1
  else if decide (w = "compost") then 0.1
  else if decide (w = "hazardous") then 2.0
  else 0.5.

(** The factor of an activity of one of the four categories, read off
    the tables by its details. *)
Definition selectedFactor (a : Activity) : float :=
  let details := activityDetails a in
  if decide (activityType a = "transport")
  then listedOr 0.21 transportEmissions (transportMode details)
  else if decide (activityType a = "energy")
  then listedOr 0.45 energyEmissions (energySource details)
  else if decide (activityType a = "food")
  then listedOr 2.0 foodEmissions (foodType details)
  else if decide (activityType a = "waste") then
    (if decide (or_str (wasteType details) "general_waste" = "general_waste")
     then (if decide (or_str (disposalMethod details) "landfill" = "incineration")
           then 0.3 else 0.5)
     else wasteTypeFactor (or_str (wasteType details) "general_waste"))
  else 0.

End B64.
(** * Further functions of the same files

    The routes and helpers around the calculators, the goals and the
    tips, and the vocabulary of the statements about them. *)

(** An activity takes the recycling path of the waste calculator. *)
Definition isRecycling (a : Activity) : Prop :=
  activityType a = "waste" ∧ wasteType (activityDetails a) = Some "recycling".

(** ** routes/activities.js: reading and deleting one activity *)

(** The filter [{ _id: req.params.id, userId: req.user._id }]. *)
Definition owns (id uid : nat) (a : Activity) : bool :=
  bool_decide (_id a = id ∧ userId a = uid).

Inductive ItemResponse :=
  | Fetched (activity : Activity)
  | Deleted (activityName : string) (carbonFootprint : Qc)
  | Missing.

(** [router.get('/:id')]: [Activity.findOne] answers the first document
    that matches. *)
Definition get_activity (id uid : nat) (coll : list Activity) : ItemResponse :=
  match List.find (owns id uid) coll with
  | Some activity => Fetched activity
  | None => Missing
  end.

(** [Activity.findOneAndDelete(filter)]: the first document that matches
    is removed and returned. *)
Fixpoint findOneAndDelete (matches : Activity → bool) (coll : list Activity)
    : list Activity * option Activity :=
  match coll with
  | [] => ([], None)
  | a :: rest =>
      if matches a then (rest, Some a)
      else let '(rest, found) := findOneAndDelete matches rest in
           (a :: rest, found)
  end.

(** [router.delete('/:id')]. *)
Definition delete_activity (id uid : nat) (coll : list Activity)
    : list Activity * ItemResponse :=
  match findOneAndDelete (owns id uid) coll with
  | (coll, Some activity) =>
      (coll, Deleted (activityName activity) (carbonFootprint activity))
  | (coll, None) => (coll, Missing)
  end.

(** Every details field that is present is one of the values its [enum]
    lists. *)
Definition enumOk (field : option string) (values : list string) : Prop :=
  ∀ s, field = Some s → s ∈ values.

Definition detailsEnumsOk (details : ActivityDetails) : Prop :=
  enumOk (transportMode details) validTransportModes
  ∧ enumOk (energySource details) validEnergySources
  ∧ enumOk (foodType details) validFoodTypes
  ∧ enumOk (wasteType details) validWasteTypes
  ∧ enumOk (disposalMethod details) validDisposalMethods.

(** An activity is counted by a goal of [uid] that started at [since] for
    [category]. *)
Definition inWindow (uid : nat) (since : Z) (category : string)
    (a : Activity) : Prop :=
  userId a = uid ∧ (since ≤ date a)%Z
  ∧ (category = "all" ∨ activityType a = category).

Global Instance inWindow_dec (uid : nat) (since : Z) (category : string)
    (a : Activity) : Decision (inWindow uid since category a).
Proof. unfold inWindow. apply _. Defined.

(** The footprint above which [generateGeneralTip] calls an activity of
    the given type a high carbon activity. *)
Definition highEmissionThreshold (type : string) : Qc :=
  if decide (type = "transport") then num 10
  else if decide (type = "food") then num 5
  else if decide (type = "energy") then num 8
  else if decide (type = "waste") then num 2
  else num 3.

(** The documents [getActivityTypeAverage] averages: the user's
    activities of the type in the last 30 days. *)
Definition recentOfType (now : Z) (uid : nat) (type : string)
    (coll : list Activity) : list Activity :=
  filter (λ a, userId a = uid ∧ activityType a = type
               ∧ (now - 30 * msPerDay ≤ date a)%Z) coll.

(** ** routes/insights.js: notifications

    The helpers that decide whether an event is sent over the socket and
    with which message.  The events themselves are the values the
    handlers would emit; the socket is not modelled. *)

(** [x >= c] and [x > c] on a number that may not be finite. *)
Definition ge_num (x : jsnum) (c : Qc) : bool :=
  match x with
  | Fin q => bool_decide (c ≤ q)
  | PosInf => true
  | NegInf | NaN => false
  end.




(** [Math.floor(x / 25) * 25] on a finite number. *)
Definition milestone (x : Qc) : Z := (Qfloor (x / num 25) * 25)%Z.

(** [shouldSendProgressUpdate]: on a number that is not finite both
    milestones are that number (or [NaN]) and the comparison fails. *)
Definition shouldSendProgressUpdate (progressPercentage : jsnum) : bool :=
  match progressPercentage with
  | Fin p =>
      let currentMilestone := milestone p in
      let previousMilestone := milestone (p - num 5) in
      bool_decide (previousMilestone < currentMilestone)%Z
      && bool_decide (0 < currentMilestone)%Z
  | _ => false
  end.

Definition getMilestoneMessage (progressPercentage : jsnum) (isOnTrack : bool)
    (daysRemaining : Z) : option string :=
  if ge_num progressPercentage (num 100) then
    Some (if isOnTrack then "Congratulations! You've achieved your goal!"
          else "Goal completed - consider setting a new challenge!")
  else if ge_num progressPercentage (num 75) then
    Some (if isOnTrack then "Great progress! You're on track to meet your goal."
          else "You're " ++ pretty daysRemaining ++ " days behind - time to focus!")
  else if ge_num progressPercentage (num 50) then
    Some "You're halfway to your goal - keep it up!"
  else if ge_num progressPercentage (num 25) then
    Some "Good start! You're 25% towards your goal."
  else None.

(** The [goal_milestone] event of [router.get('/weekly-goal-progress')],
    when one is sent. *)
Record MilestoneEvent := {
  milestone_progress : jsnum;
  milestone_message : string;
  milestone_isOnTrack : bool;
  milestone_daysRemaining : Z
}.

Definition goalMilestone (progress : WeeklyProgress.t) : option MilestoneEvent :=
  let progressPercentage := WeeklyProgress.progressPercentage progress in
  let isOnTrack := WeeklyProgress.isOnTrack progress in
  let daysRemaining := WeeklyProgress.daysRemaining progress in
  if shouldSendProgressUpdate progressPercentage then
    match getMilestoneMessage progressPercentage isOnTrack daysRemaining with
    | Some milestoneMessage =>
        Some {| milestone_progress := progressPercentage;
                milestone_message := milestoneMessage;
                milestone_isOnTrack := isOnTrack;
                milestone_daysRemaining := daysRemaining |}
    | None => None
    end
  else None.






(** [getGoalStartTips]; [category] is the field of the request body, which
    may be missing. *)
Definition getGoalStartTips (category : option string)
    (targetEmissions baselineEmissions : Qc) : list string :=
  let covers (c : string) :=
    bool_decide (category = Some c ∨ category = Some "all") in
  let tips :=
    ((if covers "transport"
      then [ "Try walking or cycling for short trips";
             "Use public transport instead of driving" ] else [])
     ++ (if covers "food"
         then [ "Choose plant-based meals 2-3 times this week";
                "Buy local, seasonal produce" ] else [])
     ++ (if covers "energy"
         then [ "Lower thermostat by 2°C when away";
                "Unplug unused electronics" ] else []))%list in
  take 3 tips.

(** ** routes/insights.js: the weekly analysis

    [categoryAnalysis] is a plain object used as a map whose keys are
    enumerated afterwards: it is modelled by the list of its pairs in the
    order in which the keys were first set, which is the order of
    [Object.keys] for keys that are not array indices (the keys are
    activity types). *)

Definition lookupKey {A} (key : string) (obj : list (string * A)) : option A :=
  snd <$> List.find (λ kv, bool_decide (kv.1 = key)) obj.

Fixpoint setKey {A} (key : string) (v : A) (obj : list (string * A))
    : list (string * A) :=
  match obj with
  | [] => [(key, v)]
  | (k, old) :: rest =>
      if decide (k = key) then (k, v) :: rest else (k, old) :: setKey key v rest
  end.

Module CategoryData.
Record item := {
  name : string;
  emissions : Qc;
  date : Z;
  details : ActivityDetails
}.
Record t := mk {
  totalEmissions : Qc;
  activityCount : nat;
  activities : list item
}.
End CategoryData.

(** The body of [weekActivities.forEach]: the entry of the category is
    created empty when it is missing, then updated. *)
Definition addToCategory (categoryAnalysis : list (string * CategoryData.t))
    (activity : Activity) : list (string * CategoryData.t) :=
  let category := activityType activity in
  let data :=
    default (CategoryData.mk 0 0 []) (lookupKey category categoryAnalysis) in
  setKey category
    (CategoryData.mk
       (CategoryData.totalEmissions data + carbonFootprint activity)
       (CategoryData.activityCount data + 1)
       (CategoryData.activities data
        ++ [ {| CategoryData.name := activityName activity;
                CategoryData.emissions := carbonFootprint activity;
                CategoryData.date := date activity;
                CategoryData.details := activityDetails activity |} ])%list)
    categoryAnalysis.

(** [categoryAnalysis] and [totalWeeklyEmissions] after the loop. *)
Definition analyseWeek (weekActivities : list Activity)
    : list (string * CategoryData.t) * Qc :=
  foldl (λ '(categoryAnalysis, totalWeeklyEmissions) activity,
           (addToCategory categoryAnalysis activity,
            totalWeeklyEmissions + carbonFootprint activity))
        ([], 0) weekActivities.

(** The total footprint of the activities of one category. *)
Definition categoryTotal (category : string) (activities : list Activity) : Qc :=
  sumFootprints (filter (λ a, activityType a = category) activities).



(** The record an activity leaves in the analysis of its category. *)
Definition itemOf (activity : Activity) : CategoryData.item :=
  {| CategoryData.name := activityName activity;
     CategoryData.emissions := carbonFootprint activity;
     CategoryData.date := date activity;
     CategoryData.details := activityDetails activity |}.

(** ** routes/insights.js: recommendations *)

Record Patterns := {
  highTransportEmissions : bool;
  highFoodEmissions : bool;
  highEnergyEmissions : bool;
  inconsistentLogging : bool
}.

(** [categoryEmissions] after the loop of [analyzeActivityPatterns]; it
    is only read at fixed keys. *)
Definition categoryEmissionsOf (activities : list Activity) : gmap string Qc :=
  foldl (λ categoryEmissions activity,
           <[ activityType activity :=
                or_num (categoryEmissions !! activityType activity) 0
                + carbonFootprint activity ]> categoryEmissions)
        ∅ activities.

Definition analyzeActivityPatterns (activities : list Activity) : Patterns :=
  let totalEmissions := sumFootprints activities in
  let categoryEmissions := categoryEmissionsOf activities in
  {| highTransportEmissions :=
       bool_decide (totalEmissions * num 0.4
                    < or_num (categoryEmissions !! "transport") 0);
     highFoodEmissions :=
       bool_decide (totalEmissions * num 0.3
                    < or_num (categoryEmissions !! "food") 0);
     highEnergyEmissions :=
       bool_decide (totalEmissions * num 0.35
                    < or_num (categoryEmissions !! "energy") 0);
     inconsistentLogging := bool_decide (length activities < 14)%nat |}.

Module Recommendation.
Record t := mk {
  type : string;
  title : string;
  description : string;
  actions : list string;
  impact : string;
  difficulty : string
}.
End Recommendation.

Definition generatePersonalizedRecommendations (activities : list Activity)
    (userId : nat) : list Recommendation.t :=
  let patterns := analyzeActivityPatterns activities in
  ((if highTransportEmissions patterns then
      [ Recommendation.mk "transport" "Optimize Your Transportation"
          "Your transport emissions are high. Consider alternative modes of transport."
          [ "Use public transport 2 days per week";
            "Walk or cycle for trips under 3km";
            "Plan combined trips to reduce total distance" ]
          "high" "medium" ]
    else [])
   ++ (if highFoodEmissions patterns then
         [ Recommendation.mk "food" "Sustainable Diet Choices"
             "Food choices significantly impact your carbon footprint."
             [ "Try plant-based meals 3 times per week";
               "Buy local and seasonal produce";
               "Reduce food waste by meal planning" ]
             "high" "easy" ]
       else [])
   ++ (if inconsistentLogging patterns then
         [ Recommendation.mk "tracking" "Improve Activity Tracking"
             "More consistent logging will give you better insights."
             [ "Set daily reminders to log activities";
               "Use quick-add templates for common activities";
               "Review and update your log weekly" ]
             "medium" "easy" ]
       else []))%list.

(** ** routes/dashboard.js: streaks

    The key of a day is the date part of [toISOString()], the calendar
    day in UTC.  It is kept here as the number of the day since the
    epoch: for years 0 to 9999 the strings of two days are ordered as
    their numbers, and [new Date(key)] of consecutive days are 24 hours
    apart.

    [checkDate.setDate(checkDate.getDate() - i)] steps back in the local
    time of the server: the result is the same wall-clock time on the
    calendar day [i] days earlier.  Which instant that is depends on the
    time zone, so the route takes it from its environment:
    [daysBefore today i] is that instant.  Where the offset of the zone
    from UTC does not change in between, it is [today] minus [i] times 24
    hours. *)

Definition dateKey (t : Z) : Z := (t / msPerDay)%Z.

(** [dailyActivities], the activities grouped by day. *)
Definition groupByDay (activities : list Activity) : gmap Z (list Activity) :=
  foldl (λ acc activity,
           let dateKey := dateKey (date activity) in
           <[ dateKey := (default [] (acc !! dateKey) ++ [activity])%list ]> acc)
        ∅ activities.

(** The loop that counts the current streak from its index [i] on,
    [iterations] indices being left; a missing day ends it. *)
Fixpoint currentStreakLoop (daysBefore : Z → nat → Z)
    (dailyActivities : gmap Z (list Activity))
    (today : Z) (i iterations : nat) : nat :=
  match iterations with
  | O => O
  | S iterations =>
      let checkDate := daysBefore today i in
      let dateKey := dateKey checkDate in
      if bool_decide (0 < length (default [] (dailyActivities !! dateKey)))%nat
      then S (currentStreakLoop daysBefore dailyActivities today (S i) iterations)
      else O
  end.

(** The loop over [sortedDates]: [longestStreak] and [tempStreak] after
    it.  After the last date the difference is [Infinity]. *)
Fixpoint longestStreakLoop (sortedDates : list Z)
    (longestStreak tempStreak : nat) : nat * nat :=
  match sortedDates with
  | [] => (longestStreak, tempStreak)
  | currentDate :: rest =>
      let tempStreak := S tempStreak in
      let break :=
        match rest with
        | nextDate :: _ => bool_decide (1 < nextDate - currentDate)%Z
        | [] => true
        end in
      if break then longestStreakLoop rest (longestStreak `max` tempStreak) 0
      else longestStreakLoop rest longestStreak tempStreak
  end.

Record Streak := {
  currentStreak : nat;
  longestStreak : nat;
  totalDays : nat
}.

(** The streak figures of [router.get('/streak')] on the activities the
    query answered, at time [today]. *)
Definition streak (daysBefore : Z → nat → Z) (today : Z)
    (activities : list Activity) : Streak :=
  let dailyActivities := groupByDay activities in
  let keys := (map_to_list dailyActivities).*1 in
  let sortedDates := merge_sort Z.le keys in
  let '(longest, temp) := longestStreakLoop sortedDates 0 0 in
  {| currentStreak := currentStreakLoop daysBefore dailyActivities today 0 90;
     longestStreak := longest `max` temp;
     totalDays := length keys |}.

(** The longest streak answered from the state of the loop over the
    dates: the larger of the two counters. *)
Definition finalStreak (sortedDates : list Z) (longestStreak tempStreak : nat) : nat :=
  (longestStreakLoop sortedDates longestStreak tempStreak).1
  `max` (longestStreakLoop sortedDates longestStreak tempStreak).2.

(** Stepping back in a zone whose offset from UTC is fixed. *)
Definition fixedOffset (today : Z) (i : nat) : Z :=
  (today - Z.of_nat i * msPerDay)%Z.

(** Stepping back in a zone that is [before] milliseconds ahead of UTC
    until the instant [change] and [after] milliseconds from then on (the
    end of a summer time): the wall-clock time of [today] is kept, and
    the offset is the one in force on the day reached. *)
Definition clockChange (change before after : Z) (today : Z) (i : nat) : Z :=
  let offset t := if decide (t < change)%Z then before else after in
  let wall := (today + offset today - Z.of_nat i * msPerDay)%Z in
  if decide (wall - before < change)%Z then (wall - before)%Z
  else (wall - after)%Z.

(** A string of ASCII characters. *)
Definition isAscii (s : string) : Prop :=
  Forall (λ c, (Ascii.nat_of_ascii c < 128)%nat) (String.list_ascii_of_string s).

Global Instance isAscii_dec (s : string) : Decision (isAscii s).
Proof. unfold isAscii. apply _. Defined.
(** * Properties *)

(** ** Reasoning about concrete numbers *)

Lemma Qc_this_inj (x y : Qc) : this x = this y → x = y.
Proof. intros H. apply Qc_is_canon. rewrite H. reflexivity. Qed.

Lemma Result_eq (r1 r2 : Result.t) :
  this (Result.carbonFootprint r1) = this (Result.carbonFootprint r2) →
  this (Result.emissionFactor r1) = this (Result.emissionFactor r2) →
  r1 = r2.
Proof.
  destruct r1, r2; simpl; intros H1 H2.
  f_equal; by apply Qc_this_inj.
Qed.

(** Closed equalities between numbers, by evaluation of both fractions. *)
Ltac qc_eval := apply Qc_this_inj; vm_compute; reflexivity.
Ltac result_eval := apply Result_eq; vm_compute; reflexivity.

(** Order goals between numbers, as goals on fractions. *)
Ltac qc_unfold :=
  unfold Qcle, Qclt, Qcdiv, Qcminus, Qcinv, Qcopp, Qcmult, Qcplus, num,
    Qc_of_Z, Q2Qc in *;
  cbn [this] in *; rewrite ?Qred_correct in *.

Example transport_100km_gasoline :
  footprint (sample "transport" 100 "km" (withTransportMode "car_gasoline"))
  = Result.mk (num 21.00) (num 0.21).
Proof. result_eval. Qed.

Example transport_10km_no_mode :
  footprint (sample "transport" 10 "km" noDetails)
  = Result.mk (num 2.10) (num 0.21).
Proof. result_eval. Qed.

(** ** The calculator: factor selection, conversion and rounding *)

Section CalculatorFacts.

Lemma rawFootprint_product (a : Activity) :
  rawFootprint a = (canonicalQuantity a * (rawFootprint a).2, (rawFootprint a).2).
Proof.
  unfold rawFootprint, canonicalQuantity.
  repeat case_decide; try reflexivity.
  simpl. by rewrite Qcmult_0_r.
Qed.

Lemma footprint_factor (a : Activity) :
  Result.emissionFactor (footprint a) = (rawFootprint a).2.
Proof. unfold footprint, calculateCarbonFootprint. by destruct (rawFootprint a). Qed.

Lemma footprint_value (a : Activity) :
  Result.carbonFootprint (footprint a)
  = Math_round (canonicalQuantity a * Result.emissionFactor (footprint a) * num 100)
    / num 100.
Proof.
  rewrite footprint_factor. unfold footprint, calculateCarbonFootprint.
  rewrite (rawFootprint_product a) at 1. reflexivity.
Qed.

Lemma transport_factor (a : Activity) :
  activityType a = "transport" →
  Result.emissionFactor (footprint a)
  = or_num (get transportEmissions (transportMode (activityDetails a))) (num 0.21).
Proof.
  intros H. rewrite footprint_factor. unfold rawFootprint.
  by rewrite decide_True.
Qed.

(** The nine modes whose listed factor is not zero get that factor. *)
Lemma transport_listed_nonzero (a : Activity) (m : string) (f : Qc) :
  activityType a = "transport" →
  transportMode (activityDetails a) = Some m →
  transportEmissions !! m = Some f → f ≠ 0 →
  Result.emissionFactor (footprint a) = f.
Proof.
  intros Ht Hm Hf Hnz. rewrite transport_factor by done.
  rewrite Hm. simpl. rewrite Hf. simpl. by rewrite decide_False.
Qed.

(** A missing or unlisted mode gets the default. *)
Lemma transport_unlisted (a : Activity) :
  activityType a = "transport" →
  get transportEmissions (transportMode (activityDetails a)) = None →
  Result.emissionFactor (footprint a) = num 0.21.
Proof. intros Ht Hm. rewrite transport_factor by done. by rewrite Hm. Qed.

End CalculatorFacts.

Section CalculatorProperties.

(** C1 (the code departs from the specification).  The table lists
    factor 0 for [bicycle] and [walking], but the lookup is followed by
    [|| 0.21] and 0 is falsy: a 10 km ride or walk is charged the
    gasoline-car factor 0.21 and gets footprint 2.1, where the
    specification says factor 0 and footprint 0. *)
Theorem transport_zero_modes_get_default :
  transportEmissions !! "bicycle" = Some (num 0)
  ∧ transportEmissions !! "walking" = Some (num 0)
  ∧ footprint (sample "transport" 10 "km" (withTransportMode "bicycle"))
    = Result.mk (num 2.1) (num 0.21)
  ∧ footprint (sample "transport" 10 "km" (withTransportMode "walking"))
    = Result.mk (num 2.1) (num 0.21).
Proof.
  split; [|split; [|split]]; try result_eval; reflexivity.
Qed.

Lemma wasteEmissions_unlisted (w : string) :
  w ≠ "recycling" → w ≠ "compost" → w ≠ "hazardous" →
  wasteEmissions !! w = None.
Proof.
  intros. unfold wasteEmissions. simpl.
  rewrite !lookup_insert_ne by done. apply lookup_empty.
Qed.

Lemma wasteEmissions_lookup (w : string) :
  or_num (wasteEmissions !! w) (num 0.5) = wasteTypeFactor w.
Proof.
  unfold wasteTypeFactor. repeat case_decide; subst.
  - qc_eval.
  - qc_eval.
  - qc_eval.
  - by rewrite wasteEmissions_unlisted.
Qed.

End CalculatorProperties.

Section UnitConversion.

Example food_2kg_beef :
  footprint (sample "food" 2 "kg" (withFoodType "beef"))
  = Result.mk (num 54.00) (num 27.0).
Proof. result_eval. Qed.

(** One MWh and 1000 kWh of grid electricity are the same footprint. *)
Example energy_1MWh_is_1000kWh :
  footprint (sample "energy" 1 "MWh" (withEnergySource "grid_average"))
  = Result.mk (num 450.00) (num 0.45)
  ∧ footprint (sample "energy" 1000 "kWh" (withEnergySource "grid_average"))
    = Result.mk (num 450.00) (num 0.45).
Proof. split; result_eval. Qed.

Example food_2km_beef :
  footprint (sample "food" 2 "km" (withFoodType "beef"))
  = Result.mk (num 54.00) (num 27.0).
Proof. result_eval. Qed.

End UnitConversion.

(** ** Goal progress *)

Section ProgressFacts.





(** What the two routes answer for a current goal. *)
Lemma weekly_goal_progress_active (now : Z) (uid : nat) (user : User)
    (goal : WeeklyGoal.t) (coll : list Activity) :
  currentWeeklyGoal user = Some goal →
  (now ≤ WeeklyGoal.endDate goal)%Z →
  weekly_goal_progress now uid (Some user) coll
  = ActiveGoal goal (weeklyProgress now uid goal coll).
Proof.
  intros Hg Hnow. unfold weekly_goal_progress. rewrite Hg.
  by rewrite decide_False by lia.
Qed.

Lemma emission_goal_progress_active (now : Z) (uid : nat) (user : User)
    (goal : EmissionGoal.t) (coll : list Activity) :
  currentEmissionGoal user = Some goal →
  (now ≤ EmissionGoal.endDate goal)%Z →
  emission_goal_progress now uid (Some user) coll
  = ActiveGoal goal (emissionProgress now uid goal coll).
Proof.
  intros Hg Hnow. unfold emission_goal_progress. simpl. rewrite Hg.
  by rewrite decide_False by lia.
Qed.



End ProgressFacts.

(** ** Creating, updating and previewing activities *)

Section RouteFacts.

(** The middleware lets no body without quantity through. *)
Lemma validateActivity_quantity (body : ActivityBody) :
  validateActivity body = None → is_Some (body_quantity body).
Proof.
  unfold validateActivity.
  destruct (body_quantity body); [by eexists | discriminate].
Qed.

Lemma footprint_ext (a b : Activity) :
  activityType a = activityType b →
  quantity a = quantity b →
  activityDetails a = activityDetails b →
  footprint a = footprint b.
Proof.
  intros Ht Hq Hd.
  assert (rawFootprint a = rawFootprint b) as Hraw.
  { unfold rawFootprint, calculateTransportEmissions, calculateEnergyEmissions,
      calculateFoodEmissions, calculateWasteEmissions.
    by rewrite Ht, Hq, Hd. }
  unfold footprint, calculateCarbonFootprint. rewrite Hraw.
  by destruct (rawFootprint b).
Qed.

(** The method as its effect on the document and its returned object. *)
Lemma calculateCarbonFootprint_eq (a : Activity) :
  calculateCarbonFootprint a
  = (set_emissionFactor (Result.emissionFactor (footprint a)) a, footprint a).
Proof.
  unfold footprint, calculateCarbonFootprint. by destruct (rawFootprint a).
Qed.

Lemma or_num_self (x : Qc) : or_num (Some x) 0 = x.
Proof. unfold or_num. by case_decide. Qed.

(** The hook on a new document: the footprint and the factor of the
    calculator are stored, and nothing else changes. *)
Lemma preSave_new (a : Activity) :
  carbonFootprint a = 0 →
  preSave true false a
  = set_emissionFactor (Result.emissionFactor (footprint a))
      (set_carbonFootprint (Result.carbonFootprint (footprint a)) a).
Proof.
  intros Hzero. unfold preSave. cbn [orb].
  rewrite calculateCarbonFootprint_eq.
  rewrite or_num_self. unfold carbonFootprint_or_result.
  case_decide as Hc; simpl.
  - rewrite Hc. unfold set_emissionFactor, set_carbonFootprint. simpl.
    by rewrite Hzero.
  - reflexivity.
Qed.

Lemma preSave_new_consistent (a : Activity) :
  carbonFootprint a = 0 → consistent (preSave true false a).
Proof.
  intros Hzero. rewrite preSave_new by done.
  unfold consistent.
  rewrite (footprint_ext (set_emissionFactor _ _) a) by reflexivity.
  done.
Qed.

(** What a successful creation stores. *)
Lemma post_activity_created (now : Z) (freshId : nat) (user : option User)
    (uid : nat) (body : ActivityBody) (coll coll' : list Activity)
    (a : Activity) (tip : option Tip.t) :
  post_activity now freshId user uid body coll = (coll', Created a tip) →
  ∃ q, body_quantity body = Some q
       ∧ validateActivity body = None
       ∧ a = preSave true false
               (newActivity now freshId uid (body_activityName body)
                  (body_activityType body) (body_description body) q
                  (default noDetails (body_activityDetails body))
                  (body_date body))
       ∧ coll' = (coll ++ [a])%list.
Proof.
  unfold post_activity, saveNew.
  destruct (validateActivity body) as [e|] eqn:Hv; [intros [= ]|].
  destruct (body_quantity body) as [[v u]|] eqn:Hq; [|intros [= ]].
  simpl. destruct (validationErrors _); [|intros [= ]].
  intros [= <- <- _]. exists {| value := v; unit := u |}. done.
Qed.

(** Creation keeps every stored document consistent. *)
Lemma post_activity_consistent (now : Z) (freshId : nat) (user : option User)
    (uid : nat) (body : ActivityBody) (coll : list Activity) :
  Forall consistent coll →
  Forall consistent (post_activity now freshId user uid body coll).1.
Proof.
  intros Hall.
  destruct (post_activity now freshId user uid body coll) as [coll' r] eqn:Hp.
  simpl. destruct r as [a tip| | | |];
    try (unfold post_activity, saveNew in Hp;
         repeat case_match; by simplify_eq).
  apply post_activity_created in Hp as (q & _ & _ & -> & ->).
  apply Forall_app. split; [done|]. apply Forall_singleton.
  by apply preSave_new_consistent.
Qed.

Lemma findOneAndUpdate_keeps {B} (f : Activity → B) (matches : Activity → bool)
    (update : Activity → Activity) (coll : list Activity) :
  (∀ a, f (update a) = f a) →
  f <$> (findOneAndUpdate matches update coll).1 = f <$> coll.
Proof.
  intros Hf. induction coll as [|a rest IH]; [reflexivity|].
  simpl. destruct (matches a); simpl.
  - by rewrite ?fmap_cons, Hf.
  - destruct (findOneAndUpdate matches update rest) as [rest' found].
    simpl in *. f_equal. exact IH.
Qed.

(** An update never changes a stored footprint or factor. *)
Lemma put_activity_keeps_footprints (id uid : nat) (body : ActivityBody)
    (coll : list Activity) :
  carbonFootprint <$> (put_activity id uid body coll).1 = carbonFootprint <$> coll
  ∧ emissionFactor <$> (put_activity id uid body coll).1 = emissionFactor <$> coll.
Proof.
  unfold put_activity.
  destruct (validateActivity body); [done|].
  destruct (body_quantity body) as [q|]; [|done].
  destruct (fieldErrors _ _ _ _ _); [|done].
  match goal with
  | |- context [findOneAndUpdate ?m ?u coll] =>
      pose proof (findOneAndUpdate_keeps carbonFootprint m u coll (λ _, eq_refl)) as Hc;
      pose proof (findOneAndUpdate_keeps emissionFactor m u coll (λ _, eq_refl)) as He;
      destruct (findOneAndUpdate m u coll) as [coll' [a|]]
  end; done.
Qed.

(** C2 (the code departs from the specification).  A trip of 100 km by gasoline
    car is created and stored with footprint 21 and factor 0.21; the
    update route then sets its quantity to 10 km.  The update is a query
    update, no hook runs: the stored document has the new quantity and
    still the footprint 21, while its footprint recomputed from the
    stored fields is 2.1. *)
Theorem update_leaves_footprint_stale :
  let details := Some (withTransportMode "car_gasoline") in
  let created := post_activity 0 7 None 1 (request "transport" 100 "km" details) [] in
  let updated := put_activity 7 1 (request "transport" 10 "km" details) created.1 in
  Forall consistent created.1
  ∧ ∃ a, updated = ([a], Updated a)
         ∧ quantity a = {| value := num 10; unit := "km" |}
         ∧ carbonFootprint a = num 21
         ∧ emissionFactor a = num 0.21
         ∧ footprint a = Result.mk (num 2.1) (num 0.21)
         ∧ ¬ consistent a.
Proof.
  intros details created updated. split.
  { apply post_activity_consistent. constructor. }
  assert (∃ a, updated = ([a], Updated a)
               ∧ quantity a = {| value := num 10; unit := "km" |}
               ∧ this (carbonFootprint a) = this (num 21)
               ∧ this (emissionFactor a) = this (num 0.21)) as (a & Hu & Hq & Hc & He).
  { vm_compute. eexists. split; [reflexivity|]. split_and!; reflexivity. }
  apply Qc_this_inj in Hc. apply Qc_this_inj in He.
  assert (footprint a = Result.mk (num 2.1) (num 0.21)) as Hf.
  { rewrite (footprint_ext a (sample "transport" 10 "km"
                                 (withTransportMode "car_gasoline"))).
    - result_eval.
    - revert Hu. vm_compute. by intros [= <-].
    - exact Hq.
    - revert Hu. vm_compute. by intros [= <-]. }
  exists a. split_and!; try done.
  intros [Hbad _]. rewrite Hc, Hf in Hbad. simpl in Hbad.
  apply (f_equal this) in Hbad. vm_compute in Hbad. discriminate.
Qed.

(** C10.  Whenever the creation route stores a document, the preview
    route answers the same request with exactly the footprint and the
    factor that were stored (whatever the time and the identifier of the
    temporary document). *)
Theorem preview_matches_create (now now' : Z) (freshId tempId : nat)
    (user : option User) (uid : nat) (body : ActivityBody)
    (coll coll' : list Activity) (a : Activity) (tip : option Tip.t) :
  post_activity now freshId user uid body coll = (coll', Created a tip) →
  coll' = (coll ++ [a])%list
  ∧ ∃ q, body_quantity body = Some q
         ∧ post_calculate_preview now' tempId uid body
           = Preview (carbonFootprint a) (emissionFactor a) q
                     (body_activityType body)
                     (default noDetails (body_activityDetails body)).
Proof.
  intros Hp.
  apply post_activity_created in Hp as (q & Hq & Hv & -> & ->).
  split; [reflexivity|]. exists q. split; [exact Hq|].
  unfold post_calculate_preview. rewrite Hv, Hq.
  rewrite calculateCarbonFootprint_eq. cbn [quantity set_emissionFactor newActivity].
  rewrite preSave_new by reflexivity. simpl.
  rewrite (footprint_ext
             (newActivity now' tempId uid "temp" (body_activityType body) "temp" q
                (default noDetails (body_activityDetails body)) None)
             (newActivity now freshId uid (body_activityName body)
                (body_activityType body) (body_description body) q
                (default noDetails (body_activityDetails body)) (body_date body)))
    by reflexivity.
  reflexivity.
Qed.

(** Five kilograms of recycling: stored and previewed as -0.5 with
    factor -0.1. *)
Lemma preview_matches_create_witness :
  let body := request "waste" 5 "kg" (Some (withWaste (Some "recycling") None)) in
  ∃ a, (post_activity 0 7 None 1 body []).1 = [a]
       ∧ post_calculate_preview 0 8 1 body
         = Preview (carbonFootprint a) (emissionFactor a)
                   {| value := num 5; unit := "kg" |} "waste"
                   (withWaste (Some "recycling") None).
Proof.
  intros body.
  destruct (post_activity 0 7 None 1 body []) as [coll' r] eqn:Hp.
  assert (∃ a tip, r = Created a tip) as (a & tip & ->).
  { revert Hp. vm_compute. intros [= _ <-]. by eexists _, _. }
  destruct (preview_matches_create 0 0 7 8 None 1 body [] coll' a tip Hp)
    as (-> & q & Hq & Hprev).
  exists a. split; [reflexivity|].
  injection Hq as <-. exact Hprev.
Defined.

End RouteFacts.

(** * Properties in binary64 *)

#[local] Set Warnings "-inexact-float".

(** ** The calculator *)

Section B64CalculatorFacts.






Lemma B64_general_waste_factor (m : string) :
  B64.or_num (B64.wasteEmissions_general_waste !! m) 0.5
  = if decide (m = "incineration") then 0.3%float else 0.5%float.
Proof.
  unfold B64.wasteEmissions_general_waste. cbn [list_to_map foldr uncurry fst snd].
  destruct (decide (m = "landfill")) as [->|Hl]; [done|].
  rewrite lookup_insert_ne by done.
  destruct (decide (m = "incineration")) as [->|Hi]; [done|].
  rewrite lookup_insert_ne by done. by rewrite lookup_empty.
Qed.

Lemma B64_wasteEmissions_factor (w : string) :
  B64.or_num (B64.wasteEmissions !! w) 0.5 = B64.wasteTypeFactor w.
Proof.
  unfold B64.wasteEmissions, B64.wasteTypeFactor.
  cbn [list_to_map foldr uncurry fst snd].
  destruct (decide (w = "recycling")) as [->|Hr]; [done|].
  rewrite lookup_insert_ne by done.
  destruct (decide (w = "compost")) as [->|Hc]; [done|].
  rewrite lookup_insert_ne by done.
  destruct (decide (w = "hazardous")) as [->|Hh]; [done|].
  rewrite lookup_insert_ne by done. by rewrite lookup_empty.
Qed.

(** What a calculator returns before rounding: the converted amount times
    the factor it selected, and that factor. *)
Lemma B64_rawFootprint_eq (a : B64.Activity) :
  B64.activityType a ∈ ["transport"; "energy"; "food"; "waste"] →
  B64.rawFootprint a
  = ((B64.canonicalQuantity a * B64.selectedFactor a)%float, B64.selectedFactor a).
Proof.
  intros Hin. unfold B64.rawFootprint, B64.canonicalQuantity, B64.selectedFactor.
  destruct (decide (B64.activityType a = "transport")); [done|].
  destruct (decide (B64.activityType a = "energy")); [done|].
  destruct (decide (B64.activityType a = "food")); [done|].
  destruct (decide (B64.activityType a = "waste")).
  - unfold B64.calculateWasteEmissions.
    destruct (decide (or_str (wasteType (B64.activityDetails a)) "general_waste"
                      = "general_waste")).
    + by rewrite B64_general_waste_factor.
    + by rewrite B64_wasteEmissions_factor.
  - exfalso. rewrite !elem_of_cons, elem_of_nil in Hin.
    destruct Hin as [?|[?|[?|[?|[]]]]]; done.
Qed.

Lemma B64_rawFootprint_other (a : B64.Activity) :
  B64.activityType a ∉ ["transport"; "energy"; "food"; "waste"] →
  B64.rawFootprint a = (0%float, 0%float).
Proof.
  intros Hin. unfold B64.rawFootprint.
  repeat (destruct (decide _) as [E|_];
    [exfalso; apply Hin; rewrite E, !elem_of_cons; tauto|]).
  done.
Qed.

Lemma B64_footprint_eq (a : B64.Activity) :
  B64.activityType a ∈ ["transport"; "energy"; "food"; "waste"] →
  B64.footprint a
  = B64.Result.mk
      (B64.Math_round (B64.canonicalQuantity a * B64.selectedFactor a * 100) / 100)
      (B64.selectedFactor a).
Proof.
  intros Hin. unfold B64.footprint, B64.calculateCarbonFootprint.
  by rewrite (B64_rawFootprint_eq a Hin).
Qed.

End B64CalculatorFacts.




(** C4.  Five kilograms of recycling give footprint -0.50 with factor
    -0.1; and for every waste activity whose [wasteType] is present and
    is not [general_waste], the factor is looked up by the waste type
    alone (recycling -0.1, compost 0.1, hazardous 2.0, anything else
    0.5), whatever the disposal method, and the footprint is
    [Math.round] of one hundred times the binary64 product of the weight
    in kg and that factor, divided by 100; nothing clamps a negative
    result. *)
Theorem waste_type_lookup :
  B64.footprint (B64.sample "waste" 5 "kg" (withWaste (Some "recycling") None))
  = B64.Result.mk (-0.50) (-0.1)
  ∧ ∀ (a : B64.Activity) (w : string),
      B64.activityType a = "waste" →
      wasteType (B64.activityDetails a) = Some w →
      w ≠ "" → w ≠ "general_waste" →
      B64.footprint a
      = B64.Result.mk
          (B64.Math_round
             (B64.wasteWeightKg (B64.quantity a) * B64.wasteTypeFactor w * 100)
           / 100)
          (B64.wasteTypeFactor w).
Proof.
  split; [vm_compute; reflexivity|].
  intros a w Ht Hw Hne Hng.
  unfold B64.footprint, B64.calculateCarbonFootprint, B64.rawFootprint.
  rewrite Ht. simpl.
  unfold B64.calculateWasteEmissions. rewrite Hw. simpl.
  rewrite (decide_False (P := w = "")) by done.
  rewrite (decide_False (P := w = "general_waste")) by done.
  by rewrite B64_wasteEmissions_factor.
Qed.

(** Three pounds of hazardous waste, incinerated. *)
Lemma waste_type_lookup_witness :
  B64.footprint (B64.sample "waste" 3 "lbs"
                   (withWaste (Some "hazardous") (Some "incineration")))
  = B64.Result.mk 2.72 2.0.
Proof.
  destruct waste_type_lookup as [_ H].
  rewrite (H _ "hazardous");
    [vm_compute; reflexivity | reflexivity | reflexivity | | ]; discriminate.
Defined.

Example B64_recycling_small_weights :
  B64.footprint (B64.sample "waste" 0.05 "kg" (withWaste (Some "recycling") None))
  = B64.Result.mk (-0.01) (-0.1)
  ∧ B64.footprint (B64.sample "waste" 0.45 "kg" (withWaste (Some "recycling") None))
    = B64.Result.mk (-0.05) (-0.1).
Proof. split; vm_compute; reflexivity. Qed.

(** ** Unit conversion *)

Section B64UnitConversion.

Lemma B64_canonicalQuantity_identity (a : B64.Activity) :
  B64.unit (B64.quantity a) ∉ convertedUnits (B64.activityType a) →
  B64.canonicalQuantity a = B64.value (B64.quantity a).
Proof.
  intros Hu.
  unfold B64.canonicalQuantity, convertedUnits in *.
  unfold B64.distanceKm, B64.energykWh, B64.foodWeightKg, B64.wasteWeightKg.
  repeat (destruct (decide (B64.activityType a = _)); [|]);
    rewrite ?not_elem_of_cons in Hu;
    repeat (destruct (decide (B64.unit (B64.quantity a) = _)); [tauto|]);
    reflexivity.
Qed.

End B64UnitConversion.

(** C5.  When the unit of the quantity is not one the calculator of the
    activity's category converts, the raw value is the canonical
    quantity; for the four categories the calculator then returns
    [Math.round] of one hundred times the binary64 product of the raw
    value and the factor selected by the details, divided by 100, with
    that factor.  The calculators are total functions, so there is no
    error path. *)
Theorem unconverted_unit_passes_through (a : B64.Activity) :
  B64.unit (B64.quantity a) ∉ convertedUnits (B64.activityType a) →
  B64.canonicalQuantity a = B64.value (B64.quantity a)
  ∧ (B64.activityType a ∈ ["transport"; "energy"; "food"; "waste"] →
     B64.footprint a
     = B64.Result.mk
         (B64.Math_round
            (B64.value (B64.quantity a) * B64.selectedFactor a * 100) / 100)
         (B64.selectedFactor a)).
Proof.
  intros Hu. pose proof (B64_canonicalQuantity_identity a Hu) as Hc.
  split; [exact Hc|]. intros Hin. by rewrite (B64_footprint_eq a Hin), Hc.
Qed.

(** A food activity recorded in km: 2 "km" of beef count as 2 kg. *)
Lemma unconverted_unit_passes_through_witness :
  let a := B64.sample "food" 2 "km" (withFoodType "beef") in
  B64.canonicalQuantity a = 2%float
  ∧ (B64.activityType a ∈ ["transport"; "energy"; "food"; "waste"] →
     B64.footprint a
     = B64.Result.mk
         (B64.Math_round (2 * B64.selectedFactor a * 100) / 100)
         (B64.selectedFactor a)).
Proof.
  apply (unconverted_unit_passes_through
           (B64.sample "food" 2 "km" (withFoodType "beef"))).
  apply (bool_decide_unpack _). vm_compute. exact I.
Defined.

Example B64_food_2km_beef :
  B64.footprint (B64.sample "food" 2 "km" (withFoodType "beef"))
  = B64.Result.mk 54 27.
Proof. vm_compute. reflexivity. Qed.

(** ** Trend direction *)

Section B64TrendFacts.

Lemma slice_last2 {A} (pre : list A) (x y : A) :
  drop (length (pre ++ [x; y]) - 2) (pre ++ [x; y]) = [x; y].
Proof.
  rewrite length_app. simpl.
  replace (length pre + 2 - 2)%nat with (length pre) by lia.
  by rewrite drop_app_length.
Qed.

Lemma B64_calculateTrendDirection_last2 (pre : list B64.Bucket)
    (b0 b1 : B64.Bucket) :
  let change := (B64.totalEmissions b1 - B64.totalEmissions b0)%float in
  let p := (if 0 <? B64.totalEmissions b0
            then change / B64.totalEmissions b0 * 100 else 0)%float in
  B64.calculateTrendDirection (pre ++ [b0; b1])
  = {| B64.direction :=
         if (5 <? abs p)%float
         then (if (0 <? change)%float then increasing else decreasing)
         else stable;
       B64.change := B64.toFixed_num 2 change;
       B64.percentageChange := Some (B64.toFixed_num 1 p) |}.
Proof.
  intros change p. unfold B64.calculateTrendDirection.
  rewrite slice_last2.
  rewrite (decide_False (P := (length (pre ++ [b0; b1]) < 2)%nat))
    by (rewrite length_app; simpl; lia).
  reflexivity.
Qed.

End B64TrendFacts.

(** C6, as stated, fails.  After a week with total -1 (a week of
    recycling) and a week with total 1 the analyzer answers stable with
    change 0 percent, where the quotient is -200 percent and the stated
    rule gives increasing.  After totals 2 and 2.1 the binary64
    percentage is 5.000000000000004: the analyzer answers increasing and
    reports 5, where the stated rule makes the boundary value 5 stable.
    After totals 3 and 4 the reported percentage is 33.3, not the
    quotient 100/3. *)
Lemma trend_negative_previous_total :
  B64.calculateTrendDirection [B64.week (-1); B64.week 1]
  = {| B64.direction := stable; B64.change := 2;
       B64.percentageChange := Some 0%float |}
  ∧ spec_percentageChange (num (-1)) (num 1) = num (-200)
  ∧ spec_direction (num (-1)) (num 1) = increasing
  ∧ B64.direction (B64.calculateTrendDirection [B64.week 2; B64.week 2.1])
    = increasing
  ∧ B64.percentageChange (B64.calculateTrendDirection [B64.week 2; B64.week 2.1])
    = Some 5%float
  ∧ spec_percentageChange (num 2) (num 2.1) = num 5
  ∧ spec_direction (num 2) (num 2.1) = stable
  ∧ B64.percentageChange (B64.calculateTrendDirection [B64.week 3; B64.week 4])
    = Some 33.3%float
  ∧ num 33.3 ≠ spec_percentageChange (num 3) (num 4).
Proof.
  split_and!; try (vm_compute; reflexivity); try qc_eval.
  intros H. apply (f_equal this) in H. vm_compute in H. discriminate.
Qed.

(** C6 (amended).  With fewer than two weeks the answer is stable with
    change 0 (and no percentage).  Otherwise, for the last two totals
    [prev] and [curr], let [change] be the binary64 difference
    [curr - prev] and [p] the binary64 value of [change / prev * 100]
    when [prev > 0], and 0 otherwise: the direction is stable exactly
    when [|p| > 5] is false, increasing exactly when [|p| > 5] and
    [change > 0], decreasing exactly when [|p| > 5] and not
    [change > 0]; the answer reports [p] through [toFixed(1)] and
    [change] through [toFixed(2)]. *)
Theorem trend_direction_spec :
  (∀ l : list B64.Bucket, (length l < 2)%nat →
     B64.calculateTrendDirection l
     = {| B64.direction := stable; B64.change := 0;
          B64.percentageChange := None |})
  ∧ ∀ (pre : list B64.Bucket) (b0 b1 : B64.Bucket),
      let prev := B64.totalEmissions b0 in
      let curr := B64.totalEmissions b1 in
      let change := (curr - prev)%float in
      let p := (if 0 <? prev then change / prev * 100 else 0)%float in
      let r := B64.calculateTrendDirection (pre ++ [b0; b1]) in
      B64.percentageChange r = Some (B64.toFixed_num 1 p)
      ∧ B64.change r = B64.toFixed_num 2 change
      ∧ (B64.direction r = stable ↔ (5 <? abs p)%float = false)
      ∧ (B64.direction r = increasing
         ↔ (5 <? abs p)%float = true ∧ (0 <? change)%float = true)
      ∧ (B64.direction r = decreasing
         ↔ (5 <? abs p)%float = true ∧ (0 <? change)%float = false).
Proof.
  split.
  { intros l Hl. unfold B64.calculateTrendDirection. by rewrite decide_True. }
  intros pre b0 b1 prev curr change p r.
  unfold r. rewrite B64_calculateTrendDirection_last2.
  fold prev curr. fold change. fold p. cbn [B64.direction B64.change B64.percentageChange].
  split; [reflexivity|]. split; [reflexivity|].
  destruct (5 <? abs p)%float; destruct (0 <? change)%float;
    split_and!; split; try done; intros [? ?]; done.
Qed.

(** A series of one week. *)
Lemma trend_direction_spec_witness :
  B64.calculateTrendDirection [B64.week 20]
  = {| B64.direction := stable; B64.change := 0;
       B64.percentageChange := None |}.
Proof.
  destruct trend_direction_spec as [H _].
  apply (H [B64.week 20]). simpl. lia.
Defined.

Example B64_trend_20_21_stable :
  B64.calculateTrendDirection [B64.week 20; B64.week 21]
  = {| B64.direction := stable; B64.change := 1;
       B64.percentageChange := Some 5%float |}.
Proof. vm_compute. reflexivity. Qed.

Example B64_trend_20_24_increasing :
  B64.calculateTrendDirection [B64.week 20; B64.week 24]
  = {| B64.direction := increasing; B64.change := 4;
       B64.percentageChange := Some 20%float |}.
Proof. vm_compute. reflexivity. Qed.

(** ** Goal progress *)

Section B64ProgressFacts.


End B64ProgressFacts.




(** The sum of the stored footprints is a binary64 sum: 0.1 and 0.2 add
    up to 0.30000000000000004, which is above a target of 0.3. *)
Example B64_progress_sum_is_binary64 :
  let p := B64.emissionProgress msPerDay 1 (B64.emissionGoal 0 0.3)
             [B64.logged "food" 0.1 msPerDay; B64.logged "food" 0.2 msPerDay] in
  B64.EmissionProgress.isOnTrack p = false
  ∧ B64.EmissionProgress.progressPercentage p = 100%float
  ∧ B64.EmissionProgress.currentEmissions p = 0.3%float.
Proof. cbv zeta. split_and!; vm_compute; reflexivity. Qed.

(** ** Real-time tips *)

(** C9.  For a user whose fixed emission goal has not ended, the tip is
    chosen by the first tier that matches, in the order budget exhausted
    (warning), within ten percent of the budget (alert), footprint above
    the user's average for the category (info), at most half of the target
    used with more than a day left (success), and there is no tip when
    none matches; in particular a remaining budget of 0 or less gives a
    warning whatever the other tiers say.  The budget is the binary64
    difference of the target and the binary64 sum of the stored
    footprints, and the comparisons are those of binary64. *)
Theorem tip_cascade (now : Z) (user : B64.User) (goal : B64.EmissionGoal.t)
    (coll : list B64.Activity) (uid : nat) (newActivity : B64.Activity)
    (avgEmissions : option float) :
  B64.currentEmissionGoal user = Some goal →
  (now ≤ B64.EmissionGoal.endDate goal)%Z →
  let target := B64.EmissionGoal.targetEmissions goal in
  let current :=
    B64.sumFootprints
      (B64.findSince uid (B64.EmissionGoal.startDate goal)
                     (B64.EmissionGoal.category goal) coll) in
  let remainingBudget := (target - current)%float in
  let daysRemaining :=
    ceil_div (B64.EmissionGoal.endDate goal - now) msPerDay in
  let average :=
    B64.getActivityTypeAverage avgEmissions (B64.activityType newActivity) in
  let tip :=
    B64.generateRealTimeTip now (Some user) coll uid newActivity avgEmissions in
  Tip.type <$> tip
  = (if (remainingBudget <=? 0)%float then Some warning
     else if (remainingBudget <? target * 0.1)%float then Some alert
     else if (average <? B64.carbonFootprint newActivity)%float then Some info
     else if (current <=? target * 0.5)%float
             && bool_decide (1 < daysRemaining)%Z
          then Some success
     else None)
  ∧ ((remainingBudget <=? 0)%float = true →
     ∃ t, tip = Some t ∧ Tip.type t = warning).
Proof.
  intros Hgoal Hnow target current remainingBudget daysRemaining average tip.
  assert (Tip.type <$> tip
          = (if (remainingBudget <=? 0)%float then Some warning
             else if (remainingBudget <? target * 0.1)%float then Some alert
             else if (average <? B64.carbonFootprint newActivity)%float
                  then Some info
             else if (current <=? target * 0.5)%float
                     && bool_decide (1 < daysRemaining)%Z
                  then Some success
             else None)) as Hcascade.
  { unfold tip, B64.generateRealTimeTip. simpl. rewrite Hgoal.
    rewrite (decide_False (P := (B64.EmissionGoal.endDate goal < now)%Z)) by lia.
    fold target current. fold remainingBudget. fold daysRemaining average.
    destruct (remainingBudget <=? 0)%float; [reflexivity|].
    destruct (remainingBudget <? target * 0.1)%float; [reflexivity|].
    destruct (average <? B64.carbonFootprint newActivity)%float; [reflexivity|].
    destruct ((current <=? target * 0.5)%float
              && bool_decide (1 < daysRemaining)%Z); reflexivity. }
  split; [exact Hcascade|].
  intros Hneg. rewrite Hneg in Hcascade.
  destruct tip as [t|]; [|discriminate].
  exists t. split; [reflexivity|]. by injection Hcascade.
Qed.

(** Target 10, emissions 15 since the start of the goal: the remaining
    budget is -5; the conditions of the alert tier and of the info tier
    hold as well (the new activity of 12 kg is above the average 7.5), and
    the tip is the warning. *)
Lemma tip_cascade_witness :
  let coll := [B64.logged "transport" 3 msPerDay;
               B64.logged "transport" 12 (2 * msPerDay)] in
  let tip :=
    B64.generateRealTimeTip (3 * msPerDay)
      (Some (B64.userWithEmissionGoal (B64.emissionGoal 20 10)))
      coll 1 (B64.logged "transport" 12 (2 * msPerDay)) (Some 7.5%float) in
  ∃ t, tip = Some t ∧ Tip.type t = warning.
Proof.
  intros coll tip.
  refine (proj2 (tip_cascade (3 * msPerDay)
                   (B64.userWithEmissionGoal (B64.emissionGoal 20 10))
                   (B64.emissionGoal 20 10) coll 1
                   (B64.logged "transport" 12 (2 * msPerDay))
                   (Some 7.5%float) eq_refl _) _).
  - vm_compute. discriminate.
  - vm_compute. reflexivity.
Defined.

Example B64_tip_budget_exceeded :
  B64.generateRealTimeTip (3 * msPerDay)
    (Some (B64.userWithEmissionGoal (B64.emissionGoal 20 10)))
    [B64.logged "transport" 3 msPerDay; B64.logged "transport" 12 (2 * msPerDay)]
    1 (B64.logged "transport" 12 (2 * msPerDay)) (Some 7.5%float)
  = Some (Tip.mk warning "Goal Budget Exceeded!"
            "You've exceeded your weekly emission goal by 5.0 kg CO₂. Consider lower-emission alternatives."
            high "all" true
            [ "Try walking or cycling for short trips";
              "Use public transport instead of driving";
              "Combine multiple errands into one trip";
              "Consider carpooling or ride-sharing" ]).
Proof. vm_compute. reflexivity. Qed.

(** The budget is a binary64 difference: with target 0.8 and stored
    footprints 0.1 and 0.7 it is 1.1e-16, above 0, and the tip is the
    alert of the second tier. *)
Example B64_tip_budget_is_binary64 :
  Tip.type <$>
    B64.generateRealTimeTip (3 * msPerDay)
      (Some (B64.userWithEmissionGoal (B64.emissionGoal 20 0.8)))
      [B64.logged "food" 0.1 msPerDay; B64.logged "food" 0.7 (2 * msPerDay)]
      1 (B64.logged "food" 0.7 (2 * msPerDay)) None
  = Some alert.
Proof. vm_compute. reflexivity. Qed.
(** * Further properties *)

(** Closed order goals between numbers, by evaluation. *)
Ltac qc_le_eval := vm_compute; discriminate.
Ltac qc_lt_eval := vm_compute; reflexivity.

(** ** The calculators *)

Section MoreCalculatorFacts.

Lemma B64_listed_truthy (l : list (string * float)) (d : float)
    (key : option string) :
  forallb (λ kf, B64.truthy kf.2) l = true →
  B64.listedOr d (list_to_map l) key
  = default d (key ≫= ((list_to_map l : gmap string float) !!.)).
Proof.
  intros Hall. unfold B64.listedOr.
  destruct (key ≫= _) as [f|] eqn:Hf; [|reflexivity].
  destruct key as [k|]; [|discriminate]. simpl in Hf.
  apply elem_of_list_to_map_2 in Hf.
  rewrite forallb_forall in Hall.
  apply list_elem_of_In in Hf. specialize (Hall _ Hf). simpl in Hall.
  by rewrite Hall.
Qed.

(** X1.  The energy and the food table have no zero entry, so for these
    two categories the listed factor of the source (of the food type) is
    always the one used, the default (0.45, 2.0) being used exactly when
    the key is missing or not listed; the footprint is [Math.round] of
    one hundred times the binary64 product of the converted quantity and
    that factor, divided by 100. *)
Theorem energy_food_factor_selection (a : B64.Activity) :
  (B64.activityType a = "energy" →
   let f := default 0.45%float
              (energySource (B64.activityDetails a) ≫= (B64.energyEmissions !!.)) in
   B64.footprint a
   = B64.Result.mk
       (B64.Math_round (B64.energykWh (B64.quantity a) * f * 100) / 100) f)
  ∧ (B64.activityType a = "food" →
     let f := default 2.0%float
                (foodType (B64.activityDetails a) ≫= (B64.foodEmissions !!.)) in
     B64.footprint a
     = B64.Result.mk
         (B64.Math_round (B64.foodWeightKg (B64.quantity a) * f * 100) / 100) f).
Proof.
  split; intros Ht f.
  - rewrite B64_footprint_eq by (rewrite Ht, !elem_of_cons; tauto).
    unfold B64.canonicalQuantity, B64.selectedFactor. rewrite Ht.
    rewrite decide_False by discriminate. rewrite decide_True by done.
    unfold B64.energyEmissions. rewrite B64_listed_truthy by reflexivity.
    reflexivity.
  - rewrite B64_footprint_eq by (rewrite Ht, !elem_of_cons; tauto).
    unfold B64.canonicalQuantity, B64.selectedFactor. rewrite Ht.
    rewrite !(decide_False (P := "food" = _)) by discriminate.
    rewrite decide_True by done.
    unfold B64.foodEmissions. rewrite B64_listed_truthy by reflexivity.
    reflexivity.
Qed.

(** 0.0113 MWh of solar power are 11.299999999999999 kWh in binary64 and
    have footprint 0.56; four servings of an unlisted food. *)
Lemma energy_food_factor_selection_witness :
  B64.footprint (B64.sample "energy" 0.0113 "MWh" (withEnergySource "solar"))
  = B64.Result.mk 0.56 0.05
  ∧ B64.footprint (B64.sample "food" 4 "servings" (withFoodType "tofu"))
    = B64.Result.mk 2 2.0.
Proof.
  split.
  - rewrite (proj1 (energy_food_factor_selection
                      (B64.sample "energy" 0.0113 "MWh" (withEnergySource "solar")))
               eq_refl).
    vm_compute. reflexivity.
  - rewrite (proj2 (energy_food_factor_selection
                      (B64.sample "food" 4 "servings" (withFoodType "tofu")))
               eq_refl).
    vm_compute. reflexivity.
Defined.

(** *** Signs and monotonicity *)

Lemma Qc_mul_nonneg (x y : Qc) : 0 ≤ x → 0 ≤ y → 0 ≤ x * y.
Proof.
  intros Hx Hy. rewrite <- (Qcmult_0_l y). by apply Qcmult_le_compat_r.
Qed.

Lemma Qc_mul_nonneg_nonpos (x y : Qc) : 0 ≤ x → y ≤ 0 → x * y ≤ 0.
Proof.
  intros Hx Hy. rewrite <- (Qcmult_0_r x), !(Qcmult_comm x).
  by apply Qcmult_le_compat_r.
Qed.

Lemma Qc_of_Z_le (m n : Z) : (m ≤ n)%Z → Qc_of_Z m ≤ Qc_of_Z n.
Proof. intros H. unfold Qcle. simpl. by rewrite <- Zle_Qle. Qed.

Lemma Math_round_mono (x y : Qc) : x ≤ y → Math_round x ≤ Math_round y.
Proof.
  intros H. unfold Math_round. apply Qc_of_Z_le, Qfloor_resp_le.
  apply Qplus_le_l. exact H.
Qed.

Lemma Math_round_0 : Math_round 0 = 0.
Proof. qc_eval. Qed.

Lemma div100_mono (x y : Qc) : x ≤ y → x / num 100 ≤ y / num 100.
Proof. intros H. apply Qcmult_le_compat_r; [done|qc_le_eval]. Qed.

(** Rounding to cents keeps the order, and so the sign. *)
Lemma cents_mono (x y : Qc) :
  x ≤ y → Math_round (x * num 100) / num 100 ≤ Math_round (y * num 100) / num 100.
Proof.
  intros H. apply div100_mono, Math_round_mono.
  apply Qcmult_le_compat_r; [done|qc_le_eval].
Qed.

Lemma cents_0 : Math_round (0 * num 100) / num 100 = 0.
Proof. qc_eval. Qed.

(** The conversions keep the order of the raw values. *)
Lemma canonicalQuantity_mono (a b : Activity) :
  activityType a = activityType b →
  unit (quantity a) = unit (quantity b) →
  value (quantity a) ≤ value (quantity b) →
  canonicalQuantity a ≤ canonicalQuantity b.
Proof.
  intros Ht Hu Hv. unfold canonicalQuantity.
  unfold distanceKm, energykWh, foodWeightKg, wasteWeightKg.
  rewrite Ht, Hu.
  repeat case_decide; try done;
    (apply Qcmult_le_compat_r; [done|qc_le_eval]).
Qed.

Lemma canonicalQuantity_nonneg (a : Activity) :
  0 ≤ value (quantity a) → 0 ≤ canonicalQuantity a.
Proof.
  intros Hv. unfold canonicalQuantity.
  unfold distanceKm, energykWh, foodWeightKg, wasteWeightKg.
  repeat case_decide; try done;
    (apply Qc_mul_nonneg; [done|qc_le_eval]).
Qed.

Lemma table_nonneg (l : list (string * Qc)) :
  Forall (λ kf, Qle_bool 0 (this kf.2) = true) l →
  map_Forall (λ _ f, 0 ≤ f) (list_to_map l : gmap string Qc).
Proof.
  intros Hall. apply map_Forall_to_list, Forall_forall. intros [k f] Hin.
  apply elem_of_map_to_list, elem_of_list_to_map_2 in Hin.
  rewrite Forall_forall in Hall. specialize (Hall _ Hin). simpl in *.
  by apply Qle_bool_iff in Hall.
Qed.

Lemma or_num_positive (tbl : gmap string Qc) (o : option Qc) (d : Qc) :
  (∀ f, o = Some f → 0 ≤ f) → 0 < d → 0 < or_num o d.
Proof.
  intros Hall Hd. unfold or_num. destruct o as [f|]; [|done].
  case_decide as Hz; [done|].
  destruct (Qcle_lt_or_eq _ _ (Hall f eq_refl)) as [?|Heq]; [done|].
  by destruct Hz.
Qed.

Lemma get_Some (tbl : gmap string Qc) (key : option string) (f : Qc) :
  get tbl key = Some f → ∃ k, tbl !! k = Some f.
Proof. destruct key as [k|]; [|discriminate]. simpl. by exists k. Qed.

Lemma factor_positive_of_table (tbl : gmap string Qc) (key : option string)
    (d : Qc) :
  map_Forall (λ _ f, 0 ≤ f) tbl → 0 < d → 0 < or_num (get tbl key) d.
Proof.
  intros Hall Hd. apply (or_num_positive tbl); [|done].
  intros f [k Hk]%get_Some. by eapply Hall.
Qed.

Lemma wasteTypeFactor_positive (w : string) :
  w ≠ "recycling" → 0 < wasteTypeFactor w.
Proof.
  intros Hw. unfold wasteTypeFactor.
  rewrite decide_False by done. repeat case_decide; qc_lt_eval.
Qed.

(** The factor on the recycling path of the waste calculator. *)
Lemma recycling_factor (a : Activity) :
  isRecycling a → Result.emissionFactor (footprint a) = num (-0.1).
Proof.
  rewrite footprint_factor. unfold rawFootprint.
  intros [Ht Hw]. rewrite Ht. simpl.
  unfold calculateWasteEmissions. rewrite Hw. simpl. qc_eval.
Qed.

(** Every other factor a calculator selects is positive. *)
Lemma calculator_factor_positive (a : Activity) :
  ¬ isRecycling a →
  activityType a ∈ ["transport"; "energy"; "food"; "waste"] →
  0 < Result.emissionFactor (footprint a).
Proof.
  rewrite footprint_factor. unfold rawFootprint.
  intros Hnr Hin.
  destruct (decide (activityType a = "transport")) as [Ht|Ht1].
  { apply factor_positive_of_table; [|qc_lt_eval].
    apply table_nonneg. repeat constructor. }
  destruct (decide (activityType a = "energy")) as [Ht|Ht2].
  { apply factor_positive_of_table; [|qc_lt_eval].
    apply table_nonneg. repeat constructor. }
  destruct (decide (activityType a = "food")) as [Ht|Ht3].
  { apply factor_positive_of_table; [|qc_lt_eval].
    apply table_nonneg. repeat constructor. }
  destruct (decide (activityType a = "waste")) as [Ht|Ht4].
  2:{ repeat (apply elem_of_cons in Hin as [?|Hin]; [done|]).
      by apply elem_of_nil in Hin. }
  unfold calculateWasteEmissions. simpl.
  case_decide as Hg.
  - apply (or_num_positive wasteEmissions_general_waste); [|qc_lt_eval].
    intros f Hf. eapply (table_nonneg _ _ _ f Hf). Unshelve.
    repeat constructor.
  - rewrite wasteEmissions_lookup. apply wasteTypeFactor_positive.
    intros Hrec. apply Hnr. split; [done|].
    unfold or_str in Hrec, Hg.
    destruct (wasteType (activityDetails a)) as [w|]; [|done].
    case_decide; [done|]. by rewrite Hrec.
Qed.

(** A category without a calculator has factor 0. *)
Lemma uncalculated_factor (a : Activity) :
  activityType a ∉ ["transport"; "energy"; "food"; "waste"] →
  Result.emissionFactor (footprint a) = 0.
Proof.
  rewrite footprint_factor. unfold rawFootprint. intros Hnot.
  rewrite !decide_False; [reflexivity|intros E; apply Hnot; rewrite E..];
    apply (bool_decide_unpack _); vm_compute; exact I.
Qed.

(** X2.  For the four categories with a calculator the factor is never
    0 (a zero table entry is replaced by the default): it is -0.1 on the
    recycling path of the waste calculator and positive everywhere else.
    Any other category has factor 0. *)
Theorem emission_factor_sign (a : Activity) :
  (isRecycling a → Result.emissionFactor (footprint a) = num (-0.1))
  ∧ (¬ isRecycling a →
     activityType a ∈ ["transport"; "energy"; "food"; "waste"] →
     0 < Result.emissionFactor (footprint a))
  ∧ (activityType a ∉ ["transport"; "energy"; "food"; "waste"] →
     Result.emissionFactor (footprint a) = 0).
Proof.
  split_and!.
  - apply recycling_factor.
  - apply calculator_factor_positive.
  - apply uncalculated_factor.
Qed.

Lemma emission_factor_sign_witness :
  Result.emissionFactor
    (footprint (sample "waste" 1 "kg" (withWaste (Some "recycling") None)))
  = num (-0.1)
  ∧ 0 < Result.emissionFactor
          (footprint (sample "transport" 1 "km" (withTransportMode "walking")))
  ∧ Result.emissionFactor (footprint (sample "other" 1 "items" noDetails)) = 0.
Proof.
  split_and!.
  - apply (proj1 (emission_factor_sign _)). by split.
  - apply (proj1 (proj2 (emission_factor_sign _))).
    + intros [Ht _]. discriminate Ht.
    + apply (bool_decide_unpack _). vm_compute. exact I.
  - apply (proj2 (proj2 (emission_factor_sign _))).
    apply (bool_decide_unpack _). vm_compute. exact I.
Defined.

(** X3.  With a quantity that is not negative, the footprint is negative
    only on the recycling path: it is 0 or more for every other activity,
    and 0 or less for recycling. *)
Theorem footprint_sign (a : Activity) :
  0 ≤ value (quantity a) →
  (¬ isRecycling a → 0 ≤ Result.carbonFootprint (footprint a))
  ∧ (isRecycling a → Result.carbonFootprint (footprint a) ≤ 0).
Proof.
  intros Hv. pose proof (canonicalQuantity_nonneg a Hv) as Hc.
  pose proof (recycling_factor a) as Hrec.
  pose proof (calculator_factor_positive a) as Hpos.
  pose proof (uncalculated_factor a) as Hzero.
  rewrite footprint_value. split.
  - intros Hnr. rewrite <- cents_0 at 1. apply cents_mono.
    destruct (decide (activityType a ∈ ["transport"; "energy"; "food"; "waste"])).
    + apply Qc_mul_nonneg; [done|]. apply Qclt_le_weak. by apply Hpos.
    + rewrite Hzero by done. by rewrite Qcmult_0_r.
  - intros Hr. rewrite <- cents_0. apply cents_mono.
    rewrite Hrec by done.
    apply Qc_mul_nonneg_nonpos; [done|qc_le_eval].
Qed.

Lemma footprint_sign_witness :
  0 ≤ Result.carbonFootprint
        (footprint (sample "waste" 3 "kg" (withWaste None (Some "recycling"))))
  ∧ Result.carbonFootprint
      (footprint (sample "waste" 3 "kg" (withWaste (Some "recycling") None)))
    ≤ 0.
Proof.
  split.
  - refine (proj1 (footprint_sign
                     (sample "waste" 3 "kg" (withWaste None (Some "recycling")))
                     _) _).
    + qc_le_eval.
    + intros [_ Hw]. discriminate Hw.
  - refine (proj2 (footprint_sign
                     (sample "waste" 3 "kg" (withWaste (Some "recycling") None))
                     _) _).
    + qc_le_eval.
    + by split.
Defined.

Lemma factor_ext (a b : Activity) :
  activityType a = activityType b →
  activityDetails a = activityDetails b →
  Result.emissionFactor (footprint a) = Result.emissionFactor (footprint b).
Proof.
  intros Ht Hd. rewrite !footprint_factor. unfold rawFootprint.
  unfold calculateTransportEmissions, calculateEnergyEmissions,
    calculateFoodEmissions, calculateWasteEmissions.
  rewrite Ht, Hd. by repeat case_decide.
Qed.

Lemma B64_selectedFactor_ext (a b : B64.Activity) :
  B64.activityType a = B64.activityType b →
  B64.activityDetails a = B64.activityDetails b →
  B64.selectedFactor a = B64.selectedFactor b.
Proof. intros Ht Hd. unfold B64.selectedFactor. by rewrite Ht, Hd. Qed.

(** X4.  The footprint depends on the quantity only through its binary64
    value in the unit of the category: two activities of the same type
    and details whose quantities convert to the same double (1 MWh and
    1000 kWh) get the same footprint and factor. *)
Theorem footprint_by_canonical_quantity (a b : B64.Activity) :
  B64.activityType a = B64.activityType b →
  B64.activityDetails a = B64.activityDetails b →
  B64.canonicalQuantity a = B64.canonicalQuantity b →
  B64.footprint a = B64.footprint b.
Proof.
  intros Ht Hd Hc.
  destruct (decide (B64.activityType a ∈ ["transport"; "energy"; "food"; "waste"]))
    as [Hin|Hout].
  - rewrite (B64_footprint_eq a Hin).
    rewrite Ht in Hin. rewrite (B64_footprint_eq b Hin).
    by rewrite Hc, (B64_selectedFactor_ext a b Ht Hd).
  - unfold B64.footprint, B64.calculateCarbonFootprint.
    rewrite (B64_rawFootprint_other a Hout).
    rewrite Ht in Hout. by rewrite (B64_rawFootprint_other b Hout).
Qed.

Lemma footprint_by_canonical_quantity_witness :
  B64.footprint (B64.sample "energy" 1 "MWh" (withEnergySource "coal"))
  = B64.footprint (B64.sample "energy" 1000 "kWh" (withEnergySource "coal")).
Proof.
  apply footprint_by_canonical_quantity;
    [reflexivity | reflexivity | vm_compute; reflexivity].
Defined.

(** 3000 miles and 4828.02 km are not the same double once converted
    (4828.0199999999995 and 4828.02), and their footprints differ. *)
Example B64_miles_and_km :
  B64.footprint (B64.sample "transport" 3000 "miles" (withTransportMode "plane_domestic"))
  = B64.Result.mk 1207 0.25
  ∧ B64.footprint (B64.sample "transport" 4828.02 "km" (withTransportMode "plane_domestic"))
    = B64.Result.mk 1207.01 0.25.
Proof. split; vm_compute; reflexivity. Qed.

(** X5.  Off the recycling path the footprint grows with the quantity:
    of two activities of the same type, unit and details, the one with
    the larger value never has the smaller footprint.  (On the recycling
    path the order is reversed.) *)
Theorem footprint_monotone (a b : Activity) :
  activityType a = activityType b →
  activityDetails a = activityDetails b →
  unit (quantity a) = unit (quantity b) →
  value (quantity a) ≤ value (quantity b) →
  (¬ isRecycling a →
   Result.carbonFootprint (footprint a) ≤ Result.carbonFootprint (footprint b))
  ∧ (isRecycling a →
     Result.carbonFootprint (footprint b) ≤ Result.carbonFootprint (footprint a)).
Proof.
  intros Ht Hd Hu Hv.
  pose proof (canonicalQuantity_mono a b Ht Hu Hv) as Hc.
  pose proof (factor_ext a b Ht Hd) as Hf.
  pose proof (recycling_factor a) as Hrec.
  pose proof (calculator_factor_positive a) as Hpos.
  pose proof (uncalculated_factor a) as Hzero.
  rewrite !footprint_value, <- Hf. split.
  - intros Hnr. apply cents_mono.
    destruct (decide (activityType a ∈ ["transport"; "energy"; "food"; "waste"])).
    + apply Qcmult_le_compat_r; [done|]. apply Qclt_le_weak. by apply Hpos.
    + rewrite Hzero by done. by rewrite !Qcmult_0_r.
  - intros Hr. apply cents_mono. rewrite Hrec by done.
    rewrite <- (Qcopp_involutive (canonicalQuantity b * _)),
            <- (Qcopp_involutive (canonicalQuantity a * _)).
    apply Qcopp_le_compat.
    replace (- (canonicalQuantity a * num (-0.1)))
      with (canonicalQuantity a * num 0.1) by (apply Qc_is_canon; qc_unfold; ring).
    replace (- (canonicalQuantity b * num (-0.1)))
      with (canonicalQuantity b * num 0.1) by (apply Qc_is_canon; qc_unfold; ring).
    apply Qcmult_le_compat_r; [done|qc_le_eval].
Qed.

Lemma footprint_monotone_witness :
  Result.carbonFootprint
    (footprint (sample "food" 1 "lbs" (withFoodType "beef")))
  ≤ Result.carbonFootprint
      (footprint (sample "food" 2 "lbs" (withFoodType "beef"))).
Proof.
  refine (proj1 (footprint_monotone
                   (sample "food" 1 "lbs" (withFoodType "beef"))
                   (sample "food" 2 "lbs" (withFoodType "beef"))
                   eq_refl eq_refl eq_refl _) _).
  - qc_le_eval.
  - intros [Ht _]. discriminate Ht.
Defined.

(** X6.  On the general-waste path of the waste calculator (waste type
    missing, empty or [general_waste]) the factor is 0.3 for disposal by
    incineration and 0.5 for every other disposal method, the methods
    [recycling] and [composting] included. *)
Theorem general_waste_factor (a : Activity) :
  activityType a = "waste" →
  or_str (wasteType (activityDetails a)) "general_waste" = "general_waste" →
  Result.emissionFactor (footprint a)
  = if decide (disposalMethod (activityDetails a) = Some "incineration")
    then num 0.3 else num 0.5.
Proof.
  intros Ht Hg. rewrite footprint_factor. unfold rawFootprint.
  rewrite Ht. simpl. unfold calculateWasteEmissions. simpl.
  rewrite Hg. simpl.
  set (d := or_str (disposalMethod (activityDetails a)) "landfill").
  destruct (decide (d = "incineration")) as [Hd|Hd].
  - rewrite Hd. rewrite decide_True; [qc_eval|].
    unfold d, or_str in Hd.
    destruct (disposalMethod (activityDetails a)) as [m|]; [|discriminate].
    case_decide; [discriminate|]. by rewrite Hd.
  - rewrite decide_False.
    + destruct (decide (d = "landfill")) as [->|Hl]; [qc_eval|].
      unfold wasteEmissions_general_waste. simpl.
      rewrite !lookup_insert_ne by done. by rewrite lookup_empty.
    + intros Hm. apply Hd. unfold d. by rewrite Hm.
Qed.

Lemma general_waste_factor_witness :
  Result.emissionFactor
    (footprint (sample "waste" 1 "kg" (withWaste None (Some "recycling"))))
  = num 0.5.
Proof.
  rewrite (general_waste_factor
             (sample "waste" 1 "kg" (withWaste None (Some "recycling"))));
    reflexivity.
Defined.

End MoreCalculatorFacts.

(** ** Creating, updating, deleting *)

Section MoreRouteFacts.

Lemma rev_app_length (s1 s2 : string) :
  String.length (String.rev_app s1 s2)
  = (String.length s1 + String.length s2)%nat.
Proof.
  revert s2. induction s1 as [|c s1 IH]; intros s2; simpl; [done|].
  rewrite IH. simpl. lia.
Qed.

Lemma trimStart_length (s : string) :
  (String.length (trimStart s) ≤ String.length s)%nat.
Proof.
  induction s as [|c s IH]; simpl; [done|].
  destruct (Ascii.is_space c); simpl; lia.
Qed.

Lemma trim_length (s : string) :
  (String.length (trim s) ≤ String.length s)%nat.
Proof.
  unfold trim, String.rev. rewrite rev_app_length. simpl.
  pose proof (trimStart_length (String.rev_app (trimStart s) "")) as H1.
  rewrite rev_app_length in H1. simpl in H1.
  pose proof (trimStart_length s). lia.
Qed.

Lemma length_0_empty (s : string) : String.length s = 0%nat → s = "".
Proof. by destruct s. Qed.

Lemma enumError_nil (path : string) (field : option string)
    (values : list string) :
  enumError path field values = [] ↔ enumOk field values.
Proof.
  unfold enumError, enumOk. destruct field as [s|].
  - case_bool_decide as Hin.
    + split; [|done]. by intros _ ? [= <-].
    + split; [discriminate|]. intros H. destruct Hin. by apply H.
  - split; [|done]. by intros _ ? [=].
Qed.

(** What the middleware guarantees about an accepted body. *)
Lemma validateActivity_accepts (body : ActivityBody) :
  validateActivity body = None →
  ∃ q, body_quantity body = Some q
       ∧ trim (body_activityName body) ≠ ""
       ∧ (String.length (body_activityName body) ≤ 100)%nat
       ∧ body_activityType body ∈ validTypes
       ∧ trim (body_description body) ≠ ""
       ∧ (String.length (body_description body) ≤ 500)%nat
       ∧ 0 < value q
       ∧ unit q ∈ validUnits.
Proof.
  unfold validateActivity.
  destruct (body_quantity body) as [q|]; [|discriminate].
  repeat (case_bool_decide; [discriminate|]).
  intros _. exists q. split_and!; try done.
  - intros E. by rewrite E in *.
  - lia.
  - intros E. by rewrite E in *.
  - lia.
  - by apply Qcnot_le_lt.
Qed.

Lemma fieldErrors_accepted (body : ActivityBody) (q : Quantity) :
  validateActivity body = None →
  body_quantity body = Some q →
  ∀ details,
    fieldErrors (trim (body_activityName body)) (body_activityType body)
                (trim (body_description body)) q details
    = (enumError "activityDetails.transportMode" (transportMode details)
                 validTransportModes
       ++ enumError "activityDetails.energySource" (energySource details)
                    validEnergySources
       ++ enumError "activityDetails.foodType" (foodType details) validFoodTypes
       ++ enumError "activityDetails.wasteType" (wasteType details)
                    validWasteTypes
       ++ enumError "activityDetails.disposalMethod" (disposalMethod details)
                    validDisposalMethods)%list.
Proof.
  intros Hv Hq details.
  destruct (validateActivity_accepts body Hv)
    as (q' & Hq' & Hn & Hnl & Ht & Hd & Hdl & Hpos & Hu).
  rewrite Hq in Hq'. injection Hq' as <-.
  pose proof (trim_length (body_activityName body)).
  pose proof (trim_length (body_description body)).
  unfold fieldErrors.
  rewrite (decide_False (P := trim (body_activityName body) = "")) by done.
  rewrite (decide_False (P := (100 < _)%nat)) by lia.
  rewrite (decide_False (P := body_activityType body = "")).
  2:{ intros E. rewrite E in Ht. revert Ht.
      apply (bool_decide_unpack _). vm_compute. exact I. }
  rewrite (decide_True (P := body_activityType body ∈ validTypes)) by done.
  rewrite (decide_False (P := trim (body_description body) = "")) by done.
  rewrite (decide_False (P := (500 < _)%nat)) by lia.
  rewrite (decide_False (P := value q < 0)).
  2:{ apply Qcle_not_lt. by apply Qclt_le_weak. }
  rewrite (decide_False (P := unit q = "")).
  2:{ intros E. rewrite E in Hu. revert Hu.
      apply (bool_decide_unpack _). vm_compute. exact I. }
  rewrite (decide_True (P := unit q ∈ validUnits)) by done.
  reflexivity.
Qed.

Lemma enumErrors_nil (details : ActivityDetails) :
  (enumError "activityDetails.transportMode" (transportMode details)
             validTransportModes
   ++ enumError "activityDetails.energySource" (energySource details)
                validEnergySources
   ++ enumError "activityDetails.foodType" (foodType details) validFoodTypes
   ++ enumError "activityDetails.wasteType" (wasteType details)
                validWasteTypes
   ++ enumError "activityDetails.disposalMethod" (disposalMethod details)
                validDisposalMethods)%list = []
  ↔ detailsEnumsOk details.
Proof.
  unfold detailsEnumsOk. rewrite <- !enumError_nil.
  split.
  - intros H. repeat (apply app_eq_nil in H as [? H]). done.
  - intros (-> & -> & -> & -> & ->). reflexivity.
Qed.

(** The creation route stores a body that the middleware accepted and
    whose details are values of the schema's enums. *)
Lemma post_activity_stores (now : Z) (freshId : nat) (user : option User)
    (uid : nat) (body : ActivityBody) (coll : list Activity) :
  validateActivity body = None →
  detailsEnumsOk (default noDetails (body_activityDetails body)) →
  ∃ a tip,
    post_activity now freshId user uid body coll
    = ((coll ++ [a])%list, Created a tip)
    ∧ _id a = freshId ∧ userId a = uid ∧ consistent a.
Proof.
  intros Hv Hok.
  destruct (validateActivity_accepts body Hv) as ([v u] & Hq & _).
  pose proof (fieldErrors_accepted body _ Hv Hq
                (default noDetails (body_activityDetails body))) as Hfe.
  unfold post_activity, saveNew, validationErrors. rewrite Hv, Hq.
  cbn [activityName activityType description quantity activityDetails
       carbonFootprint newActivity value unit].
  rewrite Hfe.
  rewrite (decide_False (P := 0 < 0)) by (intros H; by vm_compute in H).
  rewrite app_nil_r.
  apply enumErrors_nil in Hok. rewrite Hok.
  eexists _, _. split; [reflexivity|].
  rewrite preSave_new by reflexivity.
  split_and!; [reflexivity | reflexivity |].
  rewrite <- preSave_new by reflexivity.
  by apply preSave_new_consistent.
Qed.

(** X7.  A body whose name and description are ASCII strings and which
    the middleware accepted is stored by the creation route exactly when every details field that is present is a value of
    its enum, whatever the category of the activity (the middleware only
    checks the details of the activity's own category).  The stored
    document is appended, has the generated identifier, belongs to the
    caller and carries the footprint of its own fields; otherwise the
    answer is a validation error and the collection is unchanged. *)
Theorem creation_succeeds_iff (now : Z) (freshId : nat) (user : option User)
    (uid : nat) (body : ActivityBody) (coll : list Activity) :
  isAscii (body_activityName body) →
  isAscii (body_description body) →
  validateActivity body = None →
  let details := default noDetails (body_activityDetails body) in
  (detailsEnumsOk details →
   ∃ a tip,
     post_activity now freshId user uid body coll
     = ((coll ++ [a])%list, Created a tip)
     ∧ _id a = freshId ∧ userId a = uid ∧ consistent a)
  ∧ (¬ detailsEnumsOk details →
     ∃ errors,
       post_activity now freshId user uid body coll
       = (coll, BadRequest "Validation error" errors)
       ∧ errors ≠ []).
Proof.
  intros _ _ Hv details.
  destruct (validateActivity_accepts body Hv) as ([v u] & Hq & _).
  pose proof (fieldErrors_accepted body _ Hv Hq details) as Hfe.
  unfold post_activity, saveNew, validationErrors. rewrite Hv, Hq.
  cbn [activityName activityType description quantity activityDetails
       carbonFootprint newActivity value unit].
  fold details. rewrite Hfe.
  rewrite (decide_False (P := 0 < 0)) by (intros H; by vm_compute in H).
  rewrite app_nil_r.
  split.
  - intros Hok. apply enumErrors_nil in Hok. rewrite Hok.
    eexists _, _. split; [reflexivity|].
    rewrite preSave_new by reflexivity.
    split_and!; [reflexivity | reflexivity |].
    rewrite <- preSave_new by reflexivity.
    by apply preSave_new_consistent.
  - intros Hbad. rewrite <- enumErrors_nil in Hbad.
    destruct (_ ++ _)%list as [|e errors] eqn:He; [done|].
    by exists (e :: errors).
Qed.

Lemma creation_succeeds_iff_witness :
  (∃ a tip,
     post_activity 0 7 None 1
       (request "food" 2 "kg" (Some (withFoodType "beef"))) []
     = ([a], Created a tip) ∧ _id a = 7%nat ∧ userId a = 1%nat ∧ consistent a)
  ∧ (∃ errors,
       post_activity 0 7 None 1
         (request "food" 2 "kg" (Some (withTransportMode "rocket"))) []
       = ([], BadRequest "Validation error" errors) ∧ errors ≠ []).
Proof.
  split.
  - apply (creation_succeeds_iff 0 7 None 1
             (request "food" 2 "kg" (Some (withFoodType "beef"))) []);
      [apply (bool_decide_unpack _); vm_compute; exact I ..|reflexivity|].
    split_and!; intros s [= <-] || intros s [=].
    apply (bool_decide_unpack _). vm_compute. exact I.
  - apply (creation_succeeds_iff 0 7 None 1
             (request "food" 2 "kg" (Some (withTransportMode "rocket"))) []);
      [apply (bool_decide_unpack _); vm_compute; exact I ..|reflexivity|].
    intros (Hmode & _). specialize (Hmode "rocket" eq_refl).
    revert Hmode. apply (bool_decide_unpack _). vm_compute. exact I.
Defined.

(** *** One document at most, and only the caller's *)

Lemma findOneAndUpdate_spec (matches : Activity → bool)
    (update : Activity → Activity) (coll : list Activity) :
  match findOneAndUpdate matches update coll with
  | (coll', Some b) =>
      ∃ l1 a l2, coll = (l1 ++ a :: l2)%list ∧ coll' = (l1 ++ update a :: l2)%list
                 ∧ b = update a ∧ matches a = true
                 ∧ Forall (λ x, matches x = false) l1
  | (coll', None) => coll' = coll ∧ Forall (λ x, matches x = false) coll
  end.
Proof.
  induction coll as [|x rest IH]; simpl; [done|].
  destruct (matches x) eqn:Hx.
  - exists [], x, rest. done.
  - destruct (findOneAndUpdate matches update rest) as [rest' [b|]].
    + destruct IH as (l1 & a & l2 & -> & -> & -> & Ha & Hl1).
      exists (x :: l1), a, l2. split_and!; try done. by constructor.
    + destruct IH as [-> Hall]. split; [done|]. by constructor.
Qed.

Lemma findOneAndDelete_spec (matches : Activity → bool) (coll : list Activity) :
  match findOneAndDelete matches coll with
  | (coll', Some a) =>
      ∃ l1 l2, coll = (l1 ++ a :: l2)%list ∧ coll' = (l1 ++ l2)%list
               ∧ matches a = true ∧ Forall (λ x, matches x = false) l1
  | (coll', None) => coll' = coll ∧ Forall (λ x, matches x = false) coll
  end.
Proof.
  induction coll as [|x rest IH]; simpl; [done|].
  destruct (matches x) eqn:Hx.
  - exists [], rest. done.
  - destruct (findOneAndDelete matches rest) as [rest' [b|]].
    + destruct IH as (l1 & l2 & -> & -> & Ha & Hl1).
      exists (x :: l1), l2. split_and!; try done. by constructor.
    + destruct IH as [-> Hall]. split; [done|]. by constructor.
Qed.

Lemma owns_true (id uid : nat) (a : Activity) :
  owns id uid a = true ↔ _id a = id ∧ userId a = uid.
Proof. unfold owns. apply bool_decide_eq_true. Qed.

(** X8.  The update route changes at most one document: the first one
    with the given identifier that belongs to the caller.  Its
    identifier, owner, footprint and factor stay as they were; every
    other document, and the order of the collection, is untouched; and
    when no document matches, or the body is refused, nothing changes. *)
Theorem put_activity_frame (id uid : nat) (body : ActivityBody)
    (coll : list Activity) :
  match put_activity id uid body coll with
  | (coll', Updated b) =>
      ∃ l1 a l2,
        coll = (l1 ++ a :: l2)%list ∧ coll' = (l1 ++ b :: l2)%list
        ∧ _id a = id ∧ userId a = uid
        ∧ _id b = id ∧ userId b = uid
        ∧ carbonFootprint b = carbonFootprint a
        ∧ emissionFactor b = emissionFactor a
        ∧ Forall (λ x, ¬ (_id x = id ∧ userId x = uid)) l1
  | (coll', _) => coll' = coll
  end.
Proof.
  unfold put_activity.
  destruct (validateActivity body); [done|].
  destruct (body_quantity body) as [q|]; [|done].
  destruct (fieldErrors _ _ _ _ _); [|done].
  match goal with
  | |- context [findOneAndUpdate ?m ?u coll] =>
      pose proof (findOneAndUpdate_spec m u coll) as Hspec;
      destruct (findOneAndUpdate m u coll) as [coll' [b|]]
  end.
  - destruct Hspec as (l1 & a & l2 & -> & -> & -> & Ha & Hl1).
    apply bool_decide_eq_true in Ha as [Hid Hu].
    exists l1, a, l2. split_and!; try done.
    eapply Forall_impl; [exact Hl1|]. intros x Hx.
    by apply bool_decide_eq_false in Hx.
  - by destruct Hspec.
Qed.

(** X9.  The delete route removes exactly one document, the first one
    with the given identifier that belongs to the caller, and answers its
    name and footprint; the other documents keep their order.  It
    answers that the activity is missing, and removes nothing, exactly
    when no document of the caller has that identifier. *)
Theorem delete_activity_spec (id uid : nat) (coll : list Activity) :
  match delete_activity id uid coll with
  | (coll', Deleted name footprint) =>
      ∃ l1 a l2,
        coll = (l1 ++ a :: l2)%list ∧ coll' = (l1 ++ l2)%list
        ∧ _id a = id ∧ userId a = uid
        ∧ name = activityName a ∧ footprint = carbonFootprint a
        ∧ Forall (λ x, ¬ (_id x = id ∧ userId x = uid)) l1
  | (coll', Missing) =>
      coll' = coll ∧ Forall (λ x, ¬ (_id x = id ∧ userId x = uid)) coll
  | (_, Fetched _) => False
  end.
Proof.
  unfold delete_activity.
  pose proof (findOneAndDelete_spec (owns id uid) coll) as Hspec.
  destruct (findOneAndDelete (owns id uid) coll) as [coll' [a|]].
  - destruct Hspec as (l1 & l2 & -> & -> & Ha & Hl1).
    apply owns_true in Ha as [Hid Hu].
    exists l1, a, l2. split_and!; try done.
    eapply Forall_impl; [exact Hl1|]. intros x Hx Hown.
    apply owns_true in Hown. congruence.
  - destruct Hspec as [-> Hall]. split; [done|].
    eapply Forall_impl; [exact Hall|]. intros x Hx Hown.
    apply owns_true in Hown. congruence.
Qed.

Lemma findOneAndDelete_last (matches : Activity → bool) (coll : list Activity)
    (a : Activity) :
  Forall (λ x, matches x = false) coll → matches a = true →
  findOneAndDelete matches (coll ++ [a]) = (coll, Some a).
Proof.
  intros Hall Ha. induction Hall as [|x rest Hx Hrest IH]; simpl.
  - by rewrite Ha.
  - by rewrite Hx, IH.
Qed.

(** X10.  Creating an activity and then deleting it gives the collection
    back: when the generated identifier is not yet the identifier of a
    stored document, the delete route applied after a successful creation
    removes the created document and nothing else, and answers with its
    stored footprint. *)
Theorem create_then_delete (now : Z) (freshId : nat) (user : option User)
    (uid : nat) (body : ActivityBody) (coll coll' : list Activity)
    (a : Activity) (tip : option Tip.t) :
  Forall (λ x, _id x ≠ freshId) coll →
  post_activity now freshId user uid body coll = (coll', Created a tip) →
  delete_activity freshId uid coll'
  = (coll, Deleted (activityName a) (carbonFootprint a)).
Proof.
  intros Hfresh Hp.
  apply post_activity_created in Hp as (q & _ & _ & Ha & ->).
  assert (_id a = freshId ∧ userId a = uid) as Hown.
  { rewrite Ha, preSave_new by reflexivity. done. }
  unfold delete_activity. rewrite findOneAndDelete_last; [done| |].
  - eapply Forall_impl; [exact Hfresh|]. intros x Hx.
    apply bool_decide_eq_false. by intros [? _].
  - by apply owns_true.
Qed.

Lemma create_then_delete_witness :
  let stored := [logged "transport" 3 0] in
  ∃ a tip,
    post_activity 0 7 None 1
      (request "food" 2 "kg" (Some (withFoodType "beef"))) stored
    = ((stored ++ [a])%list, Created a tip)
    ∧ delete_activity 7 1 (stored ++ [a])
      = (stored, Deleted (activityName a) (carbonFootprint a)).
Proof.
  intros stored.
  destruct (post_activity_stores 0 7 None 1
              (request "food" 2 "kg" (Some (withFoodType "beef")))
              stored eq_refl) as (a & tip & Hp & _).
  { split_and!; intros s [= <-] || intros s [=].
    apply (bool_decide_unpack _). vm_compute. exact I. }
  exists a, tip. split; [exact Hp|].
  eapply (create_then_delete 0 7 None 1); [|exact Hp].
  repeat constructor. discriminate.
Defined.

(** X11.  The read route answers a document only when it has the given
    identifier and belongs to the caller, and answers that it is missing
    exactly when the caller has no such document. *)
Theorem get_activity_spec (id uid : nat) (coll : list Activity) :
  match get_activity id uid coll with
  | Fetched a => a ∈ coll ∧ _id a = id ∧ userId a = uid
  | Missing => Forall (λ x, ¬ (_id x = id ∧ userId x = uid)) coll
  | Deleted _ _ => False
  end.
Proof.
  unfold get_activity.
  destruct (List.find (owns id uid) coll) as [a|] eqn:Hf.
  - apply find_some in Hf as [Hin Hown].
    apply owns_true in Hown. split; [|done]. by apply list_elem_of_In.
  - apply Forall_forall. intros x Hx Hown.
    apply list_elem_of_In in Hx.
    pose proof (find_none _ _ Hf x Hx) as Hn.
    apply owns_true in Hown. congruence.
Qed.

(** *** Logging and the emissions a goal counts *)

Lemma sumFootprints_acc (acc : Qc) (l : list Activity) :
  foldl (λ sum activity, sum + carbonFootprint activity) acc l
  = acc + sumFootprints l.
Proof.
  unfold sumFootprints. revert acc.
  induction l as [|a l IH]; intros acc; simpl.
  - by rewrite Qcplus_0_r.
  - rewrite (IH (acc + _)), (IH (0 + _)). ring.
Qed.

Lemma sumFootprints_app (l1 l2 : list Activity) :
  sumFootprints (l1 ++ l2) = sumFootprints l1 + sumFootprints l2.
Proof.
  unfold sumFootprints at 1. rewrite foldl_app.
  by rewrite sumFootprints_acc.
Qed.

Lemma sumFootprints_singleton (a : Activity) :
  sumFootprints [a] = carbonFootprint a.
Proof. unfold sumFootprints. simpl. ring. Qed.

(** X12.  A successful creation adds the stored footprint of the new
    activity to the emissions of every goal that counts it (same user,
    date not before the start of the goal, category [all] or the
    activity's type) and leaves the emissions of every other goal as they
    were. *)
Theorem logging_adds_to_goal (now : Z) (freshId : nat) (user : option User)
    (uid : nat) (body : ActivityBody) (coll coll' : list Activity)
    (a : Activity) (tip : option Tip.t)
    (goalUser : nat) (since : Z) (category : string) :
  post_activity now freshId user uid body coll = (coll', Created a tip) →
  sumFootprints (findSince goalUser since category coll')
  = sumFootprints (findSince goalUser since category coll)
    + (if decide (inWindow goalUser since category a)
       then carbonFootprint a else 0).
Proof.
  intros Hp. apply post_activity_created in Hp as (q & _ & _ & _ & ->).
  unfold findSince. rewrite filter_app, sumFootprints_app. f_equal.
  fold (inWindow goalUser since category).
  case_decide as Hin.
  - rewrite filter_cons_True by done. apply sumFootprints_singleton.
  - by rewrite filter_cons_False by done.
Qed.

Lemma logging_adds_to_goal_witness :
  let stored := [logged "transport" 3 0] in
  ∃ a tip,
    post_activity 5 7 None 1
      (request "food" 2 "kg" (Some (withFoodType "beef"))) stored
    = ((stored ++ [a])%list, Created a tip)
    ∧ sumFootprints (findSince 1 0 "food" (stored ++ [a]))
      = sumFootprints (findSince 1 0 "food" stored)
        + (if decide (inWindow 1 0 "food" a) then carbonFootprint a else 0).
Proof.
  intros stored.
  destruct (post_activity_stores 5 7 None 1
              (request "food" 2 "kg" (Some (withFoodType "beef")))
              stored eq_refl) as (a & tip & Hp & _).
  { split_and!; intros s [= <-] || intros s [=].
    apply (bool_decide_unpack _). vm_compute. exact I. }
  exists a, tip. split; [exact Hp|].
  by eapply (logging_adds_to_goal 5 7 None 1).
Defined.

End MoreRouteFacts.

(** ** Tips *)

Section MoreTipFacts.

Lemma highEmissionThreshold_lookup (type : string) :
  or_num ((list_to_map
             [ ("transport", num 10); ("food", num 5); ("energy", num 8);
               ("waste", num 2) ] : gmap string Qc) !! type) (num 3)
  = highEmissionThreshold type.
Proof.
  unfold highEmissionThreshold. repeat case_decide; subst; try qc_eval.
  simpl. rewrite !lookup_insert_ne by done. by rewrite lookup_empty.
Qed.

Lemma highEmissionThreshold_above_1 (type : string) :
  num 1 < highEmissionThreshold type.
Proof. unfold highEmissionThreshold. repeat case_decide; qc_lt_eval. Qed.

Lemma suggestions_lookup_4 (l : list (string * list string)) (k : string)
    (s : list string) :
  Forall (λ kv, length kv.2 = 4%nat) l →
  (list_to_map l : gmap string (list string)) !! k = Some s →
  length s = 4%nat.
Proof.
  intros Hall Hk. apply elem_of_list_to_map_2 in Hk.
  rewrite Forall_forall in Hall. by apply (Hall (k, s)).
Qed.

(** X13.  The alternative suggestions are 3 or 4 items, the low-emission
    suggestions 1 to 4, and the optimization suggestions 1 to 3: no
    suggestion list of a tip is built empty. *)
Theorem suggestion_counts (a : Activity) (kind : string) :
  (3 ≤ length (getAlternativeSuggestions a) ≤ 4)%nat
  ∧ (1 ≤ length (getLowEmissionSuggestions kind) ≤ 4)%nat
  ∧ (1 ≤ length (getOptimizationSuggestions a) ≤ 3)%nat.
Proof.
  split; [|split].
  - unfold getAlternativeSuggestions. cbv zeta.
    match goal with
    | |- context [?m !! activityType a] =>
        destruct (m !! activityType a) as [s|] eqn:Hs
    end; simpl; [|lia].
    apply suggestions_lookup_4 in Hs; [lia|]. repeat constructor.
  - unfold getLowEmissionSuggestions. cbv zeta.
    match goal with
    | |- context [default _ ?o] => destruct o as [s|] eqn:Hs
    end; simpl; [|lia].
    apply elem_of_list_to_map_2 in Hs.
    repeat (apply elem_of_cons in Hs as [[= _ ->]|Hs]; [simpl; lia|]).
    by apply elem_of_nil in Hs.
  - unfold getOptimizationSuggestions.
    destruct (transportMode (activityDetails a)) as [m|];
      repeat case_decide; simplify_eq; simpl in *; lia.
Qed.

(** X14.  Without a goal, an activity gets the high-carbon tip exactly
    when its footprint is above the threshold of its type (10 transport,
    5 food, 8 energy, 2 waste, 3 otherwise), the low-carbon tip exactly
    when its footprint is below 1, and no tip exactly when the footprint
    is between 1 and the threshold; the two tips never compete, every
    threshold being above 1. *)
Theorem general_tip_spec (a : Activity) :
  let c := carbonFootprint a in
  let threshold := highEmissionThreshold (activityType a) in
  (Tip.type <$> generateGeneralTip a = Some info ↔ threshold < c)
  ∧ (Tip.type <$> generateGeneralTip a = Some success ↔ c < num 1)
  ∧ (generateGeneralTip a = None ↔ num 1 ≤ c ∧ c ≤ threshold)
  ∧ (∀ t, generateGeneralTip a = Some t →
          Tip.type t = info ∨ Tip.type t = success).
Proof.
  intros c threshold. unfold generateGeneralTip.
  rewrite highEmissionThreshold_lookup. fold c threshold.
  pose proof (highEmissionThreshold_above_1 (activityType a)) as Hth.
  fold threshold in Hth.
  destruct (decide (threshold < c)) as [Hhigh|Hhigh].
  - assert (¬ c < num 1) as Hlow.
    { apply Qcle_not_lt, Qclt_le_weak. by etrans. }
    split_and!; simpl.
    + done.
    + split; [discriminate|done].
    + split; [discriminate|]. intros [_ Hle]. by apply Qcle_not_lt in Hle.
    + intros t [= <-]. by left.
  - apply Qcnot_lt_le in Hhigh.
    destruct (decide (c < num 1)) as [Hlow|Hlow]; split_and!; simpl.
    + split; [discriminate|]. intros H. by apply Qcle_not_lt in Hhigh.
    + done.
    + split; [discriminate|]. intros [Hle _]. by apply Qcle_not_lt in Hle.
    + intros t [= <-]. by right.
    + split; [discriminate|]. intros H. by apply Qcle_not_lt in Hhigh.
    + split; [discriminate|done].
    + split; [|done]. intros _. split; [by apply Qcnot_lt_le | done].
    + discriminate.
Qed.

Lemma getGlobalActivityTypeAverage_positive (kind : string) :
  0 < getGlobalActivityTypeAverage kind.
Proof.
  unfold getGlobalActivityTypeAverage. cbv zeta.
  apply (or_num_positive ∅); [|qc_lt_eval].
  intros f Hf. apply elem_of_list_to_map_2 in Hf.
  repeat (apply elem_of_cons in Hf as [[= _ ->]|Hf]; [qc_le_eval|]).
  by apply elem_of_nil in Hf.
Qed.

Lemma B64_global_average_cases (kind : string) :
  B64.getGlobalActivityTypeAverage kind
  = if decide (kind = "transport") then 5%float
    else if decide (kind = "food") then 3%float
    else if decide (kind = "energy") then 2.5%float
    else if decide (kind = "waste") then 1%float
    else 2%float.
Proof.
  unfold B64.getGlobalActivityTypeAverage. cbv zeta.
  cbn [list_to_map foldr uncurry fst snd].
  destruct (decide (kind = "transport")) as [->|?]; [done|].
  rewrite lookup_insert_ne by done.
  destruct (decide (kind = "food")) as [->|?]; [done|].
  rewrite lookup_insert_ne by done.
  destruct (decide (kind = "energy")) as [->|?]; [done|].
  rewrite lookup_insert_ne by done.
  destruct (decide (kind = "waste")) as [->|?]; [done|].
  rewrite lookup_insert_ne by done.
  destruct (decide (kind = "other")) as [->|?]; [done|].
  rewrite lookup_insert_ne by done. by rewrite lookup_empty.
Qed.

Lemma B64_global_average_truthy (kind : string) :
  B64.truthy (B64.getGlobalActivityTypeAverage kind) = true.
Proof.
  rewrite B64_global_average_cases. by repeat case_decide.
Qed.

(** X15.  The average an activity is compared with is the average the
    aggregation over the user's activities of the same type in the last
    30 days answers; when it answers none, or 0, or NaN, it is the global
    average of the type, which is 5, 3, 2.5, 1 or 2.  It is never 0 and
    never NaN. *)
Theorem activity_type_average_spec (avgEmissions : option float) (kind : string) :
  let average := B64.getActivityTypeAverage avgEmissions kind in
  B64.truthy average = true
  ∧ (∀ m, avgEmissions = Some m → B64.truthy m = true → average = m)
  ∧ (∀ m, avgEmissions = Some m → B64.truthy m = false →
          average = B64.getGlobalActivityTypeAverage kind)
  ∧ (avgEmissions = None → average = B64.getGlobalActivityTypeAverage kind)
  ∧ B64.getGlobalActivityTypeAverage kind ∈ [5; 3; 2.5; 1; 2]%float.
Proof.
  intros average. unfold average, B64.getActivityTypeAverage, B64.or_num.
  pose proof (B64_global_average_truthy kind) as Hg.
  split_and!.
  - destruct avgEmissions as [m|]; [|done].
    by destruct (B64.truthy m) eqn:Hm.
  - intros m -> Hm. by rewrite Hm.
  - intros m -> Hm. by rewrite Hm.
  - by intros ->.
  - rewrite B64_global_average_cases. rewrite !elem_of_cons.
    repeat case_decide; tauto.
Qed.

(** The average over a single document is its footprint. *)
Lemma getActivityTypeAverage_only (now : Z) (uid : nat) (kind : string)
    (coll : list Activity) (a : Activity) :
  recentOfType now uid kind coll = [a] →
  getActivityTypeAverage now uid kind coll
  = or_num (Some (carbonFootprint a)) (getGlobalActivityTypeAverage kind).
Proof.
  intros Honly. unfold getActivityTypeAverage. cbv zeta.
  fold (recentOfType now uid kind coll). rewrite Honly.
  cbn [length]. change (Z.of_nat 1) with 1%Z.
  rewrite sumFootprints_singleton.
  replace (Qc_of_Z 1) with 1 by (symmetry; qc_eval).
  by rewrite (right_id 1 Qcdiv).
Qed.

(** X16.  The new activity is saved before its footprint is compared
    with the average, so it is part of the average: when it is the user's
    only activity of its type in the last 30 days, its footprint is not
    above the average, and a user with a current goal never gets the
    optimization tip for it. *)
Theorem only_activity_never_optimization (now : Z) (user : User)
    (goal : EmissionGoal.t) (coll : list Activity) (uid : nat) (a : Activity) :
  currentEmissionGoal user = Some goal →
  (now ≤ EmissionGoal.endDate goal)%Z →
  recentOfType now uid (activityType a) coll = [a] →
  ¬ (getActivityTypeAverage now uid (activityType a) coll < carbonFootprint a)
  ∧ Tip.type <$> generateRealTimeTip now (Some user) coll uid a ≠ Some info.
Proof.
  intros Hgoal Hnow Honly.
  assert (¬ (getActivityTypeAverage now uid (activityType a) coll
             < carbonFootprint a)) as Havg.
  { rewrite (getActivityTypeAverage_only now uid (activityType a) coll a Honly).
    unfold or_num. case_decide as Hz.
    - rewrite Hz. apply Qcle_not_lt, Qclt_le_weak,
        getGlobalActivityTypeAverage_positive.
    - apply Qcle_not_lt, Qcle_refl. }
  split; [exact Havg|].
  unfold generateRealTimeTip. simpl. rewrite Hgoal.
  rewrite (decide_False (P := (EmissionGoal.endDate goal < now)%Z)) by lia.
  rewrite (decide_False (P := _ < carbonFootprint a)) by exact Havg.
  repeat case_decide; discriminate.
Qed.

Lemma only_activity_never_optimization_witness :
  let a := logged "transport" 40 msPerDay in
  Tip.type <$> generateRealTimeTip (2 * msPerDay)
                 (Some (userWithEmissionGoal (emissionGoal 0 1000)))
                 [logged "food" 1 0; a] 1 a
  ≠ Some info.
Proof.
  intros a.
  refine (proj2 (only_activity_never_optimization (2 * msPerDay)
                   (userWithEmissionGoal (emissionGoal 0 1000))
                   (emissionGoal 0 1000) [logged "food" 1 0; a] 1 a
                   eq_refl _ _)).
  - vm_compute. discriminate.
  - reflexivity.
Defined.

End MoreTipFacts.

(** ** Notifications *)

Section NotificationFacts.



Lemma ge_num_trans (x : jsnum) (c1 c2 : Qc) :
  c2 ≤ c1 → ge_num x c1 = true → ge_num x c2 = true.
Proof.
  intros Hc. destruct x; simpl; try done.
  rewrite !bool_decide_eq_true. intros H. by etrans.
Qed.

(** A notification is never due below 25. *)
Lemma progress_update_at_least_25 (p : Qc) :
  shouldSendProgressUpdate (Fin p) = true → num 25 ≤ p.
Proof.
  unfold shouldSendProgressUpdate, milestone.
  rewrite andb_true_iff, !bool_decide_eq_true. intros [_ Hpos].
  assert (1 ≤ Qfloor (p / num 25))%Z as Hc by lia.
  pose proof (Qfloor_le (p / num 25)) as Hc1.
  rewrite Zle_Qle in Hc. change (inject_Z 1) with 1%Q in Hc.
  change (this (num 25)) with 25%Q in *.
  assert (this p == 25 * (p / 25))%Q as Hp25 by field.
  revert Hc Hc1 Hp25. generalize (Qfloor (this p / 25)).
  generalize (this p / 25)%Q. intros y n Hc Hc1 Hp25.
  unfold Qcle. change (this (num 25)) with 25%Q. lra.
Qed.

(** X18.  Whenever a milestone notification is due the progress is 25 or
    more, so a message exists for it: the weekly progress route sends the
    [goal_milestone] event exactly when the notification is due. *)
Theorem milestone_event_sent (progress : WeeklyProgress.t) :
  is_Some (goalMilestone progress)
  ↔ shouldSendProgressUpdate (WeeklyProgress.progressPercentage progress) = true.
Proof.
  unfold goalMilestone.
  destruct (shouldSendProgressUpdate _) eqn:Hsend.
  2:{ split; [by intros [? ?]|discriminate]. }
  split; [done|]. intros _.
  destruct (WeeklyProgress.progressPercentage progress) as [p| | |] eqn:Hp;
    try discriminate.
  assert (ge_num (Fin p) (num 25) = true) as H25.
  { simpl. apply bool_decide_eq_true. by apply progress_update_at_least_25. }
  unfold getMilestoneMessage.
  destruct (ge_num (Fin p) (num 100)); [by eexists|].
  destruct (ge_num (Fin p) (num 75)); [by eexists|].
  destruct (ge_num (Fin p) (num 50)); [by eexists|].
  rewrite H25. by eexists.
Qed.

End NotificationFacts.

(** ** Rounded percentages and the decisions taken on them *)

Section RoundedDecisions.







(** X19.  A trend alert is sent exactly when the previous week's total
    is positive, the binary64 change is positive, the binary64
    percentage is above 5 in magnitude and, once it has gone through
    [toFixed(1)], above 15.  Weeks before the last two play no part, and
    a series of fewer than two weeks never gives an alert. *)
Theorem trend_alert_threshold :
  (∀ l : list B64.Bucket, (length l < 2)%nat →
     B64.shouldSendTrendAlert (B64.calculateTrendDirection l) = false)
  ∧ ∀ (pre : list B64.Bucket) (b0 b1 : B64.Bucket),
      let prev := B64.totalEmissions b0 in
      let change := (B64.totalEmissions b1 - prev)%float in
      let p := (change / prev * 100)%float in
      B64.shouldSendTrendAlert (B64.calculateTrendDirection (pre ++ [b0; b1]))
      = true
      ↔ (0 <? prev)%float = true
        ∧ (0 <? change)%float = true
        ∧ (5 <? abs p)%float = true
        ∧ (15 <? abs (B64.toFixed_num 1 p))%float = true.
Proof.
  split.
  { intros l Hl. unfold B64.calculateTrendDirection. by rewrite decide_True. }
  intros pre b0 b1 prev change p.
  rewrite B64_calculateTrendDirection_last2. cbv zeta.
  fold prev. fold change.
  unfold B64.shouldSendTrendAlert, B64.Math_abs.
  cbn [B64.direction B64.percentageChange].
  destruct (0 <? prev)%float.
  - fold p.
    destruct (5 <? abs p)%float; destruct (0 <? change)%float;
      split; try done; try (by intros (_ & ? & ? & _)).
    by intros (_ & _ & _ & ?).
  - change (5 <? abs 0)%float with false. cbv iota.
    split; [discriminate|]. by intros [? _].
Qed.

(** From 100 to 115.05 the binary64 percentage is 15.049999999999997,
    which is reported as 15: no alert.  From 100 to 115.06 it is reported
    as 15.1. *)
Example B64_trend_alert_at_15 :
  B64.shouldSendTrendAlert
    (B64.calculateTrendDirection [B64.week 100; B64.week 115.05]) = false
  ∧ B64.percentageChange
      (B64.calculateTrendDirection [B64.week 100; B64.week 115.05])
    = Some 15%float
  ∧ B64.shouldSendTrendAlert
      (B64.calculateTrendDirection [B64.week 100; B64.week 115.06]) = true
  ∧ B64.percentageChange
      (B64.calculateTrendDirection [B64.week 100; B64.week 115.06])
    = Some 15.1%float.
Proof. split_and!; vm_compute; reflexivity. Qed.

End RoundedDecisions.

Section GoalStatusFacts.






End GoalStatusFacts.

Section GoalStartFacts.

(** X21.  The tips sent when an emission goal is set: at most three; by
    category, and for the category all the first three of the list, so
    that an energy tip is sent only for the category energy; none for a
    missing category or any other word.  The target and the baseline
    play no part. *)
Theorem goal_start_tips_spec (category : option string)
    (targetEmissions baselineEmissions : Qc) :
  let tips := getGoalStartTips category targetEmissions baselineEmissions in
  (length tips ≤ 3)%nat
  ∧ ("Lower thermostat by 2°C when away" ∈ tips ↔ category = Some "energy")
  ∧ (tips = [] ↔ ∀ c, category = Some c →
                      c ∉ ["transport"; "food"; "energy"; "all"])
  ∧ tips = getGoalStartTips category 0 0.
Proof.
  assert (∀ (l : list string) (s : string),
            bool_decide (s ∈ l) = false → s ∉ l) as Hnotin.
  { intros l s H. by apply bool_decide_eq_false in H. }
  assert (∀ (l : list string) (s : string),
            bool_decide (s ∈ l) = true → s ∈ l) as Hin.
  { intros l s H. by apply bool_decide_eq_true in H. }
  destruct category as [c|].
  2:{ cbv zeta. split_and!; [simpl; lia | | | done].
      - split; [|done]. intros H. exfalso. revert H. apply Hnotin. vm_compute. reflexivity.
      - split; [|done]. by intros _ c [=]. }
  destruct (decide (c = "transport")) as [->|H1];
    [|destruct (decide (c = "food")) as [->|H2];
      [|destruct (decide (c = "energy")) as [->|H3];
        [|destruct (decide (c = "all")) as [->|H4]]]].
  5:{ assert (getGoalStartTips (Some c) targetEmissions baselineEmissions = [])
        as ->.
      { unfold getGoalStartTips.
        rewrite !bool_decide_eq_false_2; [done|by intros [[=]|[=]]..]. }
      split_and!; [simpl; lia | | |].
      - split; [by intros ?%elem_of_nil|]. by intros [=].
      - split; [|done]. intros _ c' [= <-].
        repeat (apply not_elem_of_cons; split; [done|]).
        apply not_elem_of_nil.
      - unfold getGoalStartTips.
        rewrite !bool_decide_eq_false_2; [done|by intros [[=]|[=]]..]. }
  all: cbv zeta; split_and!; [simpl; lia | | | done].
  all: try (split; [discriminate|]; intros H; exfalso;
            apply (H _ eq_refl), Hin; vm_compute; reflexivity).
  - split; [|discriminate]. intros H. exfalso. revert H. apply Hnotin. vm_compute. reflexivity.
  - split; [|discriminate]. intros H. exfalso. revert H. apply Hnotin. vm_compute. reflexivity.
  - split; [done|]. intros _. apply Hin. vm_compute. reflexivity.
  - split; [|discriminate]. intros H. exfalso. revert H. apply Hnotin. vm_compute. reflexivity.
Qed.

End GoalStartFacts.

(** ** The weekly analysis *)

Section WeeklyAnalysisFacts.

Lemma lookupKey_cons {A} (k k0 : string) (v : A) (obj : list (string * A)) :
  lookupKey k ((k0, v) :: obj)
  = if decide (k0 = k) then Some v else lookupKey k obj.
Proof.
  unfold lookupKey. simpl. case_decide.
  - by rewrite bool_decide_eq_true_2.
  - by rewrite bool_decide_eq_false_2.
Qed.

Lemma lookupKey_setKey_eq {A} (k : string) (v : A) (obj : list (string * A)) :
  lookupKey k (setKey k v obj) = Some v.
Proof.
  induction obj as [|[k' old] rest IH]; simpl.
  - by rewrite lookupKey_cons, decide_True.
  - case_decide as Hk; rewrite lookupKey_cons.
    + by rewrite decide_True.
    + by rewrite decide_False.
Qed.

Lemma lookupKey_setKey_ne {A} (k k' : string) (v : A) (obj : list (string * A)) :
  k ≠ k' → lookupKey k' (setKey k v obj) = lookupKey k' obj.
Proof.
  intros Hne. induction obj as [|[k0 old] rest IH]; simpl.
  - by rewrite lookupKey_cons, decide_False.
  - case_decide as Hk; rewrite !lookupKey_cons.
    + subst k0. by rewrite !decide_False.
    + case_decide; [done|exact IH].
Qed.






Lemma analyseWeek_snoc (l : list Activity) (a : Activity) :
  analyseWeek (l ++ [a])
  = (addToCategory (analyseWeek l).1 a, (analyseWeek l).2 + carbonFootprint a).
Proof.
  unfold analyseWeek. rewrite foldl_snoc.
  by destruct (foldl _ _ l).
Qed.





(** X22.  After the loop of the weekly analysis a category has an entry
    exactly when the week has an activity of that type; the entry holds
    the sum of the footprints of these activities, their number, and
    their records in the order of the query answer. *)
Theorem category_analysis_spec (weekActivities : list Activity)
    (category : string) :
  let ofCategory := filter (λ a, activityType a = category) weekActivities in
  match lookupKey category (analyseWeek weekActivities).1 with
  | Some data =>
      ofCategory ≠ []
      ∧ CategoryData.totalEmissions data = sumFootprints ofCategory
      ∧ CategoryData.activityCount data = length ofCategory
      ∧ CategoryData.activities data = itemOf <$> ofCategory
  | None => ofCategory = []
  end.
Proof.
  cbv zeta.
  induction weekActivities as [|a l IH] using rev_ind; [done|].
  rewrite analyseWeek_snoc, filter_app. cbn [fst].
  unfold addToCategory.
  destruct (decide (activityType a = category)) as [Ha|Ha].
  - rewrite filter_cons_True, filter_nil by done.
    rewrite sumFootprints_app, sumFootprints_singleton, length_app, fmap_app.
    rewrite Ha, lookupKey_setKey_eq.
    cbn [CategoryData.totalEmissions CategoryData.activityCount
         CategoryData.activities length fmap list_fmap].
    fold (itemOf a).
    destruct (lookupKey category (analyseWeek l).1) as [data|].
    + destruct IH as (_ & Ht & Hc & Hi). cbn [default from_option id].
      rewrite Ht, Hc, Hi.
      split_and!; [|done..]. by intros [_ [=]]%app_eq_nil.
    + rewrite IH. cbn [default from_option id].
      cbn [CategoryData.totalEmissions CategoryData.activityCount
           CategoryData.activities].
      split_and!; done.
  - rewrite lookupKey_setKey_ne by done.
    rewrite filter_cons_False, filter_nil, app_nil_r by done.
    exact IH.
Qed.


End WeeklyAnalysisFacts.

(** ** Recommendations *)

Section RecommendationFacts.

Lemma categoryTotal_snoc (c : string) (l : list Activity) (a : Activity) :
  categoryTotal c (l ++ [a])
  = categoryTotal c l
    + (if decide (activityType a = c) then carbonFootprint a else 0).
Proof.
  unfold categoryTotal. rewrite filter_app, sumFootprints_app. f_equal.
  case_decide.
  - rewrite filter_cons_True by done. apply sumFootprints_singleton.
  - by rewrite filter_cons_False by done.
Qed.

(** The loop of [analyzeActivityPatterns] sums the footprints by type. *)
Lemma categoryEmissionsOf_lookup (l : list Activity) (c : string) :
  or_num (categoryEmissionsOf l !! c) 0 = categoryTotal c l.
Proof.
  induction l as [|a l IH] using rev_ind; [done|].
  unfold categoryEmissionsOf. rewrite foldl_snoc.
  fold (categoryEmissionsOf l). rewrite categoryTotal_snoc.
  case_decide as Ha.
  - rewrite Ha, lookup_insert_eq, IH. apply or_num_self.
  - rewrite lookup_insert_ne by done. rewrite IH. ring.
Qed.

(** A recommendation on transport or food is answered on its pattern. *)
Lemma recommended_on_share (activities : list Activity) (userId : nat)
    (category : string) :
  category ∈ ["transport"; "food"] →
  category
  ∈ (Recommendation.type
       <$> generatePersonalizedRecommendations activities userId) →
  ∃ share, 0 < share
           ∧ sumFootprints activities * share
             < categoryTotal category activities.
Proof.
  intros Hcat. unfold generatePersonalizedRecommendations.
  rewrite !fmap_app.
  pose proof (categoryEmissionsOf_lookup activities) as Hlook.
  unfold analyzeActivityPatterns.
  cbn [highTransportEmissions highFoodEmissions inconsistentLogging].
  rewrite !Hlook. intros Hin.
  repeat (apply elem_of_app in Hin as [Hin|Hin]);
    case_bool_decide as Hd; try (by apply elem_of_nil in Hin);
    apply list_elem_of_singleton in Hin; cbn in Hin; subst category.
  - exists (num 0.4). split; [qc_lt_eval|done].
  - exists (num 0.3). split; [qc_lt_eval|done].
  - repeat (apply elem_of_cons in Hcat as [[=]|Hcat]).
    by apply elem_of_nil in Hcat.
Qed.

(** X26.  The recommendations are, in this order, at most one on
    transport, one on food and one on tracking; the one on tracking is
    there exactly when fewer than 14 activities were analysed; there is
    never one on energy, whatever its share; and a user without
    activities gets the one on tracking alone. *)
Theorem recommendation_types_spec (activities : list Activity) (userId : nat) :
  let types :=
    Recommendation.type
      <$> generatePersonalizedRecommendations activities userId in
  (types `sublist_of` ["transport"; "food"; "tracking"])
  ∧ ("tracking" ∈ types ↔ (length activities < 14)%nat)
  ∧ ("energy" ∉ types)
  ∧ (activities = [] → types = ["tracking"]).
Proof.
  cbv zeta.
  assert (inconsistentLogging (analyzeActivityPatterns activities)
          = bool_decide (length activities < 14)%nat) as Hlog by reflexivity.
  split_and!.
  4:{ intros ->. vm_compute. reflexivity. }
  all: unfold generatePersonalizedRecommendations; rewrite Hlog.
  all: destruct (highTransportEmissions _), (highFoodEmissions _);
    case_bool_decide as Hlen; cbn [fmap list_fmap app Recommendation.type].
  all: try (apply (bool_decide_unpack _); vm_compute; exact I).
  all: try (repeat first [ apply sublist_nil | apply sublist_skip
                         | apply sublist_cons ]; fail).
  all: split; intros H;
    [ first [ exact Hlen
            | exfalso;
              repeat (apply elem_of_cons in H as [H|H]; [discriminate|]);
              by apply elem_of_nil in H ]
    | first [ apply (bool_decide_unpack _); vm_compute; exact I | done ] ].
Qed.

Lemma sumFootprints_positive (l : list Activity) :
  0 < sumFootprints l → ∃ a, a ∈ l ∧ 0 < carbonFootprint a.
Proof.
  induction l as [|a l IH] using rev_ind.
  - intros H. by vm_compute in H.
  - rewrite sumFootprints_app, sumFootprints_singleton. intros Hpos.
    destruct (decide (0 < carbonFootprint a)) as [Ha|Ha].
    + exists a. split; [|done]. apply elem_of_app. right. by left.
    + destruct IH as (b & Hb & Hpb).
      * apply Qcnot_lt_le in Ha. revert Hpos Ha.
        generalize (sumFootprints l) (carbonFootprint a). intros s f.
        qc_unfold. change (this 0) with 0%Q. lra.
      * exists b. split; [|done]. apply elem_of_app. by left.
Qed.

Lemma sumFootprints_nonneg (l : list Activity) :
  (∀ a, a ∈ l → 0 ≤ carbonFootprint a) → 0 ≤ sumFootprints l.
Proof.
  induction l as [|a l IH] using rev_ind; intros Hall.
  - apply Qcle_refl.
  - rewrite sumFootprints_app, sumFootprints_singleton.
    rewrite <- (Qcplus_0_l 0). apply Qcplus_le_compat.
    + apply IH. intros b Hb. apply Hall, elem_of_app. by left.
    + apply Hall, elem_of_app. right. by left.
Qed.

(** X27.  When no footprint of the period is negative, transport is
    recommended only to a user who logged a transport activity with a
    positive footprint, and likewise for food. *)
Theorem recommendation_has_cause (activities : list Activity) (userId : nat)
    (category : string) :
  (∀ a, a ∈ activities → 0 ≤ carbonFootprint a) →
  category ∈ ["transport"; "food"] →
  category
  ∈ (Recommendation.type
       <$> generatePersonalizedRecommendations activities userId) →
  ∃ a, a ∈ activities ∧ activityType a = category ∧ 0 < carbonFootprint a.
Proof.
  intros Hall Hcat Hin.
  destruct (recommended_on_share activities userId category Hcat Hin)
    as (share & Hshare & Hlt).
  pose proof (sumFootprints_nonneg activities Hall) as Htotal.
  assert (0 < categoryTotal category activities) as Hpos.
  { eapply Qcle_lt_trans; [|exact Hlt].
    rewrite <- (Qcmult_0_l share).
    apply Qcmult_le_compat_r; [done|by apply Qclt_le_weak]. }
  apply sumFootprints_positive in Hpos as (a & Ha & Hp).
  apply list_elem_of_filter in Ha as [Hc Ha]. by exists a.
Qed.

Lemma recommendation_has_cause_witness :
  ∃ a, a ∈ [logged "transport" 5 0; logged "food" 1 0]
       ∧ activityType a = "transport" ∧ 0 < carbonFootprint a.
Proof.
  apply (recommendation_has_cause
           [logged "transport" 5 0; logged "food" 1 0] 1 "transport").
  - intros a [->|[->|[]%elem_of_nil]%elem_of_cons]%elem_of_cons; qc_le_eval.
  - by left.
  - apply (bool_decide_unpack _). vm_compute. exact I.
Defined.

End RecommendationFacts.

(** ** Streaks *)

Section StreakFacts.

Lemma finalStreak_cons (c : Z) (rest : list Z) (longest temp : nat) :
  finalStreak (c :: rest) longest temp
  = if match rest with
       | n :: _ => bool_decide (1 < n - c)%Z
       | [] => true
       end
    then finalStreak rest (longest `max` S temp) 0
    else finalStreak rest longest (S temp).
Proof.
  unfold finalStreak. cbn [longestStreakLoop].
  destruct rest as [|n rest']; [done|]. by case_bool_decide.
Qed.

Lemma finalStreak_ge_longest (s : list Z) (longest temp : nat) :
  (longest ≤ finalStreak s longest temp)%nat.
Proof.
  revert longest temp. induction s as [|c rest IH]; intros longest temp.
  - unfold finalStreak. simpl. lia.
  - rewrite finalStreak_cons.
    destruct rest as [|n rest']; [|case_bool_decide];
      (etrans; [|apply IH]; lia).
Qed.

Lemma finalStreak_le_length (s : list Z) (longest temp : nat) :
  (finalStreak s longest temp ≤ longest `max` (temp + length s))%nat.
Proof.
  revert longest temp. induction s as [|c rest IH]; intros longest temp.
  - unfold finalStreak. simpl. lia.
  - rewrite finalStreak_cons.
    destruct rest as [|n rest']; [|case_bool_decide];
      (etrans; [apply IH|]; simpl; lia).
Qed.

(** In a list of days in increasing order the day after the first one,
    when it is listed, comes next. *)
Lemma next_day_is_next (c : Z) (rest : list Z) :
  StronglySorted Z.lt (c :: rest) → (c + 1)%Z ∈ rest →
  ∃ rest', rest = (c + 1)%Z :: rest'.
Proof.
  intros [Hrest Hall]%StronglySorted_inv Hin.
  destruct rest as [|n rest']; [by apply elem_of_nil in Hin|].
  apply StronglySorted_inv in Hrest as [_ Hn].
  apply Forall_cons in Hall as [Hc _].
  apply elem_of_cons in Hin as [->|Hin]; [by eexists|].
  rewrite Forall_forall in Hn. specialize (Hn _ Hin). lia.
Qed.

(** A run of [k] consecutive days from the first date on adds [k] to the
    streak that is being counted. *)
Lemma finalStreak_ge_run (rest : list Z) :
  ∀ (c : Z) (k longest temp : nat),
    StronglySorted Z.lt (c :: rest) →
    (∀ j : nat, (j < k)%nat → (c + Z.of_nat j)%Z ∈ c :: rest) →
    (temp + k ≤ finalStreak (c :: rest) longest temp)%nat.
Proof.
  induction rest as [|n rest' IH]; intros c k longest temp Hs Hrun.
  - rewrite finalStreak_cons.
    assert (k ≤ 1)%nat.
    { destruct k as [|[|k]]; [lia..|].
      specialize (Hrun 1%nat ltac:(lia)).
      apply list_elem_of_singleton in Hrun. lia. }
    etrans; [|apply finalStreak_ge_longest]. lia.
  - rewrite finalStreak_cons.
    destruct k as [|[|k]].
    + destruct (bool_decide _).
      * etrans; [|apply finalStreak_ge_longest]. lia.
      * etrans; [|apply (IH n 0%nat)]; [lia| |].
        -- by apply StronglySorted_inv in Hs as [? _].
        -- intros j Hj. lia.
    + destruct (bool_decide _).
      * etrans; [|apply finalStreak_ge_longest]. lia.
      * etrans; [|apply (IH n 0%nat)]; [lia| |].
        -- by apply StronglySorted_inv in Hs as [? _].
        -- intros j Hj. lia.
    + assert ((c + 1)%Z ∈ n :: rest') as Hnext.
      { specialize (Hrun 1%nat ltac:(lia)).
        apply elem_of_cons in Hrun as [Hrun|Hrun]; [lia|done]. }
      destruct (next_day_is_next c (n :: rest') Hs Hnext) as (r & [= -> <-]).
      rewrite bool_decide_eq_false_2 by lia.
      etrans; [|apply (IH (c + 1)%Z (S k))]; [lia| |].
      * by apply StronglySorted_inv in Hs as [? _].
      * intros j Hj. specialize (Hrun (S j) ltac:(lia)).
        apply elem_of_cons in Hrun as [Hrun|Hrun]; [lia|].
        replace (c + 1 + Z.of_nat j)%Z with (c + Z.of_nat (S j))%Z by lia. done.
Qed.

(** A run of [k] consecutive days anywhere in the dates is a streak. *)
Lemma finalStreak_ge_run_anywhere (s : list Z) :
  ∀ (c : Z) (k longest temp : nat),
    StronglySorted Z.lt s →
    (0 < k)%nat →
    (∀ j : nat, (j < k)%nat → (c + Z.of_nat j)%Z ∈ s) →
    (k ≤ finalStreak s longest temp)%nat.
Proof.
  induction s as [|x rest IH]; intros c k longest temp Hs Hk Hrun.
  - specialize (Hrun 0%nat Hk). by apply elem_of_nil in Hrun.
  - destruct (decide (x = c)) as [->|Hx].
    + etrans; [|by apply (finalStreak_ge_run rest c k)]. lia.
    + pose proof Hs as [Hrest Hall]%StronglySorted_inv.
      rewrite Forall_forall in Hall.
      assert (∀ j : nat, (j < k)%nat → (c + Z.of_nat j)%Z ∈ rest) as Hrun'.
      { pose proof (Hrun 0%nat Hk) as H0.
        apply elem_of_cons in H0 as [H0|H0]; [lia|].
        specialize (Hall _ H0).
        intros j Hj. specialize (Hrun j Hj).
        apply elem_of_cons in Hrun as [Hrun|Hrun]; [lia|done]. }
      rewrite finalStreak_cons.
      destruct rest as [|n rest']; [|case_bool_decide]; by apply (IH c).
Qed.

Lemma dateKey_fixedOffset (today : Z) (i : nat) :
  dateKey (fixedOffset today i) = (dateKey today - Z.of_nat i)%Z.
Proof.
  unfold dateKey, fixedOffset.
  replace (today - Z.of_nat i * msPerDay)%Z
    with (today + (- Z.of_nat i) * msPerDay)%Z by lia.
  rewrite Z.div_add by (vm_compute; discriminate). lia.
Qed.

Lemma currentStreakLoop_days (daysBefore : Z → nat → Z)
    (m : gmap Z (list Activity)) (today : Z) (n : nat) :
  ∀ (i j : nat),
    (j < currentStreakLoop daysBefore m today i n)%nat →
    is_Some (m !! dateKey (daysBefore today (i + j)%nat)).
Proof.
  induction n as [|n IH]; intros i j Hj; simpl in Hj; [lia|].
  case_bool_decide as Hday; [|lia].
  destruct j as [|j].
  - rewrite Nat.add_0_r.
    destruct (m !! dateKey (daysBefore today i)); [by eexists|simpl in Hday; lia].
  - replace (i + S j)%nat with (S i + j)%nat by lia.
    apply IH. lia.
Qed.

Lemma currentStreakLoop_le (daysBefore : Z → nat → Z)
    (m : gmap Z (list Activity)) (today : Z) (n i : nat) :
  (currentStreakLoop daysBefore m today i n ≤ n)%nat.
Proof.
  revert i. induction n as [|n IH]; intros i; simpl; [lia|].
  case_bool_decide; [|lia]. specialize (IH (S i)). lia.
Qed.

Lemma sortedDates_increasing (m : gmap Z (list Activity)) :
  StronglySorted Z.lt (merge_sort Z.le (map_to_list m).*1).
Proof.
  assert (NoDup (merge_sort Z.le (map_to_list m).*1)) as Hnd.
  { rewrite merge_sort_Permutation. apply NoDup_fst_map_to_list. }
  pose proof (StronglySorted_merge_sort Z.le (map_to_list m).*1) as Hs.
  revert Hnd Hs. generalize (merge_sort Z.le (map_to_list m).*1). intros s.
  induction s as [|x s IH]; [constructor|].
  intros [Hx Hnd]%NoDup_cons [Hs Hall]%StronglySorted_inv.
  constructor; [by apply IH|].
  rewrite Forall_forall in Hall |- *. intros y Hy.
  specialize (Hall y Hy). assert (x ≠ y) by (by intros ->). lia.
Qed.

(** X28.  Where the offset of the server's time zone does not change
    over the days the loop steps back, the current streak is at most the
    longest streak; the longest streak is at most the number of days
    with an activity; and the current streak is at most 90. *)
Theorem streak_bounds (daysBefore : Z → nat → Z) (today : Z)
    (activities : list Activity) :
  (∀ i : nat, (i < 90)%nat → daysBefore today i = fixedOffset today i) →
  let answer := streak daysBefore today activities in
  (currentStreak answer ≤ longestStreak answer)%nat
  ∧ (longestStreak answer ≤ totalDays answer)%nat
  ∧ (currentStreak answer ≤ 90)%nat.
Proof.
  intros Hzone. cbv zeta. unfold streak.
  set (m := groupByDay activities).
  set (s := merge_sort Z.le (map_to_list m).*1).
  pose proof (finalStreak_le_length s 0 0) as Hlen.
  pose proof (currentStreakLoop_days daysBefore m today 90 0) as Hdays.
  pose proof (currentStreakLoop_le daysBefore m today 90 0) as H90.
  pose proof (finalStreak_ge_run_anywhere s
                (dateKey today
                 - Z.of_nat (currentStreakLoop daysBefore m today 0 90 - 1))%Z
                (currentStreakLoop daysBefore m today 0 90) 0 0
                (sortedDates_increasing m)) as Hrun.
  unfold finalStreak in Hlen, Hrun.
  destruct (longestStreakLoop s 0 0) as [longest temp].
  cbn [currentStreak longestStreak totalDays fst snd] in *.
  assert (length s = length (map_to_list m).*1) as Hs
    by (unfold s; by rewrite merge_sort_Permutation).
  split_and!; [|lia|done].
  destruct (currentStreakLoop daysBefore m today 0 90) as [|k] eqn:Hk; [lia|].
  apply Hrun; [lia|]. intros j Hj.
  unfold s. rewrite merge_sort_Permutation.
  specialize (Hdays (k - j)%nat ltac:(lia)) as [l Hl].
  rewrite Nat.add_0_l, Hzone, dateKey_fixedOffset in Hl by lia.
  apply list_elem_of_fmap. exists ((dateKey today - Z.of_nat (k - j))%Z, l).
  split; [simpl; lia|]. by apply elem_of_map_to_list.
Qed.

(** Activities on days 10, 11 and 12, seen from day 12 in a zone with a
    fixed offset. *)
Lemma streak_bounds_witness :
  let answer :=
    streak fixedOffset (12 * msPerDay + 1800000)
      [logged "food" 1 (12 * msPerDay); logged "food" 1 (11 * msPerDay);
       logged "food" 1 (10 * msPerDay)] in
  (currentStreak answer ≤ longestStreak answer)%nat
  ∧ (longestStreak answer ≤ totalDays answer)%nat
  ∧ (currentStreak answer ≤ 90)%nat.
Proof.
  apply (streak_bounds fixedOffset). intros i _. reflexivity.
Defined.

(** Across the end of a summer time the bound fails.  The server is two
    hours ahead of UTC until 01:00 UTC of day 2 and one hour from then
    on; it is 00:30 UTC of day 3, 01:30 on the server.  Stepping back one
    day gives 01:30 of the server's day 2, which is 23:30 UTC of day 1:
    day 2 is never looked up.  With activities on days 0, 1 and 3 the
    current streak is 3 and the longest streak 2. *)
Example streak_across_clock_change :
  let hour := 3600000%Z in
  let answer :=
    streak (clockChange (2 * msPerDay + hour) (2 * hour) hour)
      (3 * msPerDay + 1800000)
      [logged "food" 1 (3 * msPerDay + hour);
       logged "food" 1 (msPerDay + hour);
       logged "food" 1 hour] in
  currentStreak answer = 3%nat ∧ longestStreak answer = 2%nat.
Proof. split; vm_compute; reflexivity. Qed.

End StreakFacts.
